(** * Trading bot: order execution scheduler and strategy supervisor

    A shallow embedding of
      backend/app/services/trading_logic.py
      backend/app/services/advanced_orders.py
      backend/app/services/binance_client.py
    together with the properties of the design document that can be
    decided on it. *)

From Stdlib Require Import ZArith NArith QArith Qpower Floats Bool List String Lia.
From stdpp Require Import gmap strings.
Import ListNotations.

Set Default Proof Using "Type*".
Set Warnings "-inexact-float".

(** ** Python exceptions and results *)

(** The texts of the [ValueError]s raised by the services. *)
Inductive value_error :=
| QuantityRequired       (* "Quantity is required for order placement." *)
| InvalidQuantityValue   (* "Invalid quantity value: ..." *)
| RoundsDownToZero       (* "Quantity ... rounds down to zero with step size ..." *)
| BelowMinimum           (* "Quantity ... is below Binance minimum ..." *)
| StopPriceRequired      (* "stopPrice is required for STOP_MARKET orders." *)
| PriceRequired          (* "price is required for LIMIT orders." *)
| CouldNotConvertToFloat.  (* "could not convert string to float: ..." *)

Inductive exn :=
| BinanceAPIException (code : Z) (message : string)
| BinanceOrderException
| ValueError (why : value_error)
| InvalidOperation
| TypeError
| ZeroDivisionError
| KeyError
| OtherException.

(** [inl e] is [raise e], [inr v] is [return v]. *)
Definition result (A : Type) : Type := (exn + A)%type.

Definition raise {A} (e : exn) : result A := inl e.
Definition ret {A} (a : A) : result A := inr a.
Definition bind {A B} (m : result A) (k : A -> result B) : result B :=
  match m with inl e => inl e | inr a => k a end.

Declare Scope py_scope.
Delimit Scope py_scope with py.
Notation "'let!' x ':=' m 'in' k" := (bind m (fun x => k))
  (at level 10, x name, m at level 100, k at level 200) : py_scope.

(** ** The [decimal] module, as far as the services use it

    Finite decimals only: a sign, a coefficient and an exponent, as
    [Decimal.as_tuple()] shows them.  The context is Python's default one:
    28 digits of precision, ROUND_HALF_EVEN.  The bounds [Emin] and [Emax]
    of the context (exponents beyond +-999999) are not modelled. *)
Module decimal.

Record Decimal := mk { sign : bool; coeff : N; exponent : Z }.

Definition signed (d : Decimal) : Z :=
  if sign d then (- Z.of_N (coeff d))%Z else Z.of_N (coeff d).

(** The number a decimal denotes. *)
Definition value (d : Decimal) : Q := inject_Z (signed d) * 10 ^ exponent d.

(** [d == 0] *)
Definition is_zero (d : Decimal) : bool := (coeff d =? 0)%N.

(** [a < b] *)
Definition ltb (a b : Decimal) : bool := negb (Qle_bool (value b) (value a)).

(** [10 ** prec], the first coefficient that no longer fits the context. *)
Definition limit : N := (10 ^ 28)%N.

(** [Decimal._rescale(exp, ROUND_DOWN)]: the same number written with
    exponent [e], digits beyond it cut off. *)
Definition rescale_down (d : Decimal) (e : Z) : Decimal :=
  if (e <=? exponent d)%Z
  then mk (sign d) (coeff d * 10 ^ Z.to_N (exponent d - e)) e
  else mk (sign d) (coeff d / 10 ^ Z.to_N (e - exponent d)) e.

(** [c / p] rounded to the nearest integer, ties to the even one. *)
Definition round_half_even (c p : N) : N :=
  let q := (c / p)%N in
  let r := (c mod p)%N in
  if ((p <? 2 * r) || ((2 * r =? p) && N.odd q))%N then (q + 1)%N else q.

(** [Decimal._rescale(exp, ROUND_HALF_EVEN)] *)
Definition rescale_half_even (d : Decimal) (e : Z) : Decimal :=
  if (e <=? exponent d)%Z
  then mk (sign d) (coeff d * 10 ^ Z.to_N (exponent d - e)) e
  else mk (sign d) (round_half_even (coeff d) (10 ^ Z.to_N (e - exponent d))) e.

(** [d.quantize(exp, rounding=ROUND_DOWN)]: [d] rescaled to the exponent of
    [exp]; signals [InvalidOperation] when the result does not fit the
    precision of the context. *)
Definition quantize (d exp : Decimal) : result Decimal :=
  let ans := rescale_down d (exponent exp) in
  if (coeff ans <? limit)%N then ret ans else raise InvalidOperation.

(** Number of digits of [c] beyond the precision of the context. *)
Fixpoint excess (fuel : nat) (c : N) : Z :=
  match fuel with
  | O => 0
  | S fuel' => if (c <? limit)%N then 0 else 1 + excess fuel' (c / 10)%N
  end.

(** [Decimal._fix(context)]: round to the precision of the context. *)
Definition fix_ (d : Decimal) : Decimal :=
  if (coeff d <? limit)%N then d
  else
    let r := rescale_half_even d (exponent d + excess (N.to_nat (N.size (coeff d))) (coeff d)) in
    if (coeff r <? limit)%N then r
    else mk (sign r) (coeff r / 10) (exponent r + 1).

(** Removal of trailing zeros of the coefficient. *)
Fixpoint strip (fuel : nat) (c : N) (e : Z) : N * Z :=
  match fuel with
  | O => (c, e)
  | S fuel' => if (c mod 10 =? 0)%N then strip fuel' (c / 10)%N (e + 1)%Z else (c, e)
  end.

(** [d.normalize()] *)
Definition normalize (d : Decimal) : Decimal :=
  let dup := fix_ d in
  if (coeff dup =? 0)%N then mk (sign dup) 0 0
  else
    let '(c, e) := strip (N.to_nat (N.size (coeff dup))) (coeff dup) (exponent dup) in
    mk (sign dup) c e.

(** [f"{d:.{precision}f}"]: the text is the fixed-point numeral of [d]
    rounded half-even to [precision] places; it is represented by the
    decimal that [Decimal(text)] reads back, whose exponent is
    [- precision]. *)
Definition format_f (d : Decimal) (precision : Z) : Decimal :=
  rescale_half_even d (- precision).

End decimal.

Import decimal.
Open Scope py_scope.

#[export] Instance Decimal_eq_dec : EqDecision Decimal.
Proof. solve_decision. Defined.

(** ** Exchange filters and the quantity normaliser (trading_logic.py) *)

(** An entry of a filter dict that holds a decimal numeral: absent (or
    falsy), a text [Decimal] rejects, or a numeral. *)
Inductive field := Missing | Unparsable | Num (d : Decimal).

Record exchange_filter := {
  filterType : option string;
  stepSize : field;
  minQty : field
}.

(** [symbol_info.get('filters', [])]; the empty dict cached after a failed
    lookup has no filters. *)
Definition symbol_info := list exchange_filter.

(** The argument [quantity] as [Decimal(str(quantity))] reads it. *)
Inductive quantity_arg :=
| QNone                    (* quantity is None *)
| QInvalid                 (* the text is no decimal numeral *)
| QSpecial                 (* the text reads as NaN or as an infinity *)
| QDec (d : Decimal).

Definition is_lot_size (f : exchange_filter) : bool :=
  bool_decide (filterType f = Some "LOT_SIZE"%string).

(** [Decimal(entry or default)] *)
Definition parse_field (entry : field) (default : Decimal) : option Decimal :=
  match entry with
  | Missing => Some default
  | Unparsable => None
  | Num d => Some d
  end.

Definition implied_precision (d : Decimal) : Z :=
  Z.max 0 (- exponent (normalize d)).

(** The body of [TradingLogic._normalize_quantity] once the symbol info is
    at hand. *)
Definition normalize_with (filters : symbol_info) (quantity : quantity_arg)
  : result Decimal :=
  match quantity with
  | QNone => raise (ValueError QuantityRequired)
  | QInvalid => raise (ValueError InvalidQuantityValue)
  | QSpecial => raise TypeError    (* the exponent of a special value has no negation *)
  | QDec quantity_decimal =>
    let default_precision := implied_precision quantity_decimal in
    let fallback_str := format_f quantity_decimal default_precision in
    match List.find is_lot_size filters with
    | None => ret fallback_str
    | Some lot_filter =>
      match parse_field (stepSize lot_filter) (mk false 1 0),
            parse_field (minQty lot_filter) (mk false 0 0) with
      | Some step_size, Some min_qty =>
        if is_zero step_size then ret fallback_str
        else
          let! normalized := quantize quantity_decimal step_size in
          if is_zero normalized then raise (ValueError RoundsDownToZero)
          else if ltb normalized min_qty then raise (ValueError BelowMinimum)
          else
            let precision := implied_precision step_size in
            ret (format_f normalized precision)
      | _, _ => ret fallback_str
      end
    end
  end.

(** [TradingLogic._symbol_precision_cache] *)
Abbreviation precision_cache := (gmap string symbol_info).

(** [TradingLogic._get_symbol_info]; [fetch] is the outcome of
    [client.get_symbol_info(symbol)], consulted on a cache miss only. *)
Definition _get_symbol_info (cache : precision_cache) (symbol : string)
    (fetch : result (option symbol_info)) : symbol_info * precision_cache :=
  match cache !! symbol with
  | Some info => (info, cache)
  | None =>
    match fetch with
    | inl _ => ([], <[symbol := []]> cache)
    | inr (Some info) => (info, <[symbol := info]> cache)
    | inr None => ([], <[symbol := []]> cache)
    end
  end.

(** [TradingLogic._normalize_quantity] *)
Definition _normalize_quantity (cache : precision_cache) (symbol : string)
    (fetch : result (option symbol_info)) (quantity : quantity_arg)
  : result Decimal * precision_cache :=
  match quantity with
  | QNone | QInvalid | QSpecial => (normalize_with [] quantity, cache)
  | QDec _ =>
    let '(info, cache') := _get_symbol_info cache symbol fetch in
    (normalize_with info quantity, cache')
  end.

(** ** Python numbers

    The services compute with whatever numbers they are handed; the API
    schema hands them binary64 floats.  The arithmetic is kept behind an
    interface with two instances: [float], the arithmetic the program runs
    with, and [Q], exact arithmetic, against which rounding is measured. *)
Class Number (A : Type) := {
  of_int : Z -> A;            (* an int operand meeting an [A] operand *)
  add : A -> A -> A;
  sub : A -> A -> A;
  mul : A -> A -> A;
  div : A -> A -> A;          (* true division by a non-zero divisor *)
  truthy : A -> bool          (* [bool(x)] *)
}.

(** [float(n)] for an int [n]: the nearest binary64 number. *)
Definition float_of_int (n : Z) : float :=
  SF2Prim (binary_normalize 53 1024 n 0 false).

#[export] Instance float_number : Number float := {|
  of_int := float_of_int;
  add := PrimFloat.add;
  sub := PrimFloat.sub;
  mul := PrimFloat.mul;
  div := PrimFloat.div;
  truthy x := negb (PrimFloat.eqb x PrimFloat.zero)
|}.

#[export] Instance exact_number : Number Q := {|
  of_int := inject_Z;
  add := Qplus;
  sub := Qminus;
  mul := Qmult;
  div := Qdiv;
  truthy x := negb (Qeq_bool x 0)
|}.

(** ** The exchange gateway (binance_client.py) *)

(** [quantity: Union[float, str]]: a raw number, or the text the
    normaliser produced. *)
Inductive quantity_value (A : Type) :=
| Raw (x : A)
| Text (d : Decimal).
Arguments Raw {A} x.
Arguments Text {A} d.

(** The keyword arguments of [futures_create_order]. *)
Record order_params (A : Type) := {
  o_symbol : string;
  o_side : string;
  o_type : string;
  o_quantity : quantity_value A;
  o_price : option A;
  o_timeInForce : option string;
  o_stopPrice : option A;
  o_reduceOnly : bool           (* the key is present, with value True *)
}.
Arguments o_symbol {A} _.
Arguments o_side {A} _.
Arguments o_type {A} _.
Arguments o_quantity {A} _.
Arguments o_price {A} _.
Arguments o_timeInForce {A} _.
Arguments o_stopPrice {A} _.
Arguments o_reduceOnly {A} _.

(** The order dict the exchange answers with. *)
Record order_response := { orderId : Z }.

(** The exchange: what it answers to a request, given the requests it has
    received before. *)
Definition exchange (A : Type) : Type :=
  list (order_params A) -> order_params A -> result order_response.

Section Client.
Context {A : Type} `{Number A}.

Definition given (x : option A) : bool :=
  match x with Some v => truthy v | None => false end.

(** The request [BinanceClientWrapper.place_order] builds, or the
    [ValueError] it raises before any request. *)
Definition order_request (symbol side order_type : string)
    (quantity : quantity_value A) (price stop_price : option A)
    (reduce_only : bool) : result (order_params A) :=
  let market := String.eqb order_type "MARKET" in
  if String.eqb order_type "STOP_MARKET" && negb (given stop_price)
  then raise (ValueError StopPriceRequired)
  else if String.eqb order_type "LIMIT" && negb (given price)
  then raise (ValueError PriceRequired)
  else ret {|
    o_symbol := symbol;
    o_side := side;
    o_type := order_type;
    o_quantity := quantity;
    o_price := if given price && negb market then price else None;
    o_timeInForce := if given price && negb market then Some "GTC"%string else None;
    o_stopPrice := if given stop_price then stop_price else None;
    o_reduceOnly := reduce_only
  |}.

(** [BinanceClientWrapper.place_order]: [sent] is the log of the requests
    that reached the exchange, oldest first. *)
Definition client_place_order (ex : exchange A) (sent : list (order_params A))
    (symbol side order_type : string) (quantity : quantity_value A)
    (price stop_price : option A) (reduce_only : bool)
  : result order_response * list (order_params A) :=
  match order_request symbol side order_type quantity price stop_price reduce_only with
  | inl e => (inl e, sent)
  | inr params => (ex sent params, sent ++ [params])
  end.

End Client.

(** ** TWAP execution (advanced_orders.py) *)

(** The values of the ['status'] key. *)
Inductive plan_status := Active | Completed | Cancelled | Error.

#[export] Instance plan_status_eq_dec : EqDecision plan_status.
Proof. solve_decision. Defined.

(** An entry of [active_twap_orders]. *)
Record twap_entry (A : Type) := {
  t_symbol : string;
  t_side : string;
  t_total_quantity : A;
  t_executed_quantity : A;
  t_num_slices : Z;
  t_current_slice : Z;
  t_status : plan_status;
  t_orders : list order_response
}.
Arguments t_symbol {A} _.
Arguments t_side {A} _.
Arguments t_total_quantity {A} _.
Arguments t_executed_quantity {A} _.
Arguments t_num_slices {A} _.
Arguments t_current_slice {A} _.
Arguments t_status {A} _.
Arguments t_orders {A} _.

(** The dict [execute_twap_order] returns; its ['status'] is the literal
    ['completed']. *)
Record twap_report (A : Type) := {
  r_status : plan_status;
  r_total_quantity : A;
  r_executed_quantity : A;
  r_num_slices : Z;
  r_orders : list order_response
}.
Arguments r_status {A} _.
Arguments r_total_quantity {A} _.
Arguments r_executed_quantity {A} _.
Arguments r_num_slices {A} _.
Arguments r_orders {A} _.

(** Where the coroutine [execute_twap_order] is suspended. *)
Inductive twap_task (A : Type) :=
| PlacingOrder (i : Z) (answer : result order_response)
    (* at [await self.client.place_order(...)] of slice [i]; the request is
       out, the answer not yet delivered *)
| Sleeping (i : Z)
    (* at [await asyncio.sleep(interval_seconds)] after slice [i] *)
| Finished (outcome : result (twap_report A)).
Arguments PlacingOrder {A} i answer.
Arguments Sleeping {A} i.
Arguments Finished {A} outcome.

(** The state shared between the coroutine and its callers: the module
    global [active_twap_orders] and the requests the exchange has seen. *)
Record world (A : Type) := {
  active_twap_orders : gmap string (twap_entry A);
  requests : list (order_params A)
}.
Arguments active_twap_orders {A} _.
Arguments requests {A} _.

(** [num_slices = max(1, total_seconds // interval_seconds)] *)
Definition slice_count (duration_minutes interval_seconds : Z) : Z :=
  let total_seconds := (duration_minutes * 60)%Z in
  Z.max 1 (total_seconds / interval_seconds).

Section Twap.
Context {A : Type} `{Number A}.
Variable ex : exchange A.

(** The arguments of one call of [execute_twap_order]. *)
Variables (order_id symbol side : string) (total_quantity : A)
          (duration_minutes interval_seconds : Z).

Definition num_slices : Z := slice_count duration_minutes interval_seconds.
Definition quantity_per_slice : A := div total_quantity (of_int num_slices).

Definition with_status (s : plan_status) (e : twap_entry A) : twap_entry A :=
  {| t_symbol := t_symbol e; t_side := t_side e;
     t_total_quantity := t_total_quantity e;
     t_executed_quantity := t_executed_quantity e;
     t_num_slices := t_num_slices e; t_current_slice := t_current_slice e;
     t_status := s; t_orders := t_orders e |}.

(** The bookkeeping after a slice was placed. *)
Definition with_slice (i : Z) (order : order_response) (e : twap_entry A)
  : twap_entry A :=
  {| t_symbol := t_symbol e; t_side := t_side e;
     t_total_quantity := t_total_quantity e;
     t_executed_quantity := add (t_executed_quantity e) quantity_per_slice;
     t_num_slices := t_num_slices e; t_current_slice := (i + 1)%Z;
     t_status := t_status e; t_orders := t_orders e ++ [order] |}.

(** The handler [except Exception]: the plan, if registered, is marked
    ['error'] and the exception goes on to the caller. *)
Definition twap_fail (e : exn) (w : world A) : world A * twap_task A :=
  ({| active_twap_orders := alter (with_status Error) order_id (active_twap_orders w);
      requests := requests w |},
   Finished (raise e)).

(** After the [for] loop, however it was left. *)
Definition twap_after_loop (w : world A) : world A * twap_task A :=
  match active_twap_orders w !! order_id with
  | None => twap_fail KeyError w
  | Some e =>
    let reg := <[order_id := with_status Completed e]> (active_twap_orders w) in
    ({| active_twap_orders := reg; requests := requests w |},
     Finished (ret {| r_status := Completed;
                      r_total_quantity := total_quantity;
                      r_executed_quantity := t_executed_quantity e;
                      r_num_slices := num_slices;
                      r_orders := t_orders e |}))
  end.

(** The top of the loop body for slice [i], up to the first [await]. *)
Definition twap_iteration (i : Z) (w : world A) : world A * twap_task A :=
  if (i <? num_slices)%Z then
    match active_twap_orders w !! order_id with
    | None => twap_fail KeyError w
    | Some e =>
      if decide (t_status e = Active) then
        let '(answer, sent) :=
          client_place_order ex (requests w) symbol side "MARKET"
            (Raw quantity_per_slice) None None false in
        ({| active_twap_orders := active_twap_orders w; requests := sent |},
         PlacingOrder i answer)
      else twap_after_loop w      (* break *)
    end
  else twap_after_loop w.

(** The call itself, up to the first [await]. *)
Definition execute_twap_order (w : world A) : world A * twap_task A :=
  if (interval_seconds =? 0)%Z then twap_fail ZeroDivisionError w
  else
    let entry := {| t_symbol := symbol; t_side := side;
                    t_total_quantity := total_quantity;
                    t_executed_quantity := of_int 0;
                    t_num_slices := num_slices; t_current_slice := 0;
                    t_status := Active; t_orders := [] |} in
    twap_iteration 0
      {| active_twap_orders := <[order_id := entry]> (active_twap_orders w);
         requests := requests w |}.

(** The coroutine is resumed: the awaited call returns or raises, and the
    body runs on to the next [await]. *)
Definition twap_resume (st : world A * twap_task A) : world A * twap_task A :=
  let '(w, task) := st in
  match task with
  | PlacingOrder i (inr order) =>
    match active_twap_orders w !! order_id with
    | None => twap_fail KeyError w
    | Some e =>
      let w' := {| active_twap_orders :=
                     <[order_id := with_slice i order e]> (active_twap_orders w);
                   requests := requests w |} in
      if (i <? num_slices - 1)%Z then (w', Sleeping i)
      else twap_iteration (i + 1) w'
    end
  | PlacingOrder i (inl e) => twap_fail e w
  | Sleeping i => twap_iteration (i + 1) w
  | Finished _ => st
  end.

End Twap.

(** [AdvancedOrderManager.cancel_twap_order] *)
Definition cancel_twap_order {A} (order_id : string) (w : world A) : bool * world A :=
  match active_twap_orders w !! order_id with
  | Some e =>
    if decide (t_status e = Active) then
      (true, {| active_twap_orders := <[order_id := with_status Cancelled e]> (active_twap_orders w);
                requests := requests w |})
    else (false, w)
  | None => (false, w)
  end.

(** [AdvancedOrderManager.get_twap_status]; [None] is the empty dict. *)
Definition get_twap_status {A} (order_id : string) (w : world A) : option (twap_entry A) :=
  active_twap_orders w !! order_id.

(** ** Grid placement (advanced_orders.py) *)

(** An entry of [active_grid_orders]. *)
Record grid_entry (A : Type) := {
  g_symbol : string;
  g_side : string;
  g_quantity : A;
  g_lower_price : A;
  g_upper_price : A;
  g_grid_levels : Z;
  g_status : plan_status;
  g_orders : list order_response
}.
Arguments g_symbol {A} _.
Arguments g_side {A} _.
Arguments g_quantity {A} _.
Arguments g_lower_price {A} _.
Arguments g_upper_price {A} _.
Arguments g_grid_levels {A} _.
Arguments g_status {A} _.
Arguments g_orders {A} _.

(** An element of the local list [orders]. *)
Record placed_level (A : Type) := {
  pl_level : Z;
  pl_price : A;
  pl_order : order_response
}.
Arguments pl_level {A} _.
Arguments pl_price {A} _.
Arguments pl_order {A} _.

(** The dict [execute_grid_trading] returns. *)
Record grid_report (A : Type) := {
  gr_status : plan_status;
  gr_grid_levels : Z;
  gr_orders_placed : Z;
  gr_orders : list (placed_level A)
}.
Arguments gr_status {A} _.
Arguments gr_grid_levels {A} _.
Arguments gr_orders_placed {A} _.
Arguments gr_orders {A} _.

Record grid_world (A : Type) := {
  active_grid_orders : gmap string (grid_entry A);
  grid_requests : list (order_params A)
}.
Arguments active_grid_orders {A} _.
Arguments grid_requests {A} _.

(** [range(n)] *)
Definition py_range (n : Z) : list Z := map Z.of_nat (seq 0 (Z.to_nat n)).

Section Grid.
Context {A : Type} `{Number A}.
Variable ex : exchange A.

(** The arguments of one call of [execute_grid_trading]. *)
Variables (order_id symbol side : string) (quantity lower_price upper_price : A)
          (grid_levels : Z).

Definition price_range : A := sub upper_price lower_price.
Definition price_step : A :=
  if (1 <? grid_levels)%Z then div price_range (of_int (grid_levels - 1)) else of_int 0.
Definition quantity_per_level : A := div quantity (of_int grid_levels).

(** The price of level [i] (counted from 0). *)
Definition grid_price (i : Z) : A :=
  if (grid_levels =? 1)%Z then lower_price
  else add lower_price (mul (of_int i) price_step).

Definition grid_with_status (s : plan_status) (e : grid_entry A) : grid_entry A :=
  {| g_symbol := g_symbol e; g_side := g_side e; g_quantity := g_quantity e;
     g_lower_price := g_lower_price e; g_upper_price := g_upper_price e;
     g_grid_levels := g_grid_levels e; g_status := s; g_orders := g_orders e |}.

Definition grid_with_order (order : order_response) (e : grid_entry A) : grid_entry A :=
  {| g_symbol := g_symbol e; g_side := g_side e; g_quantity := g_quantity e;
     g_lower_price := g_lower_price e; g_upper_price := g_upper_price e;
     g_grid_levels := g_grid_levels e; g_status := g_status e;
     g_orders := g_orders e ++ [order] |}.

(** The [for] loop over the levels still to place: [orders] is the local
    list, [inl e] an exception that leaves the loop. *)
Fixpoint grid_loop (levels : list Z) (orders : list (placed_level A))
    (w : grid_world A) : result (list (placed_level A)) * grid_world A :=
  match levels with
  | [] => (ret orders, w)
  | i :: rest =>
    let '(answer, sent) :=
      client_place_order ex (grid_requests w) symbol side "LIMIT"
        (Raw quantity_per_level) (Some (grid_price i)) None false in
    match answer with
    | inr order =>
      grid_loop rest
        (orders ++ [{| pl_level := i + 1; pl_price := grid_price i; pl_order := order |}])
        {| active_grid_orders := alter (grid_with_order order) order_id (active_grid_orders w);
           grid_requests := sent |}
    | inl (BinanceAPIException _ _) =>
      (* continue with other levels even if one fails *)
      grid_loop rest orders
        {| active_grid_orders := active_grid_orders w; grid_requests := sent |}
    | inl e =>
      (raise e, {| active_grid_orders := active_grid_orders w; grid_requests := sent |})
    end
  end.

(** The handler [except Exception] of [execute_grid_trading]. *)
Definition grid_fail (e : exn) (w : grid_world A)
  : result (grid_report A) * grid_world A :=
  (raise e,
   {| active_grid_orders := alter (grid_with_status Error) order_id (active_grid_orders w);
      grid_requests := grid_requests w |}).

(** [AdvancedOrderManager.execute_grid_trading] *)
Definition execute_grid_trading (w : grid_world A)
  : result (grid_report A) * grid_world A :=
  if (grid_levels =? 0)%Z then grid_fail ZeroDivisionError w
  else
    let entry := {| g_symbol := symbol; g_side := side; g_quantity := quantity;
                    g_lower_price := lower_price; g_upper_price := upper_price;
                    g_grid_levels := grid_levels; g_status := Active;
                    g_orders := [] |} in
    let w0 := {| active_grid_orders := <[order_id := entry]> (active_grid_orders w);
                 grid_requests := grid_requests w |} in
    match grid_loop (py_range grid_levels) [] w0 with
    | (inl e, w1) => grid_fail e w1
    | (inr orders, w1) =>
      (ret {| gr_status := Completed; gr_grid_levels := grid_levels;
              gr_orders_placed := Z.of_nat (length orders); gr_orders := orders |},
       {| active_grid_orders := alter (grid_with_status Completed) order_id (active_grid_orders w1);
          grid_requests := grid_requests w1 |})
    end.

End Grid.

(** [AdvancedOrderManager.get_grid_status] *)
Definition get_grid_status {A} (order_id : string) (w : grid_world A) : option (grid_entry A) :=
  active_grid_orders w !! order_id.

(** ** Positions (binance_client.py) *)

(** A position dict: its ['symbol'] and its ['positionAmt'] entries. *)
Record position_record := {
  p_symbol : option string;
  p_positionAmt : field
}.

(** What [futures_position_information] returns. *)
Inductive positions_answer :=
| NoAnswer                                (* None *)
| Records (l : list position_record)      (* a list *)
| Single (p : position_record).           (* one dict *)

(** [bool(symbol)] for [symbol: str = None] *)
Definition symbol_given (symbol : option string) : bool :=
  match symbol with
  | Some s => negb (String.eqb s "")
  | None => false
  end.

Definition symbol_matches (symbol : option string) (p : position_record) : bool :=
  bool_decide (p_symbol p = symbol).

(** [matching or positions] *)
Definition or_else {X} (matching positions : list X) : list X :=
  match matching with [] => positions | _ => matching end.

Section Positions.
(** [self.client.futures_position_information], by the symbol asked for. *)
Variable futures_position_information : option string -> result positions_answer.

(** [BinanceClientWrapper.get_position_info] *)
Definition get_position_info (symbol : option string) : result positions_answer :=
  if symbol_given symbol then futures_position_information symbol
  else futures_position_information None.

(** [BinanceClientWrapper.get_positions] *)
Definition get_positions (symbol : option string) : result (list position_record) :=
  let! positions := get_position_info symbol in
  match positions with
  | NoAnswer => ret []
  | Records l =>
    if symbol_given symbol
    then ret (or_else (List.filter (symbol_matches symbol) l) l)
    else ret l
  | Single p => ret [p]
  end.

End Positions.

(** ** Python's conversions between binary64 numbers and decimals *)

(** [float(d)] for a finite decimal: the nearest binary64 number, ties to
    even.  A quotient is taken with 64 bits and one more that tells
    whether anything was left, and rounded once. *)
Definition float_of_Decimal (d : Decimal) : float :=
  let c := Z.of_N (coeff d) in
  let e := exponent d in
  let signed_ (m : Z) := if sign d then (- m)%Z else m in
  if (c =? 0)%Z then (if sign d then PrimFloat.opp PrimFloat.zero else PrimFloat.zero)
  else if (0 <=? e)%Z then
    SF2Prim (binary_normalize 53 1024 (signed_ (c * 10 ^ e)%Z) 0 false)
  else
    let den := (10 ^ (- e))%Z in
    let k := Z.max 0 (64 + Z.log2_up den - Z.log2 c) in
    let num := (c * 2 ^ k)%Z in
    let sticky := if (num mod den =? 0)%Z then 0%Z else 1%Z in
    SF2Prim (binary_normalize 53 1024 (signed_ (2 * (num / den) + sticky)%Z) (- k - 1) false).

(** [10 ** e <= num / den] *)
Definition at_least_pow10 (num den e : Z) : bool :=
  if (0 <=? e)%Z then (10 ^ e * den <=? num)%Z else (den <=? num * 10 ^ (- e))%Z.

(** The decimal exponent of the leading digit of [num / den]. *)
Definition leading_exponent (num den : Z) : Z :=
  let est := ((Z.log2 num - Z.log2 den) * 30103 / 100000)%Z in
  match List.find (at_least_pow10 num den)
          [est + 2; est + 1; est; est - 1; est - 2]%Z with
  | Some e => e
  | None => (est - 3)%Z
  end.

(** [floor((num / den) / 10 ** e)] *)
Definition digits_at (num den e : Z) : Z :=
  if (0 <=? e)%Z then (num / (den * 10 ^ e))%Z else (num * 10 ^ (- e) / den)%Z.

(** The shortest digit string that reads back as [x], as [repr] finds it:
    [n] digits are tried, then one more. *)
Fixpoint shortest_digits (fuel : nat) (x : float) (s : bool) (num den lead : Z) (n : Z)
  : Z * Z :=
  let e := (lead - n + 1)%Z in
  let lo := digits_at num den e in
  let hi := (lo + 1)%Z in
  let reads_back (digits : Z) := PrimFloat.eqb (float_of_Decimal (mk s (Z.to_N digits) e)) x in
  match fuel with
  | O => (lo, e)
  | S fuel' =>
    match reads_back lo, reads_back hi with
    | true, false => (lo, e)
    | false, true => (hi, e)
    | true, true =>
      (* the nearer one: compare 2 * num / den with (lo + hi) * 10 ** e *)
      let nearer_lo :=
        if (0 <=? e)%Z then (2 * num <=? (lo + hi) * 10 ^ e * den)%Z
        else (2 * num * 10 ^ (- e) <=? (lo + hi) * den)%Z in
      if nearer_lo then (lo, e) else (hi, e)
    | false, false => shortest_digits fuel' x s num den lead (n + 1)
    end
  end.

(** [Decimal(str(x))]: the digits of [repr(x)], with the exponent its
    notation gives them: fixed-point with at least one decimal for
    0.0001 <= |x| < 1e16, scientific otherwise. *)
Definition Decimal_of_float (x : float) : quantity_arg :=
  match Prim2SF x with
  | S754_zero s => QDec (mk s 0 (-1))
  | S754_finite s m e =>
    let num := if (0 <=? e)%Z then (Z.pos m * 2 ^ e)%Z else Z.pos m in
    let den := if (0 <=? e)%Z then 1%Z else (2 ^ (- e))%Z in
    let lead := leading_exponent num den in
    let '(digits, e10) := shortest_digits 17 x s num den lead 1 in
    let '(c, e10) := strip (N.to_nat (N.size (Z.to_N digits))) (Z.to_N digits) e10 in
    let lead' := leading_exponent (Z.of_N c) 1 in
    let top := (e10 + lead')%Z in
    if ((-4 <=? top) && (top <=? 15) && (0 <=? e10))%Z
    then QDec (mk s (c * 10 ^ Z.to_N (e10 + 1)) (-1))
    else QDec (mk s c e10)
  | _ => QSpecial
  end.

(** ** Trading logic: orders, strategies, flattening (trading_logic.py) *)

(** [StrategyConfig] *)
Record StrategyConfig := {
  c_name : string;
  c_symbol : string;
  c_active : bool;
  c_short_ema_period : option Z;
  c_long_ema_period : option Z;
  c_quantity_per_trade : option float
}.

(** The texts written to [last_action]. *)
Inductive action_text :=
| OrderPlaced (side : string) (order : order_response)   (* "BUY Order Placed: ..." *)
| SignalOrderFailed (side : string) (e : exn)           (* "BUY Signal (Order Failed: ...)" *)
| Holding                                               (* "Holding (No signal or already in position)" *)
| AutoCloseFailedSide (side : string)                   (* "Auto-close failed (BUY)" *)
| AutoCloseFailed                                       (* "Auto-close failed" *)
| AutoClose (side : string) (quantity : Decimal).       (* "Auto-close BUY 0.02" *)

(** The texts written to [message]. *)
Inductive message_text :=
| Initializing
| NotEnoughData                 (* "Not enough data for EMA calculation. Waiting..." *)
| NotEnoughDataSMA              (* "Not enough data for SMA calculation." *)
| Averages (short_sma long_sma current_price : float)
| ErrorText (e : exn)           (* "Error: ..." *)
| StrategyStopped               (* "Strategy stopped." *)
| StoppedByUser                 (* "Strategy stopped by user. Attempting to close open position..." *)
| NoSymbolProvided              (* "No symbol provided for flatten request." *)
| FailedToFetchPositions (e : exn)
| NoPositionData                (* "No position data returned for ..." *)
| NoOpenPosition                (* "No open position found for ..." *)
| FailedToClose (e : exn)       (* "Failed to close position for ..." *)
| UnexpectedCloseError (e : exn)
| ClosedPosition (side : string).   (* "Closed ... position via reduce-only ... order." *)

(** [StrategyStatus] *)
Record StrategyStatus := {
  s_name : string;
  s_symbol : string;
  s_active : bool;
  s_last_action : option action_text;
  s_updated : bool;                    (* [last_update] has been stamped *)
  s_message : option message_text
}.

(** A call of [TradingLogic.place_order]: the order as it is submitted,
    before normalisation. *)
Record order_intent := {
  i_symbol : string;
  i_side : string;
  i_type : string;
  i_quantity : option float;
  i_reduce_only : bool
}.

(** The dict [_flatten_symbol_position] returns. *)
Record flatten_result := {
  f_closed : bool;
  f_message : message_text;
  f_position_size : option Decimal;
  f_details : option (exn + order_response);
  f_last_action : option action_text
}.

(** The dict [stop_strategy] returns. *)
Record stop_summary := {
  positionClosed : bool;
  positionSize : option Decimal;
  closeDetails : option (exn + order_response);
  notes : message_text
}.

(** A kline, as far as the strategy reads it: [float(k[4])], [None] when
    that raises. *)
Definition kline := option float.

(** What the exchange answers while the logic runs. *)
Record market := {
  futures_position_information : option string -> result positions_answer;
  futures_klines : string -> Z -> result (list kline);
  mark_price : string -> result float;        (* [float(ticker['markPrice'])] *)
  symbol_info_lookup : string -> result (option symbol_info);
  futures_create_order : exchange float
}.

(** The module globals, the fields of [TradingLogic], and what has gone
    out: the orders submitted to [place_order], the requests that reached
    the exchange, and the position queries. *)
Record logic_state := {
  active_strategies : gmap string StrategyConfig;
  strategy_statuses : gmap string StrategyStatus;
  _strategy_tasks : gset string;
  _symbol_precision_cache : precision_cache;
  submitted : list order_intent;
  sent : list (order_params float);
  position_queries : list string
}.

Definition set_statuses (f : gmap string StrategyStatus -> gmap string StrategyStatus)
    (st : logic_state) : logic_state :=
  {| active_strategies := active_strategies st;
     strategy_statuses := f (strategy_statuses st);
     _strategy_tasks := _strategy_tasks st;
     _symbol_precision_cache := _symbol_precision_cache st;
     submitted := submitted st; sent := sent st;
     position_queries := position_queries st |}.

Definition with_message (m : message_text) (s : StrategyStatus) : StrategyStatus :=
  {| s_name := s_name s; s_symbol := s_symbol s; s_active := s_active s;
     s_last_action := s_last_action s; s_updated := s_updated s;
     s_message := Some m |}.

Definition with_last_action (a : action_text) (s : StrategyStatus) : StrategyStatus :=
  {| s_name := s_name s; s_symbol := s_symbol s; s_active := s_active s;
     s_last_action := Some a; s_updated := s_updated s;
     s_message := s_message s |}.

Definition with_active (b : bool) (s : StrategyStatus) : StrategyStatus :=
  {| s_name := s_name s; s_symbol := s_symbol s; s_active := b;
     s_last_action := s_last_action s; s_updated := s_updated s;
     s_message := s_message s |}.

Definition stamped (s : StrategyStatus) : StrategyStatus :=
  {| s_name := s_name s; s_symbol := s_symbol s; s_active := s_active s;
     s_last_action := s_last_action s; s_updated := true;
     s_message := s_message s |}.

Section TradingLogic.
Variable mk_ : market.

Definition quantity_text (quantity : option float) : quantity_arg :=
  match quantity with
  | None => QNone
  | Some x => Decimal_of_float x
  end.

(** [TradingLogic.place_order] *)
Definition place_order (st : logic_state) (symbol side order_type : string)
    (quantity : option float) (price stop_price : option float) (reduce_only : bool)
  : result order_response * logic_state :=
  let intent := {| i_symbol := symbol; i_side := side; i_type := order_type;
                   i_quantity := quantity; i_reduce_only := reduce_only |} in
  let '(normalized, cache) :=
    _normalize_quantity (_symbol_precision_cache st) symbol
      (symbol_info_lookup mk_ symbol) (quantity_text quantity) in
  match normalized with
  | inl e =>
    (raise e,
     {| active_strategies := active_strategies st;
        strategy_statuses := strategy_statuses st;
        _strategy_tasks := _strategy_tasks st;
        _symbol_precision_cache := cache;
        submitted := submitted st ++ [intent]; sent := sent st;
        position_queries := position_queries st |})
  | inr normalized_quantity =>
    let '(answer, sent') :=
      client_place_order (futures_create_order mk_) (sent st) symbol side order_type
        (Text normalized_quantity) price stop_price reduce_only in
    (answer,
     {| active_strategies := active_strategies st;
        strategy_statuses := strategy_statuses st;
        _strategy_tasks := _strategy_tasks st;
        _symbol_precision_cache := cache;
        submitted := submitted st ++ [intent]; sent := sent';
        position_queries := position_queries st |})
  end.

(** [self.client.get_positions(symbol)], the query recorded. *)
Definition query_positions (st : logic_state) (symbol : string)
  : result (list position_record) * logic_state :=
  (get_positions (futures_position_information mk_) (Some symbol),
   {| active_strategies := active_strategies st;
      strategy_statuses := strategy_statuses st;
      _strategy_tasks := _strategy_tasks st;
      _symbol_precision_cache := _symbol_precision_cache st;
      submitted := submitted st; sent := sent st;
      position_queries := position_queries st ++ [symbol] |}).

Definition abs_decimal (d : Decimal) : Decimal := mk false (coeff d) (exponent d).

(** The loop of [_flatten_symbol_position] over the position records. *)
Fixpoint flatten_loop (symbol : string) (positions : list position_record)
    (st : logic_state) : flatten_result * logic_state :=
  match positions with
  | [] =>
    ({| f_closed := false; f_message := NoOpenPosition; f_position_size := None;
        f_details := None; f_last_action := None |}, st)
  | position :: rest =>
    if negb (bool_decide (p_symbol position = Some symbol)) then flatten_loop symbol rest st
    else
      match parse_field (p_positionAmt position) (mk false 0 0) with
      | None => flatten_loop symbol rest st
      | Some position_amt =>
        if is_zero position_amt then flatten_loop symbol rest st
        else
          let side := if sign position_amt then "BUY"%string else "SELL"%string in
          let quantity_decimal := abs_decimal position_amt in
          let quantity := float_of_Decimal quantity_decimal in
          match place_order st symbol side "MARKET" (Some quantity) None None true with
          | (inl (BinanceAPIException code msg), st') =>
            ({| f_closed := false;
                f_message := FailedToClose (BinanceAPIException code msg);
                f_position_size := Some position_amt;
                f_details := Some (inl (BinanceAPIException code msg));
                f_last_action := Some (AutoCloseFailedSide side) |}, st')
          | (inl e, st') =>
            ({| f_closed := false; f_message := UnexpectedCloseError e;
                f_position_size := Some position_amt; f_details := None;
                f_last_action := Some AutoCloseFailed |}, st')
          | (inr order, st') =>
            ({| f_closed := true; f_message := ClosedPosition side;
                f_position_size := Some position_amt;
                f_details := Some (inr order);
                f_last_action := Some (AutoClose side quantity_decimal) |}, st')
          end
      end
  end.

(** [TradingLogic._flatten_symbol_position] *)
Definition _flatten_symbol_position (symbol : string) (st : logic_state)
  : flatten_result * logic_state :=
  if String.eqb symbol "" then
    ({| f_closed := false; f_message := NoSymbolProvided; f_position_size := None;
        f_details := None; f_last_action := None |}, st)
  else
    match query_positions st symbol with
    | (inl e, st') =>
      ({| f_closed := false; f_message := FailedToFetchPositions e;
          f_position_size := None; f_details := None; f_last_action := None |}, st')
    | (inr [], st') =>
      ({| f_closed := false; f_message := NoPositionData; f_position_size := None;
          f_details := None; f_last_action := None |}, st')
    | (inr positions, st') => flatten_loop symbol positions st'
    end.

(** [TradingLogic.stop_strategy]; the awaited strategy task leaves at its
    suspension point and writes nothing more. *)
Definition stop_strategy (name : string) (st : logic_state)
  : option stop_summary * logic_state :=
  match active_strategies st !! name with
  | None => (None, st)
  | Some config =>
    let symbol := c_symbol config in
    let statuses :=
      alter (fun s => with_message StoppedByUser (with_active false s)) name
        (strategy_statuses st) in
    let st1 :=
      {| active_strategies := delete name (active_strategies st);
         strategy_statuses := statuses;
         _strategy_tasks := _strategy_tasks st ∖ {[name]};
         _symbol_precision_cache := _symbol_precision_cache st;
         submitted := submitted st; sent := sent st;
         position_queries := position_queries st |} in
    let '(flat, st2) := _flatten_symbol_position symbol st1 in
    let note (s : StrategyStatus) :=
      let s' := with_message (f_message flat) s in
      match f_last_action flat with
      | Some a => with_last_action a s'
      | None => s'
      end in
    (Some {| positionClosed := f_closed flat;
             positionSize := f_position_size flat;
             closeDetails := f_details flat;
             notes := f_message flat |},
     set_statuses (alter note name) st2)
  end.

End TradingLogic.

(** ** The strategy loop (trading_logic.py) *)

(** [closes[-p:]] *)
Definition last_closes (p : Z) (closes : list float) : list float :=
  if (0 <? p)%Z then skipn (length closes - Z.to_nat p) closes
  else skipn (Z.to_nat (- p)) closes.

(** [sum(xs)], adding from the left, starting from the int 0. *)
Definition sum_floats (xs : list float) : float :=
  fold_left PrimFloat.add xs (float_of_int 0).

(** [sum(closes[-p:]) / p if len(closes) >= p else None] *)
Definition sma (p : Z) (closes : list float) : result (option float) :=
  if (p <=? Z.of_nat (length closes))%Z then
    if (p =? 0)%Z then raise ZeroDivisionError
    else ret (Some (PrimFloat.div (sum_floats (last_closes p closes)) (float_of_int p)))
  else ret None.

(** [[float(k[4]) for k in klines]] *)
Fixpoint close_prices (klines : list kline) : result (list float) :=
  match klines with
  | [] => ret []
  | None :: _ => raise (ValueError CouldNotConvertToFloat)
  | Some c :: rest => let! cs := close_prices rest in ret (c :: cs)
  end.

(** What the first part of an iteration arrives at: a wait for more data,
    with its message, or the two averages and the mark price. *)
Inductive signal_data :=
| Waiting (m : message_text)
| Ready (short_sma long_sma current_price : float).

(** How long the loop sleeps before the next iteration, or the exception
    that ends the task. *)
Definition iteration_end := result Z.

Section Strategy.
Variable mk_ : market.

(** The first part of the [try] block, up to the mark price.  A period
    that is [None] does not compare in [max]. *)
Definition signals (config : StrategyConfig) : result signal_data :=
  match c_short_ema_period config, c_long_ema_period config with
  | Some short_ema_period, Some long_ema_period =>
    let longest := Z.max short_ema_period long_ema_period in
    let! klines := futures_klines mk_ (c_symbol config) (longest + 5) in
    if (Z.of_nat (length klines) <? longest)%Z then ret (Waiting NotEnoughData)
    else
      let! closes := close_prices klines in
      let! short_sma := sma short_ema_period closes in
      let! long_sma := sma long_ema_period closes in
      match short_sma, long_sma with
      | Some s, Some l =>
        let! current_price := mark_price mk_ (c_symbol config) in
        ret (Ready s l current_price)
      | _, _ => ret (Waiting NotEnoughDataSMA)
      end
  | _, _ => raise TypeError
  end.

(** [float(positions[0].get('positionAmt', 0)) if positions else 0], with
    0 for whatever raises. *)
Definition position_amount (answer : result (list position_record)) : float :=
  match answer with
  | inr (p :: _) =>
    match p_positionAmt p with
    | Num d => float_of_Decimal d
    | Missing | Unparsable => float_of_int 0
    end
  | _ => float_of_int 0
  end.

(** The position amount an iteration would read. *)
Definition current_position (config : StrategyConfig) : float :=
  position_amount (get_positions (futures_position_information mk_) (Some (c_symbol config))).

(** The signal step: [short_sma > long_sma and position_amt <= 0], and its
    mirror image. *)
Definition buy_signal (short_sma long_sma position_amt : float) : bool :=
  PrimFloat.ltb long_sma short_sma && PrimFloat.leb position_amt (float_of_int 0).
Definition sell_signal (short_sma long_sma position_amt : float) : bool :=
  PrimFloat.ltb short_sma long_sma && PrimFloat.leb (float_of_int 0) position_amt.

(** An order of the strategy: placed through [self.place_order], whatever
    it raises recorded in [last_action]. *)
Definition signal_order (config : StrategyConfig) (side : string) (st : logic_state)
  : logic_state :=
  let '(answer, st') :=
    place_order mk_ st (c_symbol config) side "MARKET"
      (c_quantity_per_trade config) None None false in
  let action :=
    match answer with
    | inr order => OrderPlaced side order
    | inl e => SignalOrderFailed side e
    end in
  set_statuses (alter (with_last_action action) (c_name config)) st'.

(** One pass through the body of the [while] loop of
    [_run_simple_ema_crossover_strategy]. *)
Definition strategy_iteration (config : StrategyConfig) (st : logic_state)
  : logic_state * iteration_end :=
  let name := c_name config in
  match strategy_statuses st !! name with
  | None => (st, raise KeyError)
  | Some _ =>
    match signals config with
    | inl e => (set_statuses (alter (with_message (ErrorText e)) name) st, ret 30%Z)
    | inr (Waiting m) => (set_statuses (alter (with_message m) name) st, ret 10%Z)
    | inr (Ready short_sma long_sma current_price) =>
      let st1 :=
        set_statuses (alter (with_message (Averages short_sma long_sma current_price)) name) st in
      let '(answer, st2) := query_positions mk_ st1 (c_symbol config) in
      let position_amt := position_amount answer in
      let st3 :=
        if buy_signal short_sma long_sma position_amt then signal_order config "BUY" st2
        else if sell_signal short_sma long_sma position_amt then signal_order config "SELL" st2
        else set_statuses (alter (with_last_action Holding) name) st2 in
      (set_statuses (alter stamped name) st3, ret 30%Z)
    end
  end.

End Strategy.

(** ** Runs, and the notions the properties are stated with *)

(** The coroutine resumed [k] times with nothing else in between. *)
Fixpoint twap_run {A} `{Number A} (ex : exchange A) (order_id symbol side : string)
    (total_quantity : A) (duration_minutes interval_seconds : Z) (k : nat)
    (st : world A * twap_task A) : world A * twap_task A :=
  match k with
  | O => st
  | S k' =>
    twap_run ex order_id symbol side total_quantity duration_minutes interval_seconds k'
      (twap_resume ex order_id symbol side total_quantity duration_minutes interval_seconds st)
  end.

(** [x] after [k] times [x += q]. *)
Definition accumulate {A} `{Number A} (x q : A) (k : nat) : A :=
  fold_left add (repeat q k) x.

(** The request of a TWAP slice and of a grid level. *)
Definition slice_request {A} (symbol side : string) (q : A) : order_params A :=
  {| o_symbol := symbol; o_side := side; o_type := "MARKET"; o_quantity := Raw q;
     o_price := None; o_timeInForce := None; o_stopPrice := None;
     o_reduceOnly := false |}.

Definition level_request {A} (symbol side : string) (q price : A) : order_params A :=
  {| o_symbol := symbol; o_side := side; o_type := "LIMIT"; o_quantity := Raw q;
     o_price := Some price; o_timeInForce := Some "GTC"%string; o_stopPrice := None;
     o_reduceOnly := false |}.

(** An exchange that fills every order. *)
Definition always_fills {A} (ex : exchange A) : Prop :=
  forall sent p, exists order, ex sent p = inr order.

(** An exchange whose only failure is the classified gateway error,
    [BinanceAPIException]. *)
Definition gateway_errors_only {A} (ex : exchange A) : Prop :=
  forall sent p,
    match ex sent p with
    | inr _ | inl (BinanceAPIException _ _) => True
    | inl _ => False
    end.

(** The answers of the exchange to a sequence of requests. *)
Fixpoint answers {A} (ex : exchange A) (sent reqs : list (order_params A))
  : list (result order_response) :=
  match reqs with
  | [] => []
  | p :: rest => ex sent p :: answers ex (sent ++ [p]) rest
  end.

Definition succeeded {X} (r : result X) : bool :=
  match r with inr _ => true | inl _ => false end.

(** An exchange for concrete runs: it fills every order, numbering them. *)
Definition filling_exchange {A} : exchange A :=
  fun sent _ => ret {| orderId := Z.of_nat (length sent) |}.

(** An exchange for concrete runs that rejects the orders whose number in
    the sequence is in [rejected]. *)
Definition rejecting_exchange {A} (rejected : list nat) : exchange A :=
  fun sent _ =>
    if existsb (Nat.eqb (length sent)) rejected
    then raise (BinanceAPIException (-2019) "Margin is insufficient.")
    else ret {| orderId := Z.of_nat (length sent) |}.

Definition empty_world {A} : world A :=
  {| active_twap_orders := ∅; requests := [] |}.

Definition empty_grid_world {A} : grid_world A :=
  {| active_grid_orders := ∅; grid_requests := [] |}.

(** ** Concrete data for the scenarios *)

(** A [LOT_SIZE] filter with the given step size and minimum quantity. *)
Definition lot_size (step minq : Decimal) : exchange_filter :=
  {| filterType := Some "LOT_SIZE"%string; stepSize := Num step; minQty := Num minq |}.

(** The filters of a symbol whose quantities go in steps of 0.001, at
    least 0.001: what the exchange reports for BTCUSDT. *)
Definition btcusdt_filters : symbol_info :=
  [ {| filterType := Some "PRICE_FILTER"%string; stepSize := Missing; minQty := Missing |};
    lot_size (mk false 1 (-3)) (mk false 1 (-3)) ].

(** The slicing property as the design words it, for a number type and
    its equality: the slices of every plan add up to the total. *)
Definition slices_add_up_to_total (A : Type) `{Number A} (same : A -> A -> Prop) : Prop :=
  forall (total : A) (d s : Z),
    (0 < s)%Z ->
    same (accumulate (of_int 0) (quantity_per_slice total d s) (Z.to_nat (num_slices d s)))
         total.

(** The spacing property as the design words it: consecutive levels of
    every grid of two levels or more are one step apart. *)
Definition levels_evenly_spaced (A : Type) `{Number A} (same : A -> A -> Prop) : Prop :=
  forall (lower upper : A) (levels i : Z),
    (2 <= levels)%Z -> (0 <= i)%Z -> (i + 1 < levels)%Z ->
    same (sub (grid_price lower upper levels (i + 1)) (grid_price lower upper levels i))
         (div (sub upper lower) (of_int (levels - 1))).

(** [a == b] for floats. *)
Definition float_eq (a b : float) : Prop := PrimFloat.eqb a b = true.

(** A market for concrete runs: no positions, no klines, no symbol info;
    orders are filled. *)
Definition quiet_market : market :=
  {| futures_position_information := fun _ => ret (Records []);
     futures_klines := fun _ _ => ret [];
     mark_price := fun _ => raise (BinanceAPIException (-1121) "Invalid symbol.");
     symbol_info_lookup := fun _ => ret None;
     futures_create_order := filling_exchange |}.

Definition idle_state (cache : precision_cache) : logic_state :=
  {| active_strategies := ∅; strategy_statuses := ∅; _strategy_tasks := ∅;
     _symbol_precision_cache := cache;
     submitted := []; sent := []; position_queries := [] |}.

(** A step size written as a power of ten with the single digit 1:
    0.001, 0.1, 1, 1E+1. *)
Definition unit_step (step : Decimal) : Prop :=
  sign step = false /\ coeff step = 1%N.

(** A decimal whose coefficient fits the precision of the context. *)
Definition fits_context (d : Decimal) : Prop := (coeff d < limit)%N.

(** A step size whose numeral carries no zeros after its last significant
    decimal place: the precision [normalize] derives from it is its own
    number of decimal places. *)
Definition written_plainly (step : Decimal) : Prop :=
  implied_precision step = Z.max 0 (- exponent step).

(** The filters under which the normaliser formats with the step's own
    number of decimal places, or does not use a step at all. *)
Definition plain_filters (filters : symbol_info) : Prop :=
  match List.find is_lot_size filters with
  | None => True
  | Some lot_filter =>
    match parse_field (stepSize lot_filter) (mk false 1 0),
          parse_field (minQty lot_filter) (mk false 0 0) with
    | Some step_size, Some _ => is_zero step_size = true \/ written_plainly step_size
    | _, _ => True
    end
  end.

(** The position [_flatten_symbol_position] acts on: the amount of the
    first record of the symbol that parses and is not zero. *)
Fixpoint open_position (symbol : string) (positions : list position_record)
  : option Decimal :=
  match positions with
  | [] => None
  | position :: rest =>
    if bool_decide (p_symbol position = Some symbol) then
      match parse_field (p_positionAmt position) (mk false 0 0) with
      | Some amt => if is_zero amt then open_position symbol rest else Some amt
      | None => open_position symbol rest
      end
    else open_position symbol rest
  end.

(** The reduce-only order that closes a position of the given amount. *)
Definition closing_order (symbol : string) (amt : Decimal) : order_intent :=
  {| i_symbol := symbol;
     i_side := if sign amt then "BUY"%string else "SELL"%string;
     i_type := "MARKET";
     i_quantity := Some (float_of_Decimal (abs_decimal amt));
     i_reduce_only := true |}.

(** The order of a strategy signal. *)
Definition signal_intent (config : StrategyConfig) (side : string) : order_intent :=
  {| i_symbol := c_symbol config; i_side := side; i_type := "MARKET";
     i_quantity := c_quantity_per_trade config; i_reduce_only := false |}.

(** A strategy for concrete runs. *)
Definition crossover (name symbol : string) : StrategyConfig :=
  {| c_name := name; c_symbol := symbol; c_active := true;
     c_short_ema_period := Some 1%Z; c_long_ema_period := Some 2%Z;
     c_quantity_per_trade := Some 0.001%float |}.

Definition running (config : StrategyConfig) : logic_state :=
  {| active_strategies := {[ c_name config := config ]};
     strategy_statuses :=
       {[ c_name config :=
            {| s_name := c_name config; s_symbol := c_symbol config; s_active := true;
               s_last_action := None; s_updated := false;
               s_message := Some Initializing |} ]};
     _strategy_tasks := {[ c_name config ]};
     _symbol_precision_cache := ∅;
     submitted := []; sent := []; position_queries := [] |}.

(** A market with a short position of 0.02 BTCUSDT, rising closes, and a
    mark price as given. *)
Definition short_market (mark : result float) : market :=
  {| futures_position_information := fun _ =>
       ret (Records [ {| p_symbol := Some "BTCUSDT"%string;
                         p_positionAmt := Num (mk true 20 (-3)) |} ]);
     futures_klines := fun _ _ => ret [Some 1%float; Some 2%float; Some 3%float];
     mark_price := fun _ => mark;
     symbol_info_lookup := fun _ => ret None;
     futures_create_order := filling_exchange |}.

(** The rational number a finite binary64 number is (0 for the others). *)
Definition exact_value (x : float) : Q :=
  match Prim2SF x with
  | S754_finite s m e =>
    inject_Z (if s then Z.neg m else Z.pos m) * 2 ^ e
  | _ => 0
  end.

(** ** Simulated OCO orders (binance_client.py, advanced_orders.py) *)

(** The dict [place_oco_order] returns: the two orders. *)
Record oco_report := {
  limit_order : order_response;
  stop_order : order_response
}.

(** ['SELL' if side == 'BUY' else 'BUY'] *)
Definition opposite_side (side : string) : string :=
  if String.eqb side "BUY" then "SELL"%string else "BUY"%string.

Section Oco.
Context {A : Type} `{Number A}.
Variable ex : exchange A.

(** [BinanceClientWrapper.place_oco_order]: a LIMIT order at [price], then
    a STOP_MARKET order on the opposite side at [stop_price], both through
    [BinanceClientWrapper.place_order].  The dict [params] built first
    (where [stop_limit_price] goes) is not used. *)
Definition client_place_oco_order (sent : list (order_params A))
    (symbol side : string) (quantity price stop_price stop_limit_price : A)
  : result oco_report * list (order_params A) :=
  let '(limit_answer, sent1) :=
    client_place_order ex sent symbol side "LIMIT" (Raw quantity) (Some price) None false in
  match limit_answer with
  | inl e => (inl e, sent1)
  | inr limit_order_ =>
    let '(stop_answer, sent2) :=
      client_place_order ex sent1 symbol (opposite_side side) "STOP_MARKET"
        (Raw quantity) None (Some stop_price) false in
    match stop_answer with
    | inl e => (inl e, sent2)
    | inr stop_order_ =>
      (ret {| limit_order := limit_order_; stop_order := stop_order_ |}, sent2)
    end
  end.

(** [AdvancedOrderManager.place_oco_order]: the client's call; a gateway
    error is logged and raised again. *)
Definition place_oco_order (sent : list (order_params A))
    (symbol side : string) (quantity limit_price stop_price stop_limit_price : A)
  : result oco_report * list (order_params A) :=
  client_place_oco_order sent symbol side quantity limit_price stop_price stop_limit_price.

End Oco.

(** A request as [BinanceClientWrapper.place_order] means to build it: no
    price on a MARKET order, a price on a LIMIT order, a stop price on a
    STOP_MARKET order, time in force with a price and only then, and no
    price or stop price that is zero. *)
Definition well_formed {A} `{Number A} (p : order_params A) : Prop :=
  (o_type p = "MARKET"%string -> o_price p = None /\ o_timeInForce p = None)
  /\ (o_type p = "LIMIT"%string -> given (o_price p) = true)
  /\ (o_type p = "STOP_MARKET"%string -> given (o_stopPrice p) = true)
  /\ (o_price p = None <-> o_timeInForce p = None)
  /\ (forall x, o_price p = Some x -> truthy x = true)
  /\ (forall x, o_stopPrice p = Some x -> truthy x = true).

(** The request of the stop leg of an OCO order. *)
Definition stop_request {A} (symbol side : string) (q stop_price : A) : order_params A :=
  {| o_symbol := symbol; o_side := side; o_type := "STOP_MARKET"; o_quantity := Raw q;
     o_price := None; o_timeInForce := None; o_stopPrice := Some stop_price;
     o_reduceOnly := false |}.

(** ** STOP_LIMIT orders (advanced_orders.py) *)

(** [str(x)] for a float [x], kept as the number it was made from. *)
Inductive float_text := str (x : float).

(** The keyword arguments [place_stop_limit_order] calls
    [futures_create_order] with. *)
Record stop_limit_params := {
  sl_symbol : string;
  sl_side : string;
  sl_type : string;
  sl_quantity : float;
  sl_price : float_text;
  sl_stopPrice : float_text;
  sl_timeInForce : string
}.

(** The dict [place_stop_limit_order] returns; its message names the stop
    price and the price. *)
Record stop_limit_report := {
  sl_order : order_response;
  sl_trigger_at : float;
  sl_execute_at : float
}.

(** [AdvancedOrderManager.place_stop_limit_order]: the request goes to
    [_execute_api_call] directly; [api] is the exchange's answer to it,
    given the requests of this kind it has seen. *)
Definition place_stop_limit_order
    (api : list stop_limit_params -> stop_limit_params -> result order_response)
    (sent : list stop_limit_params)
    (symbol side : string) (quantity price stop_price : float)
  : result stop_limit_report * list stop_limit_params :=
  let params := {| sl_symbol := symbol; sl_side := side; sl_type := "STOP";
                   sl_quantity := quantity; sl_price := str price;
                   sl_stopPrice := str stop_price; sl_timeInForce := "GTC" |} in
  match api sent params with
  | inl e => (inl e, sent ++ [params])
  | inr order =>
    (ret {| sl_order := order; sl_trigger_at := stop_price; sl_execute_at := price |},
     sent ++ [params])
  end.

(** ** Symbol information (binance_client.py) *)

(** An element of [exchange_info['symbols']]: its ['symbol'] and its
    ['filters'] entries (no filters when the key is absent). *)
Record sym_info := {
  si_symbol : option string;
  si_filters : symbol_info
}.

(** [BinanceClientWrapper._symbol_info_cache] *)
Abbreviation info_cache := (gmap string sym_info).

Definition names (symbol : string) (s : sym_info) : bool :=
  bool_decide (si_symbol s = Some symbol).

(** [BinanceClientWrapper.get_symbol_info]; [exchange_info] is the outcome
    of [futures_exchange_info], as [exchange_info.get('symbols', [])],
    consulted on a cache miss only. *)
Definition get_symbol_info (cache : info_cache) (symbol : string)
    (exchange_info : result (list sym_info)) : result (option sym_info) * info_cache :=
  match cache !! symbol with
  | Some info => (ret (Some info), cache)
  | None =>
    match exchange_info with
    | inl e => (raise e, cache)
    | inr symbols =>
      match List.find (names symbol) symbols with
      | Some info => (ret (Some info), <[symbol := info]> cache)
      | None => (ret None, cache)
      end
    end
  end.

(** A cache whose entries are filed under their own symbol. *)
Definition filed_by_symbol (cache : info_cache) : Prop :=
  forall (k : string) (info : sym_info), cache !! k = Some info -> si_symbol info = Some k.

(** ** Starting a strategy (trading_logic.py) *)

Definition activated (config : StrategyConfig) : StrategyConfig :=
  {| c_name := c_name config; c_symbol := c_symbol config; c_active := true;
     c_short_ema_period := c_short_ema_period config;
     c_long_ema_period := c_long_ema_period config;
     c_quantity_per_trade := c_quantity_per_trade config |}.

(** [TradingLogic.start_strategy]; [done name] is
    [self._strategy_tasks[name].done()].  The task is created, its body
    has not run yet. *)
Definition start_strategy (done : string -> bool) (config : StrategyConfig)
    (st : logic_state) : bool * logic_state :=
  if bool_decide (c_name config ∈ _strategy_tasks st) && negb (done (c_name config))
  then (false, st)
  else
    (true,
     {| active_strategies := <[c_name config := activated config]> (active_strategies st);
        strategy_statuses := strategy_statuses st;
        _strategy_tasks := {[c_name config]} ∪ _strategy_tasks st;
        _symbol_precision_cache := _symbol_precision_cache st;
        submitted := submitted st; sent := sent st;
        position_queries := position_queries st |}).

(** [TradingLogic.get_strategy_status] *)
Definition get_strategy_status (name : string) (st : logic_state) : option StrategyStatus :=
  strategy_statuses st !! name.

(** ** TWAP: the coroutine and its callers, interleaved *)

(** What can happen to a plan between two suspension points: the event
    loop resumes the coroutine, or a caller cancels the plan. *)
Inductive twap_event := Resume | Cancel.

Definition twap_step {A} `{Number A} (ex : exchange A) (order_id symbol side : string)
    (total_quantity : A) (duration_minutes interval_seconds : Z)
    (st : world A * twap_task A) (ev : twap_event) : world A * twap_task A :=
  match ev with
  | Resume =>
    twap_resume ex order_id symbol side total_quantity duration_minutes interval_seconds st
  | Cancel => (snd (cancel_twap_order order_id (fst st)), snd st)
  end.

(** A plan started and then taken through a sequence of events. *)
Definition twap_schedule {A} `{Number A} (ex : exchange A) (order_id symbol side : string)
    (total_quantity : A) (duration_minutes interval_seconds : Z)
    (events : list twap_event) (w : world A) : world A * twap_task A :=
  fold_left
    (twap_step ex order_id symbol side total_quantity duration_minutes interval_seconds)
    events
    (execute_twap_order ex order_id symbol side total_quantity duration_minutes
       interval_seconds w).

(** Whether an exception is the gateway error, the one the grid loop
    catches to go on with the next level. *)
Definition is_gateway_error (e : exn) : bool :=
  match e with BinanceAPIException _ _ => true | _ => false end.

(** ** The orders endpoint (api/endpoints/orders.py) *)

(** [OrderRequest] *)
Record OrderRequest := {
  rq_symbol : string;
  rq_side : string;
  rq_quantity : float;
  rq_type : string;
  rq_price : option float;
  rq_stop_price : option float;
  rq_twap_duration_minutes : option Z;
  rq_twap_interval_seconds : option Z;
  rq_grid_lower_price : option float;
  rq_grid_upper_price : option float;
  rq_grid_levels : option Z;
  rq_oco_stop_price : option float;
  rq_oco_stop_limit_price : option float;
  rq_oco_limit_price : option float
}.

(** The status codes of the answers. *)
Inductive http_status :=
| status_400
| status_500
| gateway_status_code.       (* [e.status_code] of a [BinanceAPIException] *)

(** What is raised inside the endpoint: an exception of the services, or
    FastAPI's [HTTPException], which is an [Exception] and neither a
    [ValueError] nor a [BinanceAPIException]; and the [detail] texts. *)
Inductive raised :=
| Service (e : exn)
| HTTPException (status_code : http_status) (detail : detail_text)
with detail_text :=
| StopLimitRequiresPrices    (* "STOP_LIMIT requires both price and stop_price" *)
| OcoRequiresPrices          (* "OCO requires oco_limit_price and oco_stop_price" *)
| TwapRequiresTimes          (* "TWAP requires twap_duration_minutes and twap_interval_seconds" *)
| GridRequiresBounds         (* "GRID requires grid_lower_price, grid_upper_price, and grid_levels" *)
| UnsupportedOrderType (order_type : string)
| StrategyExists (name : string)           (* "Strategy '...' already exists." *)
| EmaStrategyRequires        (* "EMA strategy requires short_ema_period, ..." *)
| ValueErrorText (why : value_error)           (* [str(e)] of a [ValueError] *)
| GatewayMessage (message : string)        (* [e.message] *)
| InternalServerError (e : raised).        (* "Internal server error: ..." *)

(** The calls handed to [background_tasks.add_task]. *)
Inductive background_task :=
| TwapTask (order_id symbol side : string) (quantity : float)
    (duration_minutes interval_seconds : Z)
| GridTask (order_id symbol side : string) (quantity lower_price upper_price : float)
    (grid_levels : Z).

(** The dicts the endpoint answers with. *)
Inductive order_reply :=
| StandardReply (order_type : string) (order : order_response)
| StopLimitReply (report : stop_limit_report)
| OcoReply (report : oco_report)
| TwapStarted (order_id : string) (quantity : float) (duration_minutes interval_seconds : Z)
| GridStarted (order_id : string) (lower_price upper_price : float) (grid_levels : Z).

(** The services behind the endpoint, and the tasks queued to run after
    the answer has been sent. *)
Record endpoint_state := {
  logic : logic_state;
  stop_limit_sent : list stop_limit_params;
  background_tasks : list background_task
}.

Definition with_sent (sent' : list (order_params float)) (st : logic_state) : logic_state :=
  {| active_strategies := active_strategies st;
     strategy_statuses := strategy_statuses st;
     _strategy_tasks := _strategy_tasks st;
     _symbol_precision_cache := _symbol_precision_cache st;
     submitted := submitted st; sent := sent';
     position_queries := position_queries st |}.

(** [bool(n)] for an optional int. *)
Definition given_int (n : option Z) : bool :=
  match n with Some v => negb (v =? 0)%Z | None => false end.

(** [a or b] for optional floats. *)
Definition or_float (a b : option float) : option float :=
  if given a then a else b.

(** The three [except] clauses of [place_new_order], in their order. *)
Definition as_http_error (e : raised) : raised :=
  match e with
  | Service (ValueError why) => HTTPException status_400 (ValueErrorText why)
  | Service (BinanceAPIException _ message) =>
    HTTPException gateway_status_code (GatewayMessage message)
  | other => HTTPException status_500 (InternalServerError other)
  end.

Section OrdersEndpoint.
Variable upper : string -> string.       (* [str.upper] *)
Variable mk_ : market.
Variable stop_limit_api : list stop_limit_params -> stop_limit_params -> result order_response.

Definition is_standard (order_type : string) : bool :=
  String.eqb order_type "MARKET" || String.eqb order_type "LIMIT"
  || String.eqb order_type "STOP_MARKET".

(** The [try] block of [place_new_order]; [order_id] is the
    [str(uuid.uuid4())] it would draw. *)
Definition place_new_order_body (order_id : string) (rq : OrderRequest)
    (st : endpoint_state) : (raised + order_reply) * endpoint_state :=
  let order_type := upper (rq_type rq) in
  let symbol := upper (rq_symbol rq) in
  let side := upper (rq_side rq) in
  if is_standard order_type then
    let '(answer, logic') :=
      place_order mk_ (logic st) symbol side order_type (Some (rq_quantity rq))
        (rq_price rq) (rq_stop_price rq) false in
    (match answer with
     | inl e => inl (Service e)
     | inr order_data => inr (StandardReply order_type order_data)
     end,
     {| logic := logic'; stop_limit_sent := stop_limit_sent st;
        background_tasks := background_tasks st |})
  else if String.eqb order_type "STOP_LIMIT" then
    match rq_price rq, rq_stop_price rq with
    | Some price, Some stop_price =>
      if truthy price && truthy stop_price then
        let '(answer, sent') :=
          place_stop_limit_order stop_limit_api (stop_limit_sent st) symbol side
            (rq_quantity rq) price stop_price in
        (match answer with
         | inl e => inl (Service e)
         | inr report => inr (StopLimitReply report)
         end,
         {| logic := logic st; stop_limit_sent := sent';
            background_tasks := background_tasks st |})
      else (inl (HTTPException status_400 StopLimitRequiresPrices), st)
    | _, _ => (inl (HTTPException status_400 StopLimitRequiresPrices), st)
    end
  else if String.eqb order_type "OCO" then
    match rq_oco_limit_price rq, rq_oco_stop_price rq with
    | Some limit_price, Some stop_price =>
      if truthy limit_price && truthy stop_price then
        let stop_limit_price :=
          match or_float (rq_oco_stop_limit_price rq) (rq_oco_stop_price rq) with
          | Some x => x
          | None => stop_price
          end in
        let '(answer, sent') :=
          place_oco_order (futures_create_order mk_) (sent (logic st)) symbol side
            (rq_quantity rq) limit_price stop_price stop_limit_price in
        (match answer with
         | inl e => inl (Service e)
         | inr report => inr (OcoReply report)
         end,
         {| logic := with_sent sent' (logic st); stop_limit_sent := stop_limit_sent st;
            background_tasks := background_tasks st |})
      else (inl (HTTPException status_400 OcoRequiresPrices), st)
    | _, _ => (inl (HTTPException status_400 OcoRequiresPrices), st)
    end
  else if String.eqb order_type "TWAP" then
    match rq_twap_duration_minutes rq, rq_twap_interval_seconds rq with
    | Some duration_minutes, Some interval_seconds =>
      if negb (duration_minutes =? 0)%Z && negb (interval_seconds =? 0)%Z then
        (inr (TwapStarted order_id (rq_quantity rq) duration_minutes interval_seconds),
         {| logic := logic st; stop_limit_sent := stop_limit_sent st;
            background_tasks :=
              background_tasks st
              ++ [TwapTask order_id symbol side (rq_quantity rq)
                    duration_minutes interval_seconds] |})
      else (inl (HTTPException status_400 TwapRequiresTimes), st)
    | _, _ => (inl (HTTPException status_400 TwapRequiresTimes), st)
    end
  else if String.eqb order_type "GRID" then
    match rq_grid_lower_price rq, rq_grid_upper_price rq, rq_grid_levels rq with
    | Some lower_price, Some upper_price, Some grid_levels =>
      if truthy lower_price && truthy upper_price && negb (grid_levels =? 0)%Z then
        (inr (GridStarted order_id lower_price upper_price grid_levels),
         {| logic := logic st; stop_limit_sent := stop_limit_sent st;
            background_tasks :=
              background_tasks st
              ++ [GridTask order_id symbol side (rq_quantity rq)
                    lower_price upper_price grid_levels] |})
      else (inl (HTTPException status_400 GridRequiresBounds), st)
    | _, _, _ => (inl (HTTPException status_400 GridRequiresBounds), st)
    end
  else (inl (HTTPException status_400 (UnsupportedOrderType order_type)), st).

(** [place_new_order]: whatever the [try] block raises goes through the
    [except] clauses. *)
Definition place_new_order (order_id : string) (rq : OrderRequest)
    (st : endpoint_state) : (raised + order_reply) * endpoint_state :=
  match place_new_order_body order_id rq st with
  | (inl e, st') => (inl (as_http_error e), st')
  | (inr reply, st') => (inr reply, st')
  end.

End OrdersEndpoint.

(** ** The strategies endpoint (api/endpoints/strategies.py) *)

(** What [create_and_start_strategy] answers with: the status on record
    for the name, or, when there is none,
    [StrategyStatus(name=..., symbol=..., active=True, message="Started")]. *)
Inductive start_reply :=
| StatusOnRecord (status : StrategyStatus)
| Started (name symbol : string).

(** [create_and_start_strategy]; its [HTTPException]s are raised outside
    any [try]. *)
Definition create_and_start_strategy (done : string -> bool) (config : StrategyConfig)
    (st : logic_state) : (raised + start_reply) * logic_state :=
  match active_strategies st !! c_name config with
  | Some _ => (inl (HTTPException status_400 (StrategyExists (c_name config))), st)
  | None =>
    match c_short_ema_period config, c_long_ema_period config,
          c_quantity_per_trade config with
    | Some _, Some _, Some _ =>
      let st' := snd (start_strategy done config st) in
      (inr match strategy_statuses st' !! c_name config with
           | Some status => StatusOnRecord status
           | None => Started (c_name config) (c_symbol config)
           end,
       st')
    | _, _, _ => (inl (HTTPException status_400 EmaStrategyRequires), st)
    end
  end.

(** ** Notions the properties are stated with *)

(** The filters under which the normaliser uses no step: no LOT_SIZE
    filter, a step size or minimum that does not parse, a step size of
    zero. *)
Definition no_step_applies (filters : symbol_info) : Prop :=
  match List.find is_lot_size filters with
  | None => True
  | Some lot_filter =>
    match parse_field (stepSize lot_filter) (mk false 1 0),
          parse_field (minQty lot_filter) (mk false 0 0) with
    | Some step_size, Some _ => is_zero step_size = true
    | _, _ => True
    end
  end.

(** What holds of a TWAP plan at every suspension point of its coroutine:
    [sent_] slice requests have gone out since the call, [placed] of them
    have been answered with an order and are booked in the entry. *)
Definition twap_consistent {A} `{Number A} (order_id symbol side : string) (q : A) (n : Z)
    (before : list (order_params A)) (st : world A * twap_task A) : Prop :=
  exists (e : twap_entry A) (placed sent_ : nat),
    active_twap_orders (fst st) !! order_id = Some e
    /\ requests (fst st) = before ++ repeat (slice_request symbol side q) sent_
    /\ (Z.of_nat sent_ <= n)%Z
    /\ length (t_orders e) = placed
    /\ t_current_slice e = Z.of_nat placed
    /\ t_executed_quantity e = accumulate (of_int 0) q placed
    /\ match snd st with
       | PlacingOrder i _ => i = Z.of_nat placed /\ sent_ = S placed
       | Sleeping i => (i + 1)%Z = Z.of_nat placed /\ sent_ = placed /\ (i < n - 1)%Z
       | Finished (inr report) =>
         sent_ = placed /\ t_status e = Completed
         /\ r_executed_quantity report = t_executed_quantity e
         /\ r_orders report = t_orders e
       | Finished (inl _) => sent_ = S placed /\ t_status e = Error
       end.

(** A placed level as the grid books it: its number counts from 1 and
    its price is the price of that level. *)
Definition booked_level {A} `{Number A} (lower_price upper_price : A) (grid_levels : Z)
    (pl : placed_level A) : Prop :=
  (1 <= pl_level pl <= grid_levels)%Z
  /\ pl_price pl = grid_price lower_price upper_price grid_levels (pl_level pl - 1).

(** ** Concrete data for further runs *)

(** An endpoint request for concrete runs. *)
Definition plain_request (order_type : string) : OrderRequest :=
  {| rq_symbol := "btcusdt"; rq_side := "BUY"; rq_quantity := 0.002%float;
     rq_type := order_type; rq_price := None; rq_stop_price := None;
     rq_twap_duration_minutes := None; rq_twap_interval_seconds := None;
     rq_grid_lower_price := None; rq_grid_upper_price := None; rq_grid_levels := None;
     rq_oco_stop_price := None; rq_oco_stop_limit_price := None;
     rq_oco_limit_price := None |}.

Definition fresh_endpoint : endpoint_state :=
  {| logic := idle_state ∅; stop_limit_sent := []; background_tasks := [] |}.

(** A market for concrete runs with a position of 0.0004 BTCUSDT, less
    than one step of the symbol. *)
Definition dust_market : market :=
  {| futures_position_information := fun _ =>
       ret (Records [ {| p_symbol := Some "BTCUSDT"%string;
                         p_positionAmt := Num (mk false 4 (-4)) |} ]);
     futures_klines := fun _ _ => ret [];
     mark_price := fun _ => ret 100000%float;
     symbol_info_lookup := fun _ => ret None;
     futures_create_order := filling_exchange |}.

(** A market for concrete runs that answers a query for any symbol with
    a long ETHUSDT position of 0.5; closes are rising. *)
Definition eth_only_market : market :=
  {| futures_position_information := fun _ =>
       ret (Records [ {| p_symbol := Some "ETHUSDT"%string;
                         p_positionAmt := Num (mk false 5 (-1)) |} ]);
     futures_klines := fun _ _ => ret [Some 1%float; Some 2%float; Some 3%float];
     mark_price := fun _ => ret 3%float;
     symbol_info_lookup := fun _ => ret None;
     futures_create_order := filling_exchange |}.

(** An exchange for concrete runs whose connection breaks at the request
    numbered [broken]: that request raises something that is no gateway
    error. *)
Definition breaking_exchange {A} (broken : nat) : exchange A :=
  fun sent _ =>
    if Nat.eqb (length sent) broken then raise OtherException
    else ret {| orderId := Z.of_nat (length sent) |}.

(** ** Requests and concrete data of the order path *)

(** The request [BinanceClientWrapper.place_order] builds for a MARKET
    order without prices whose quantity is the text [quantity]. *)
Definition market_request (symbol side : string) (quantity : Decimal) (reduce_only : bool)
  : order_params float :=
  {| o_symbol := symbol; o_side := side; o_type := "MARKET";
     o_quantity := Text quantity; o_price := None; o_timeInForce := None;
     o_stopPrice := None; o_reduceOnly := reduce_only |}.

(** The side of the order that closes a position of the given amount. *)
Definition closing_side (amt : Decimal) : string :=
  if sign amt then "BUY"%string else "SELL"%string.

(** An exchange for concrete runs that fills every order but the one whose
    number in the sequence is [refused]: that request fails with a
    [BinanceOrderException]. *)
Definition order_refusing_exchange {A} (refused : nat) : exchange A :=
  fun sent _ =>
    if Nat.eqb (length sent) refused then raise BinanceOrderException
    else ret {| orderId := Z.of_nat (length sent) |}.

(** A LOT_SIZE filter whose minimum quantity is no decimal numeral. *)
Definition lot_size_without_minimum (step : Decimal) : exchange_filter :=
  {| filterType := Some "LOT_SIZE"%string; stepSize := Num step; minQty := Unparsable |}.

(** * Properties *)

(** ** TWAP: slicing *)

Section TwapFacts.
Context {A : Type} `{Number A}.
Variable ex : exchange A.
Variables (order_id symbol side : string) (total_quantity : A)
          (duration_minutes interval_seconds : Z).

Local Abbreviation n := (num_slices duration_minutes interval_seconds).
Local Abbreviation q := (quantity_per_slice total_quantity duration_minutes interval_seconds).
Local Abbreviation iteration :=
  (twap_iteration ex order_id symbol side total_quantity duration_minutes interval_seconds).
Local Abbreviation run :=
  (twap_run ex order_id symbol side total_quantity duration_minutes interval_seconds).

Lemma num_slices_pos : (1 <= n)%Z.
Proof. unfold num_slices, slice_count. lia. Qed.

Lemma twap_run_finished k w r : run k (w, Finished r) = (w, Finished r).
Proof. induction k as [|k IH]; simpl; auto. Qed.

Lemma slice_request_built :
  order_request symbol side "MARKET" (Raw q) None None false
  = ret (slice_request symbol side q).
Proof. reflexivity. Qed.

Lemma twap_run_S k st :
  run (S k) st
  = run k (twap_resume ex order_id symbol side total_quantity duration_minutes
             interval_seconds st).
Proof. reflexivity. Qed.

Lemma twap_resume_placed w k order e :
  active_twap_orders w !! order_id = Some e ->
  twap_resume ex order_id symbol side total_quantity duration_minutes interval_seconds
    (w, PlacingOrder k (inr order))
  = let w' := {| active_twap_orders :=
                   <[order_id := with_slice total_quantity duration_minutes
                                   interval_seconds k order e]> (active_twap_orders w);
                 requests := requests w |} in
    if (k <? n - 1)%Z then (w', Sleeping k) else iteration (k + 1)%Z w'.
Proof. intros Hw. unfold twap_resume. rewrite Hw. reflexivity. Qed.

Lemma twap_iteration_places w k e order :
  (k < n)%Z ->
  active_twap_orders w !! order_id = Some e ->
  t_status e = Active ->
  ex (requests w) (slice_request symbol side q) = inr order ->
  iteration k w
  = ({| active_twap_orders := active_twap_orders w;
        requests := requests w ++ [slice_request symbol side q] |},
     PlacingOrder k (inr order)).
Proof.
  intros Hk Hw Hact Hans. unfold twap_iteration.
  replace (k <? n)%Z with true by (symmetry; apply Z.ltb_lt; lia).
  rewrite Hw. destruct (decide (t_status e = Active)) as [_|Hn]; [|contradiction].
  unfold client_place_order. rewrite slice_request_built. unfold ret at 1.
  cbv beta iota. rewrite Hans. reflexivity.
Qed.

(** From the top of iteration [k], with the plan active and an exchange
    that fills every order, the remaining [m] slices are placed one by one
    and the plan completes. *)
Lemma twap_remaining_slices (Hfill : always_fills ex) :
  forall (m : nat) (k : Z) (w : world A) (e : twap_entry A),
    (k + Z.of_nat m = n)%Z ->
    active_twap_orders w !! order_id = Some e ->
    t_status e = Active ->
    exists w' e',
      run (2 * m) (iteration k w)
      = (w', Finished (ret {| r_status := Completed;
                              r_total_quantity := total_quantity;
                              r_executed_quantity := t_executed_quantity e';
                              r_num_slices := n;
                              r_orders := t_orders e' |}))
      /\ requests w' = requests w ++ repeat (slice_request symbol side q) m
      /\ active_twap_orders w' !! order_id = Some (with_status Completed e')
      /\ t_executed_quantity e' = accumulate (t_executed_quantity e) q m
      /\ length (t_orders e') = (length (t_orders e) + m)%nat.
Proof.
  induction m as [|m IH]; intros k w e Hk Hw Hact.
  - exists {| active_twap_orders := <[order_id := with_status Completed e]> (active_twap_orders w);
              requests := requests w |}, e.
    simpl. unfold twap_iteration.
    replace (k <? n)%Z with false by (symmetry; apply Z.ltb_ge; lia).
    unfold twap_after_loop. rewrite Hw. simpl.
    rewrite lookup_insert_eq, app_nil_r. repeat split; auto.
  - destruct (Hfill (requests w) (slice_request symbol side q)) as [order Hans].
    rewrite (twap_iteration_places w k e order ltac:(lia) Hw Hact Hans).
    replace (2 * S m)%nat with (S (S (2 * m))) by lia.
    rewrite twap_run_S, (twap_resume_placed _ k order e) by exact Hw.
    cbn [active_twap_orders requests]. cbv zeta.
    set (e1 := with_slice total_quantity duration_minutes interval_seconds k order e).
    set (w1 := {| active_twap_orders := <[order_id := e1]> (active_twap_orders w);
                  requests := requests w ++ [slice_request symbol side q] |}).
    assert (Hw1 : active_twap_orders w1 !! order_id = Some e1)
      by (apply lookup_insert_eq).
    assert (Hact1 : t_status e1 = Active) by exact Hact.
    destruct (IH (k + 1)%Z w1 e1 ltac:(lia) Hw1 Hact1)
      as (w' & e' & Hrun & Hreq & Hreg & Hsum & Hlen).
    exists w', e'. split.
    + destruct (k <? n - 1)%Z eqn:Hlt.
      * rewrite twap_run_S. exact Hrun.
      * apply Z.ltb_ge in Hlt. assert (m = O) by lia. subst m.
        simpl in Hrun. rewrite Hrun. apply twap_run_finished.
    + repeat split.
      * rewrite Hreq. subst w1. cbn [requests]. rewrite <- app_assoc. reflexivity.
      * exact Hreg.
      * rewrite Hsum. reflexivity.
      * rewrite Hlen. subst e1. cbn [with_slice t_orders]. rewrite length_app. simpl. lia.
Qed.

(** A complete run of a plan against an exchange that fills every order. *)
Lemma twap_complete_run (Hfill : always_fills ex) (w : world A) :
  interval_seconds <> 0%Z ->
  exists w' report,
    run (2 * Z.to_nat n)
      (execute_twap_order ex order_id symbol side total_quantity
         duration_minutes interval_seconds w)
    = (w', Finished (ret report))
    /\ requests w' = requests w ++ repeat (slice_request symbol side q) (Z.to_nat n)
    /\ r_status report = Completed
    /\ r_num_slices report = n
    /\ r_executed_quantity report = accumulate (of_int 0) q (Z.to_nat n)
    /\ length (r_orders report) = Z.to_nat n.
Proof.
  intros Hs. unfold execute_twap_order.
  replace (interval_seconds =? 0)%Z with false by (symmetry; apply Z.eqb_neq; exact Hs).
  set (entry := {| t_symbol := symbol; t_side := side; t_total_quantity := total_quantity;
                   t_executed_quantity := of_int 0; t_num_slices := n;
                   t_current_slice := 0; t_status := Active; t_orders := [] |}).
  set (w0 := {| active_twap_orders := <[order_id := entry]> (active_twap_orders w);
                requests := requests w |}).
  pose proof num_slices_pos as Hn.
  destruct (twap_remaining_slices Hfill (Z.to_nat n) 0%Z w0 entry) as
    (w' & e' & Hrun & Hreq & Hreg & Hsum & Hlen).
  { lia. }
  { apply lookup_insert_eq. }
  { reflexivity. }
  eexists w', _. split; [exact Hrun|].
  cbn [r_status r_num_slices r_executed_quantity r_orders].
  repeat split; auto.
Qed.

End TwapFacts.

(** ** Grid: placement *)

Lemma py_range_spec (n i : Z) : In i (py_range n) <-> (0 <= i < n)%Z.
Proof.
  unfold py_range. rewrite in_map_iff. split.
  - intros (k & <- & Hk). apply in_seq in Hk. lia.
  - intros Hi. exists (Z.to_nat i). split; [lia|]. apply in_seq. lia.
Qed.

Lemma py_range_length (n : Z) : length (py_range n) = Z.to_nat n.
Proof. unfold py_range. rewrite length_map, length_seq. reflexivity. Qed.

Section GridFacts.
Context {A : Type} `{Number A}.
Variable ex : exchange A.
Variables (order_id symbol side : string) (quantity lower_price upper_price : A)
          (grid_levels : Z).

Local Abbreviation qpl := (quantity_per_level quantity grid_levels).
Local Abbreviation price := (grid_price lower_price upper_price grid_levels).
Local Abbreviation request := (fun i => level_request symbol side qpl (price i)).
Local Abbreviation loop :=
  (grid_loop ex order_id symbol side quantity lower_price upper_price grid_levels).

Lemma level_request_built i :
  truthy (price i) = true ->
  order_request symbol side "LIMIT" (Raw qpl) (Some (price i)) None false
  = ret (request i).
Proof.
  intros Hp. unfold order_request, given. rewrite Hp. reflexivity.
Qed.

(** The loop against an exchange that fails with gateway errors only:
    every level is attempted, in order, and the levels that were filled
    are the ones recorded. *)
Lemma grid_loop_run (Hgw : gateway_errors_only ex) :
  forall (levels : list Z) (orders : list (placed_level A)) (w : grid_world A),
    (forall i, In i levels -> truthy (price i) = true) ->
    exists orders' w',
      loop levels orders w = (ret orders', w')
      /\ grid_requests w' = grid_requests w ++ map request levels
      /\ length orders'
         = (length orders
            + length (List.filter succeeded
                        (answers ex (grid_requests w) (map request levels))))%nat
      /\ (forall e, active_grid_orders w !! order_id = Some e ->
            exists e', active_grid_orders w' !! order_id = Some e').
Proof.
  induction levels as [|i rest IH]; intros orders w Hp.
  - exists orders, w. simpl. rewrite app_nil_r. repeat split; eauto.
  - cbn [grid_loop]. unfold client_place_order.
    rewrite level_request_built by (apply Hp; left; reflexivity).
    unfold ret at 1. cbv beta iota.
    assert (Hrest : forall j, In j rest -> truthy (price j) = true)
      by (intros j Hj; apply Hp; right; exact Hj).
    pose proof (Hgw (grid_requests w) (level_request symbol side qpl (price i))) as Hans.
    cbn [map answers]. cbv beta.
    destruct (ex (grid_requests w) (level_request symbol side qpl (price i)))
      as [e|order] eqn:Hex.
    + destruct e; try contradiction.
      destruct (IH orders
                  {| active_grid_orders := active_grid_orders w;
                     grid_requests := grid_requests w ++ [request i] |} Hrest)
        as (orders' & w' & Hloop & Hreq & Hlen & Hreg).
      cbn [active_grid_orders grid_requests] in Hloop, Hreq, Hlen, Hreg.
      exists orders', w'. repeat split.
      * exact Hloop.
      * rewrite Hreq, <- app_assoc. reflexivity.
      * rewrite Hlen. reflexivity.
      * exact Hreg.
    + destruct (IH (orders ++ [{| pl_level := i + 1; pl_price := price i; pl_order := order |}])
                  {| active_grid_orders :=
                       alter (grid_with_order order) order_id (active_grid_orders w);
                     grid_requests := grid_requests w ++ [request i] |} Hrest)
        as (orders' & w' & Hloop & Hreq & Hlen & Hreg).
      cbn [active_grid_orders grid_requests] in Hloop, Hreq, Hlen, Hreg.
      exists orders', w'. repeat split.
      * exact Hloop.
      * rewrite Hreq, <- app_assoc. reflexivity.
      * rewrite Hlen. cbn [List.filter succeeded].
        rewrite length_app. simpl. lia.
      * intros e0 He0. apply (Hreg (grid_with_order order e0)).
        rewrite lookup_alter_eq, He0. reflexivity.
Qed.

(** A whole call against such an exchange. *)
Lemma grid_run (Hgw : gateway_errors_only ex) (w : grid_world A) :
  grid_levels <> 0%Z ->
  (forall i, (0 <= i < grid_levels)%Z -> truthy (price i) = true) ->
  exists report w',
    execute_grid_trading ex order_id symbol side quantity lower_price upper_price
      grid_levels w = (ret report, w')
    /\ gr_status report = Completed
    /\ (exists e, get_grid_status order_id w' = Some e /\ g_status e = Completed)
    /\ grid_requests w' = grid_requests w ++ map request (py_range grid_levels)
    /\ gr_orders_placed report
       = Z.of_nat (length (List.filter succeeded
                             (answers ex (grid_requests w)
                                (map request (py_range grid_levels))))).
Proof.
  intros Hl Hp. unfold execute_grid_trading.
  replace (grid_levels =? 0)%Z with false by (symmetry; apply Z.eqb_neq; exact Hl).
  set (entry := {| g_symbol := symbol; g_side := side; g_quantity := quantity;
                   g_lower_price := lower_price; g_upper_price := upper_price;
                   g_grid_levels := grid_levels; g_status := Active; g_orders := [] |}).
  set (w0 := {| active_grid_orders := <[order_id := entry]> (active_grid_orders w);
                grid_requests := grid_requests w |}).
  destruct (grid_loop_run Hgw (py_range grid_levels) [] w0)
    as (orders & w1 & Hloop & Hreq & Hlen & Hreg).
  { intros i Hi. apply Hp, py_range_spec, Hi. }
  rewrite Hloop. unfold ret at 1. cbv beta iota.
  destruct (Hreg entry) as [e1 He1]; [apply lookup_insert_eq|].
  eexists _, _. split; [reflexivity|].
  cbn [gr_status gr_orders_placed grid_requests]. repeat split.
  - exists (grid_with_status Completed e1). unfold get_grid_status.
    cbn [active_grid_orders]. rewrite lookup_alter_eq, He1. split; reflexivity.
  - exact Hreq.
  - rewrite Hlen. reflexivity.
Qed.

End GridFacts.

(** ** Slicing and spacing in exact arithmetic *)

Lemma inject_Z_nonzero (z : Z) : z <> 0%Z -> ~ inject_Z z == 0.
Proof. intros Hz Heq. unfold Qeq, inject_Z in Heq. cbn [Qnum Qden] in Heq. lia. Qed.

Lemma accumulate_exact (x q : Q) (k : nat) :
  accumulate x q k == x + inject_Z (Z.of_nat k) * q.
Proof.
  unfold accumulate. revert x.
  induction k as [|k IH]; intros x.
  - simpl. ring.
  - cbn [repeat fold_left]. rewrite IH. cbn [add exact_number].
    rewrite Nat2Z.inj_succ. unfold Z.succ. rewrite inject_Z_plus. ring.
Qed.

Lemma exact_slices_add_up : slices_add_up_to_total Q Qeq.
Proof.
  intros total d s Hs. rewrite accumulate_exact.
  unfold quantity_per_slice. cbn [of_int div exact_number].
  pose proof (num_slices_pos d s) as Hn.
  rewrite Z2Nat.id by lia.
  field. apply inject_Z_nonzero. lia.
Qed.

Lemma exact_grid_price (lower upper : Q) (levels i : Z) :
  (2 <= levels)%Z ->
  grid_price lower upper levels i
  == lower + inject_Z i * (upper - lower) / inject_Z (levels - 1).
Proof.
  intros Hl. unfold grid_price, price_step, price_range.
  replace (levels =? 1)%Z with false by (symmetry; apply Z.eqb_neq; lia).
  replace (1 <? levels)%Z with true by (symmetry; apply Z.ltb_lt; lia).
  cbn [of_int add sub mul div exact_number].
  field. apply inject_Z_nonzero. lia.
Qed.

Lemma exact_levels_evenly_spaced : levels_evenly_spaced Q Qeq.
Proof.
  intros lower upper levels i Hl Hi Hi'.
  cbn [sub div of_int exact_number].
  rewrite !exact_grid_price by lia.
  rewrite inject_Z_plus. field. apply inject_Z_nonzero. lia.
Qed.

(** ** TWAP plans *)

(** C3, as worded, fails in the arithmetic the program runs with: the plan
    TWAP(total=1.0, duration=10min, interval=60s) has 10 slices of
    1.0/10 each, and the executed quantity it reports after all of them
    were filled, 0.9999999999999999, is not the total.  Nor is the sum of
    the ten slice quantities taken exactly: the binary64 quotient 1.0/10
    lies above one tenth. *)
Lemma twap_ten_slices_miss_total :
  exists w report,
    twap_run filling_exchange "plan" "BTCUSDT" "BUY" 1.0%float 10 60 20
      (execute_twap_order filling_exchange "plan" "BTCUSDT" "BUY" 1.0%float 10 60
         empty_world)
    = (w, Finished (ret report))
    /\ r_num_slices report = 10%Z
    /\ map o_quantity (requests w) = repeat (Raw (1.0 / 10)%float) 10
    /\ r_total_quantity report = 1.0%float
    /\ r_executed_quantity report = 0.99999999999999989%float
    /\ PrimFloat.eqb (r_executed_quantity report) (r_total_quantity report) = false
    /\ ~ (inject_Z 10 * exact_value (1.0 / 10)%float == exact_value 1.0%float)%Q.
Proof.
  eexists _, _. split; [vm_compute; reflexivity|].
  repeat split.
  intros Heq. vm_compute in Heq. discriminate Heq.
Qed.

(** C3, amended.  For every plan with a positive interval the slice count
    is max(1, floor(60*d / s)); against an exchange that fills every
    order, each slice is ordered with the quantity total / slice_count
    and the executed quantity reported is these quantities added up from
    0.  In exact arithmetic that sum is the total; in binary64 it is for
    TWAP(total=1.0, duration=2min, interval=60s), which places 2 slices
    of 0.5 each. *)
Theorem twap_slicing :
  (forall (A : Type) (N : Number A) (ex : exchange A) (order_id symbol side : string)
          (total : A) (d s : Z) (w : world A),
      (0 < s)%Z ->
      always_fills ex ->
      let n := Z.max 1 (60 * d / s) in
      let q := div total (of_int n) in
      exists w' report,
        twap_run ex order_id symbol side total d s (2 * Z.to_nat n)
          (execute_twap_order ex order_id symbol side total d s w)
        = (w', Finished (ret report))
        /\ r_num_slices report = n
        /\ requests w' = requests w ++ repeat (slice_request symbol side q) (Z.to_nat n)
        /\ r_executed_quantity report = accumulate (of_int 0) q (Z.to_nat n))
  /\ slices_add_up_to_total Q Qeq
  /\ (exists w report,
        twap_run filling_exchange "plan" "BTCUSDT" "BUY" 1.0%float 2 60 4
          (execute_twap_order filling_exchange "plan" "BTCUSDT" "BUY" 1.0%float 2 60
             empty_world)
        = (w, Finished (ret report))
        /\ r_num_slices report = 2%Z
        /\ map o_quantity (requests w) = [Raw 0.5%float; Raw 0.5%float]
        /\ r_executed_quantity report = 1.0%float).
Proof.
  split; [|split].
  - intros A N ex order_id symbol side total d s w Hs Hfill n q.
    assert (Hn : n = num_slices d s).
    { unfold n, num_slices, slice_count. rewrite (Z.mul_comm d 60). reflexivity. }
    destruct (twap_complete_run ex order_id symbol side total d s Hfill w ltac:(lia))
      as (w' & report & Hrun & Hreq & _ & Hnum & Hsum & _).
    exists w', report. unfold q. rewrite Hn. auto.
  - exact exact_slices_add_up.
  - eexists _, _. split; [vm_compute; reflexivity|]. repeat split.
Qed.

Lemma filling_exchange_fills {A} : always_fills (@filling_exchange A).
Proof. intros sent p. eexists. reflexivity. Qed.

Lemma twap_slicing_witness :
  exists w' report,
    twap_run filling_exchange "plan" "ETHUSDT" "SELL" 3.0%float 1 20 (2 * 3)
      (execute_twap_order filling_exchange "plan" "ETHUSDT" "SELL" 3.0%float 1 20 empty_world)
    = (w', Finished (ret report))
    /\ r_num_slices report = 3%Z
    /\ requests w' = [] ++ repeat (slice_request "ETHUSDT" "SELL" 1.0%float) 3
    /\ r_executed_quantity report = accumulate (of_int 0) 1.0%float 3.
Proof.
  exact (proj1 twap_slicing float float_number filling_exchange "plan" "ETHUSDT" "SELL"
           3.0%float 1%Z 20%Z empty_world ltac:(lia) filling_exchange_fills).
Defined.

(** C1: a TWAP slice goes to the exchange as the raw quotient, past the
    normaliser.  For a symbol with step size 0.001 and minimum 0.001, the
    order BUY 0.0005 placed through [TradingLogic.place_order] is refused
    before any request ("rounds down to zero"); the plan
    TWAP(total=0.001, duration=2min, interval=60s) sends the same 0.0005
    to the exchange. *)
Theorem twap_bypasses_normalizer :
  forall (m : market) (st : logic_state),
    _symbol_precision_cache st !! "BTCUSDT"%string = Some btcusdt_filters ->
    (exists st',
        place_order m st "BTCUSDT" "BUY" "MARKET"
          (Some 0.0005%float) None None false
        = (raise (ValueError RoundsDownToZero), st')
        /\ sent st' = sent st)
    /\ requests
         (fst (execute_twap_order (futures_create_order m) "plan" "BTCUSDT" "BUY"
                 0.001%float 2 60 empty_world))
       = [slice_request "BTCUSDT" "BUY" 0.0005%float].
Proof.
  intros m st Hcache. split.
  - assert (Hstr : Decimal_of_float 0.0005%float = QDec (mk false 5 (-4)))
      by (vm_compute; reflexivity).
    unfold place_order, quantity_text, _normalize_quantity, _get_symbol_info.
    rewrite Hstr, Hcache. eexists. split; reflexivity.
  - reflexivity.
Qed.

(** C2: cancelled is not terminal.  TWAP(total=1.0, duration=2min,
    interval=60s): the first slice is filled, the plan is cancelled while
    the coroutine sleeps ([cancel_twap_order] returns True and the status
    reads cancelled); when the coroutine wakes it leaves the loop without
    placing the second slice, and then overwrites the status with
    completed. *)
Theorem twap_cancelled_plan_reports_completed :
  let start :=
    execute_twap_order filling_exchange "plan" "BTCUSDT" "BUY" 1.0%float 2 60 empty_world in
  let placed :=
    twap_resume filling_exchange "plan" "BTCUSDT" "BUY" 1.0%float 2 60 start in
  let cancelled := cancel_twap_order "plan" (fst placed) in
  let woken :=
    twap_resume filling_exchange "plan" "BTCUSDT" "BUY" 1.0%float 2 60
      (snd cancelled, snd placed) in
  snd placed = Sleeping 0
  /\ fst cancelled = true
  /\ t_status <$> get_twap_status "plan" (snd cancelled) = Some Cancelled
  /\ length (requests (fst woken)) = 1%nat
  /\ t_status <$> get_twap_status "plan" (fst woken) = Some Completed
  /\ r_status <$> match snd woken with Finished (inr r) => Some r | _ => None end
     = Some Completed.
Proof. vm_compute. repeat split. Qed.

(** The parts of C2 the code keeps. *)
Lemma cancel_inactive_plan {A} (order_id : string) (w : world A) :
  t_status <$> get_twap_status order_id w <> Some Active ->
  cancel_twap_order order_id w = (false, w).
Proof.
  unfold cancel_twap_order, get_twap_status. intros Hs.
  destruct (active_twap_orders w !! order_id) as [e|]; [|reflexivity].
  destruct (decide (t_status e = Active)) as [Ha|]; [|reflexivity].
  exfalso. apply Hs. simpl. rewrite Ha. reflexivity.
Qed.

Lemma cancel_active_plan {A} (order_id : string) (w : world A) (e : twap_entry A) :
  get_twap_status order_id w = Some e ->
  t_status e = Active ->
  fst (cancel_twap_order order_id w) = true
  /\ t_status <$> get_twap_status order_id (snd (cancel_twap_order order_id w))
     = Some Cancelled.
Proof.
  unfold cancel_twap_order, get_twap_status. intros Hw Ha. rewrite Hw.
  destruct (decide (t_status e = Active)) as [_|Hn]; [|contradiction].
  cbn [fst snd active_twap_orders]. rewrite lookup_insert_eq. split; reflexivity.
Qed.

Lemma checkpoint_overwrites_cancellation {A} `{Number A} (ex : exchange A)
    (order_id symbol side : string) (total : A) (d s i : Z) (w : world A)
    (e : twap_entry A) :
  get_twap_status order_id w = Some e ->
  t_status e <> Active ->
  t_status <$> get_twap_status order_id
                 (fst (twap_iteration ex order_id symbol side total d s i w))
  = Some Completed.
Proof.
  unfold get_twap_status, twap_iteration, twap_after_loop. intros Hw Hs.
  rewrite Hw. destruct (decide (t_status e = Active)); [contradiction|].
  destruct (i <? num_slices d s)%Z; cbn [fst active_twap_orders];
    rewrite lookup_insert_eq; reflexivity.
Qed.

Lemma no_slice_after_cancellation {A} `{Number A} (ex : exchange A)
    (order_id symbol side : string) (total : A) (d s i : Z) (w : world A)
    (e : twap_entry A) :
  get_twap_status order_id w = Some e ->
  t_status e <> Active ->
  requests (fst (twap_iteration ex order_id symbol side total d s i w)) = requests w.
Proof.
  unfold get_twap_status, twap_iteration, twap_after_loop. intros Hw Hs.
  rewrite Hw. destruct (decide (t_status e = Active)); [contradiction|].
  destruct (i <? num_slices d s)%Z; reflexivity.
Qed.

Lemma twap_bypasses_normalizer_witness :
  (exists st',
      place_order quiet_market
        (idle_state {[ "BTCUSDT"%string := btcusdt_filters ]})
        "BTCUSDT" "BUY" "MARKET" (Some 0.0005%float) None None false
      = (raise (ValueError RoundsDownToZero), st')
      /\ sent st' = [])
  /\ requests
       (fst (execute_twap_order filling_exchange "plan" "BTCUSDT" "BUY"
               0.001%float 2 60 empty_world))
     = [slice_request "BTCUSDT" "BUY" 0.0005%float].
Proof.
  exact (twap_bypasses_normalizer quiet_market
           (idle_state {[ "BTCUSDT"%string := btcusdt_filters ]}) eq_refl).
Defined.

(** ** Grid plans *)

(** C5, as worded, fails in the arithmetic the program runs with:
    Grid(lower=0.1, upper=1.0, levels=10) has the step 0.1, but its levels
    2 and 3 are priced 0.30000000000000004 and 0.4, which are not one
    step apart, whether the difference is taken in binary64 or exactly. *)
Lemma grid_prices_unevenly_spaced :
  let price := grid_price 0.1%float 1.0%float 10 in
  price_step 0.1%float 1.0%float 10 = 0.1%float
  /\ price 2%Z = 0.30000000000000004%float
  /\ price 3%Z = 0.4%float
  /\ PrimFloat.eqb (price 3%Z - price 2%Z)%float (price_step 0.1%float 1.0%float 10) = false
  /\ ~ (exact_value (price 3%Z) - exact_value (price 2%Z)
        == exact_value (price_step 0.1%float 1.0%float 10))%Q
  /\ ~ levels_evenly_spaced float float_eq.
Proof.
  repeat split.
  { intros Heq. vm_compute in Heq. discriminate Heq. }
  intros Hc. specialize (Hc 0.1%float 1.0%float 10%Z 2%Z ltac:(lia) ltac:(lia) ltac:(lia)).
  vm_compute in Hc. discriminate Hc.
Qed.

(** C5, amended.  Against an exchange that fails with gateway errors
    only, a grid of [levels] levels (not 0) with non-zero prices sends one
    LIMIT order per level i in [0, levels), in this order, each with the
    quantity total / levels and the price of the level; with one level
    that price is the lower price; with two levels or more it is
    lower + i * step for step = (upper - lower) / (levels - 1), each
    operation rounded as the arithmetic at hand rounds it.  In exact
    arithmetic this is lower + i*(upper-lower)/(levels-1) and consecutive
    levels are exactly one step apart; in binary64 they are for
    Grid(lower=95000, upper=105000, levels=11), whose prices are
    95000, 96000, ..., 105000. *)
Theorem grid_level_prices :
  (forall (A : Type) (N : Number A) (ex : exchange A) (order_id symbol side : string)
          (quantity lower upper : A) (levels : Z) (w : grid_world A),
      levels <> 0%Z ->
      gateway_errors_only ex ->
      (forall i, (0 <= i < levels)%Z -> truthy (grid_price lower upper levels i) = true) ->
      exists report w',
        execute_grid_trading ex order_id symbol side quantity lower upper levels w
        = (ret report, w')
        /\ grid_requests w'
           = grid_requests w
             ++ map (fun i => level_request symbol side (div quantity (of_int levels))
                                (grid_price lower upper levels i))
                 (py_range levels))
  /\ (forall (A : Type) (N : Number A) (lower upper : A),
        py_range 1 = [0%Z] /\ grid_price lower upper 1 0 = lower)
  /\ (forall (A : Type) (N : Number A) (lower upper : A) (levels i : Z),
        (2 <= levels)%Z ->
        grid_price lower upper levels i
        = add lower (mul (of_int i) (div (sub upper lower) (of_int (levels - 1)))))
  /\ (forall (lower upper : Q) (levels i : Z),
        (2 <= levels)%Z ->
        grid_price lower upper levels i
        == lower + inject_Z i * (upper - lower) / inject_Z (levels - 1))
  /\ levels_evenly_spaced Q Qeq
  /\ map (grid_price 95000%float 105000%float 11) (py_range 11)
     = [95000; 96000; 97000; 98000; 99000; 100000; 101000; 102000; 103000;
        104000; 105000]%float.
Proof.
  split; [|split; [|split; [|split; [|split]]]].
  - intros A N ex order_id symbol side quantity lower upper levels w Hl Hgw Hp.
    destruct (grid_run ex order_id symbol side quantity lower upper levels Hgw w Hl Hp)
      as (report & w' & Hrun & _ & _ & Hreq & _).
    exists report, w'. split; [exact Hrun | exact Hreq].
  - intros A N lower upper. split; reflexivity.
  - intros A N lower upper levels i Hl. unfold grid_price, price_step, price_range.
    replace (levels =? 1)%Z with false by (symmetry; apply Z.eqb_neq; lia).
    replace (1 <? levels)%Z with true by (symmetry; apply Z.ltb_lt; lia).
    reflexivity.
  - exact exact_grid_price.
  - exact exact_levels_evenly_spaced.
  - vm_compute. reflexivity.
Qed.

Lemma rejecting_exchange_gateway_errors {A} (rejected : list nat) :
  gateway_errors_only (@rejecting_exchange A rejected).
Proof.
  intros sent0 p. unfold rejecting_exchange.
  destruct (existsb (Nat.eqb (length sent0)) rejected); exact I.
Qed.

Lemma three_level_prices_nonzero (i : Z) :
  (0 <= i < 3)%Z ->
  truthy (grid_price 95000%float 105000%float 3 i) = true.
Proof.
  intros Hi.
  assert (Hc : i = 0%Z \/ i = 1%Z \/ i = 2%Z) by lia.
  destruct Hc as [-> | [-> | ->]]; vm_compute; reflexivity.
Qed.

Lemma grid_level_prices_witness :
  exists report w',
    execute_grid_trading (rejecting_exchange [1%nat]) "grid" "BTCUSDT" "BUY"
      0.003%float 95000%float 105000%float 3 empty_grid_world
    = (ret report, w')
    /\ grid_requests w'
       = grid_requests empty_grid_world
         ++ map (fun i => level_request "BTCUSDT" "BUY" (div 0.003%float (of_int 3))
                            (grid_price 95000%float 105000%float 3 i))
             (py_range 3).
Proof.
  exact (proj1 grid_level_prices float float_number (rejecting_exchange [1%nat])
           "grid" "BTCUSDT" "BUY" 0.003%float 95000%float 105000%float 3%Z
           empty_grid_world ltac:(lia) (rejecting_exchange_gateway_errors _)
           three_level_prices_nonzero).
Defined.

(** C6, as worded, fails for the failures the loop does not catch.  In a
    grid of three levels whose second request fails with a
    [BinanceOrderException], the exception leaves the call: the third
    level is never attempted and the status reads error.  In
    Grid(lower=1.0, upper=1e-20, levels=2) the second level is priced at
    zero; the client raises "price is required" before any request for
    it, and the status reads error although the exchange filled the
    first level. *)
Lemma grid_stops_at_an_uncaught_failure :
  (let run := execute_grid_trading (order_refusing_exchange 1) "grid" "BTCUSDT" "BUY"
                0.003%float 95000%float 105000%float 3 empty_grid_world in
   fst run = raise BinanceOrderException
   /\ grid_requests (snd run)
      = map (fun i => level_request "BTCUSDT" "BUY" (quantity_per_level 0.003%float 3)
                        (grid_price 95000%float 105000%float 3 i))
          [0%Z; 1%Z]
   /\ g_status <$> get_grid_status "grid" (snd run) = Some Error)
  /\ (let run := execute_grid_trading filling_exchange "grid" "BTCUSDT" "BUY"
                   0.002%float 1.0%float 1e-20%float 2 empty_grid_world in
      grid_price 1.0%float 1e-20%float 2 1 = 0%float
      /\ fst run = raise (ValueError PriceRequired)
      /\ grid_requests (snd run)
         = [level_request "BTCUSDT" "BUY" (quantity_per_level 0.002%float 2) 1.0%float]
      /\ g_status <$> get_grid_status "grid" (snd run) = Some Error).
Proof. vm_compute. repeat split. Qed.

(** C6, amended.  For a grid whose level count is not 0 and whose level
    prices are all non-zero, against an exchange whose only failure is
    the gateway error the loop catches ([BinanceAPIException]): a level
    the exchange rejects does not stop the placement; every level is
    attempted, in order; the call returns with status completed, the
    registry reads completed, and [orders_placed] counts the levels the
    exchange filled. *)
Theorem grid_placement_is_best_effort :
  forall (A : Type) (N : Number A) (ex : exchange A) (order_id symbol side : string)
         (quantity lower upper : A) (levels : Z) (w : grid_world A),
    levels <> 0%Z ->
    gateway_errors_only ex ->
    (forall i, (0 <= i < levels)%Z -> truthy (grid_price lower upper levels i) = true) ->
    let attempts :=
      map (fun i => level_request symbol side (quantity_per_level quantity levels)
                      (grid_price lower upper levels i))
        (py_range levels) in
    exists report w',
      execute_grid_trading ex order_id symbol side quantity lower upper levels w
      = (ret report, w')
      /\ grid_requests w' = grid_requests w ++ attempts
      /\ gr_status report = Completed
      /\ g_status <$> get_grid_status order_id w' = Some Completed
      /\ gr_orders_placed report
         = Z.of_nat (length (List.filter succeeded (answers ex (grid_requests w) attempts))).
Proof.
  intros A N ex order_id symbol side quantity lower upper levels w Hl Hgw Hp attempts.
  destruct (grid_run ex order_id symbol side quantity lower upper levels Hgw w Hl Hp)
    as (report & w' & Hrun & Hst & (e & He & Hes) & Hreq & Hcount).
  exists report, w'. repeat split; auto.
  rewrite He. simpl. rewrite Hes. reflexivity.
Qed.

Lemma grid_placement_is_best_effort_witness :
  exists report w',
    execute_grid_trading (rejecting_exchange [1%nat]) "grid" "BTCUSDT" "BUY"
      0.003%float 95000%float 105000%float 3 empty_grid_world
    = (ret report, w')
    /\ length (grid_requests w') = 3%nat
    /\ gr_status report = Completed
    /\ g_status <$> get_grid_status "grid" w' = Some Completed
    /\ gr_orders_placed report = 2%Z.
Proof.
  destruct (grid_placement_is_best_effort float float_number (rejecting_exchange [1%nat])
              "grid" "BTCUSDT" "BUY" 0.003%float 95000%float 105000%float 3%Z
              empty_grid_world ltac:(lia) (rejecting_exchange_gateway_errors _)
              three_level_prices_nonzero)
    as (report & w' & Hrun & Hreq & Hst & Hreg & Hcount).
  exists report, w'. repeat split; auto.
  rewrite Hreq. reflexivity.
Defined.

(** ** Positions *)

Lemma filter_none {X} (f : X -> bool) (l : list X) :
  (forall x, In x l -> f x = false) -> List.filter f l = [].
Proof.
  induction l as [|x l IH]; intros Hf; [reflexivity|].
  simpl. rewrite (Hf x) by (left; reflexivity).
  apply IH. intros y Hy. apply Hf. right. exact Hy.
Qed.

Lemma or_else_nil {X} (matching positions : list X) :
  or_else matching positions = [] -> positions = [].
Proof. destruct matching; simpl; [auto | discriminate]. Qed.

(** C10.  Asked for a symbol, [get_positions] hands back the whole
    unfiltered list when the exchange returned records but none for that
    symbol; its result is empty only when the exchange returned no
    record. *)
Theorem get_positions_falls_back_to_all_records :
  forall (info : option string -> result positions_answer) (s : string),
    s <> ""%string ->
    (forall l : list position_record,
        info (Some s) = ret (Records l) ->
        l <> [] ->
        (forall p, In p l -> p_symbol p <> Some s) ->
        get_positions info (Some s) = ret l)
    /\ (get_positions info (Some s) = ret [] ->
        info (Some s) = ret NoAnswer \/ info (Some s) = ret (Records [])).
Proof.
  intros info s Hs.
  assert (Hgiven : symbol_given (Some s) = true).
  { simpl. destruct (String.eqb_spec s ""); [contradiction | reflexivity]. }
  unfold get_positions, get_position_info. rewrite Hgiven. split.
  - intros l Hinfo Hne Hnone. rewrite Hinfo. simpl.
    rewrite filter_none; [reflexivity|].
    intros p Hp. unfold symbol_matches. apply bool_decide_eq_false, Hnone, Hp.
  - destruct (info (Some s)) as [e|[|l|p]]; simpl; intros Hr.
    + discriminate Hr.
    + left. reflexivity.
    + right. injection Hr as Hr. apply or_else_nil in Hr. rewrite Hr. reflexivity.
    + discriminate Hr.
Qed.

Lemma get_positions_falls_back_to_all_records_witness :
  let eth := {| p_symbol := Some "ETHUSDT"%string; p_positionAmt := Num (mk true 5 (-1)) |} in
  get_positions (fun _ => ret (Records [eth])) (Some "BTCUSDT"%string) = ret [eth].
Proof.
  intros eth.
  apply (proj1 (get_positions_falls_back_to_all_records
                  (fun _ => ret (Records [eth])) "BTCUSDT" ltac:(discriminate))
           [eth] eq_refl ltac:(discriminate)).
  intros p [<- | []]. discriminate.
Defined.

(** ** Decimals *)

Open Scope Q_scope.

(** [ring] with the powers of ten taken as atoms. *)
Ltac pow_ring :=
  repeat match goal with
         | |- context [Qpower ?a ?e] =>
           let p := fresh "p" in set (p := Qpower a e); clearbody p
         end;
  ring.

Lemma ten_nonzero : ~ 10 == 0.
Proof. discriminate. Qed.

Lemma pow10_pos (e : Z) : 0 < 10 ^ e.
Proof. apply Qpower_0_lt. reflexivity. Qed.

Lemma pow10_plus (a b : Z) : 10 ^ (a + b) == 10 ^ a * 10 ^ b.
Proof. apply Qpower_plus, ten_nonzero. Qed.

Lemma inject_pow10 (k : N) : inject_Z (Z.of_N (10 ^ k)) == 10 ^ Z.of_N k.
Proof. rewrite N2Z.inj_pow. apply Zpower_Qpower. lia. Qed.

Lemma signed_mk (s : bool) (c : N) (e : Z) :
  signed (mk s c e) = if s then (- Z.of_N c)%Z else Z.of_N c.
Proof. reflexivity. Qed.

Lemma value_mk (s : bool) (c : N) (e : Z) :
  value (mk s c e) == (if s then -(1) else 1) * inject_Z (Z.of_N c) * 10 ^ e.
Proof.
  unfold value. rewrite signed_mk. cbn [exponent]. destruct s.
  - rewrite inject_Z_opp. pow_ring.
  - pow_ring.
Qed.

(** Zeros appended to the coefficient are paid for by the exponent. *)
Lemma value_padded (s : bool) (c k : N) (e : Z) :
  value (mk s (c * 10 ^ k) e) == value (mk s c (e + Z.of_N k)).
Proof.
  rewrite !value_mk, N2Z.inj_mul, inject_Z_mult, inject_pow10, pow10_plus. pow_ring.
Qed.

Lemma is_zero_value (d : Decimal) : is_zero d = true <-> value d == 0.
Proof.
  destruct d as [s c e]. unfold is_zero. cbn [coeff]. rewrite N.eqb_eq, value_mk. split.
  - intros ->. simpl. ring.
  - intros Hv. destruct (N.eq_dec c 0%N) as [|Hc]; [assumption|exfalso].
    assert (Hp := pow10_pos e).
    assert (Hc' : ~ inject_Z (Z.of_N c) == 0) by (apply inject_Z_nonzero; lia).
    assert (Hs : ~ (if s then -(1) else 1) == 0) by (destruct s; discriminate).
    apply Qmult_integral in Hv. destruct Hv as [Hv|Hv].
    + apply Qmult_integral in Hv. destruct Hv; contradiction.
    + rewrite Hv in Hp. discriminate Hp.
Qed.

Lemma ltb_value (a b : Decimal) : ltb a b = true <-> value a < value b.
Proof.
  unfold ltb. rewrite negb_true_iff. split.
  - intros Hle. apply Qnot_le_lt. intros Hc. apply Qle_bool_iff in Hc. congruence.
  - intros Hlt. destruct (Qle_bool (value b) (value a)) eqn:Hle; [|reflexivity].
    apply Qle_bool_iff in Hle. exfalso. exact (Qlt_not_le _ _ Hlt Hle).
Qed.

(** Rescaling to a smaller exponent keeps the number. *)
Lemma rescale_down_pad (d : Decimal) (e : Z) :
  (e <= exponent d)%Z -> value (rescale_down d e) == value d.
Proof.
  intros He. unfold rescale_down.
  replace (e <=? exponent d)%Z with true by (symmetry; apply Z.leb_le; exact He).
  rewrite value_padded. rewrite Z2N.id by lia.
  replace (e + (exponent d - e))%Z with (exponent d) by lia.
  destruct d; reflexivity.
Qed.

Lemma rescale_half_even_pad (d : Decimal) (e : Z) :
  (e <= exponent d)%Z -> value (rescale_half_even d e) == value d.
Proof.
  intros He. unfold rescale_half_even.
  replace (e <=? exponent d)%Z with true by (symmetry; apply Z.leb_le; exact He).
  rewrite value_padded. rewrite Z2N.id by lia.
  replace (e + (exponent d - e))%Z with (exponent d) by lia.
  destruct d; reflexivity.
Qed.

Lemma rescale_same_exponent (d : Decimal) :
  rescale_half_even d (exponent d) = d.
Proof.
  unfold rescale_half_even. rewrite Z.leb_refl, Z.sub_diag. simpl.
  rewrite N.mul_1_r. destruct d; reflexivity.
Qed.

Lemma value_nonneg_mk (c : N) (e : Z) :
  value (mk false c e) == inject_Z (Z.of_N c) * 10 ^ e.
Proof. reflexivity. Qed.

Lemma scaled_le (a b : Z) (p : Q) :
  0 < p -> (a <= b)%Z -> inject_Z a * p <= inject_Z b * p.
Proof.
  intros Hp Hab. apply Qmult_le_compat_r; [|apply Qlt_le_weak, Hp].
  rewrite <- Zle_Qle. exact Hab.
Qed.

Lemma scaled_lt (a b : Z) (p : Q) :
  0 < p -> (a < b)%Z -> inject_Z a * p < inject_Z b * p.
Proof.
  intros Hp Hab. apply Qmult_lt_compat_r; [exact Hp|].
  rewrite <- Zlt_Qlt. exact Hab.
Qed.

(** Rescaling a non-negative decimal down cuts it to the multiple of
    [10 ** e] just below. *)
Lemma rescale_down_bounds (d : Decimal) (e : Z) :
  sign d = false ->
  value (rescale_down d e) <= value d
  /\ value d < value (rescale_down d e) + 10 ^ e.
Proof.
  intros Hs. destruct (Z.le_gt_cases e (exponent d)) as [He|He].
  - rewrite (rescale_down_pad d e He). split; [apply Qle_refl|].
    rewrite <- (Qplus_0_r (value d)) at 1.
    apply Qplus_lt_r, pow10_pos.
  - unfold rescale_down.
    replace (e <=? exponent d)%Z with false by (symmetry; apply Z.leb_gt; exact He).
    destruct d as [s c x]. cbn [sign coeff exponent] in *. subst s.
    rewrite !value_nonneg_mk.
    set (k := Z.to_N (e - x)).
    assert (Hk : e = (x + Z.of_N k)%Z) by (unfold k; lia).
    assert (Hp : (10 ^ k <> 0)%N) by (apply N.pow_nonzero; discriminate).
    pose proof (N.Div0.mul_div_le c (10 ^ k)) as Hlo.
    pose proof (N.mul_succ_div_gt c (10 ^ k) Hp) as Hhi.
    set (c' := (c / 10 ^ k)%N) in *.
    assert (Hx := pow10_pos x).
    assert (E1 : inject_Z (Z.of_N c') * 10 ^ e == inject_Z (Z.of_N (10 ^ k * c')) * 10 ^ x).
    { rewrite Hk, pow10_plus, <- inject_pow10, N2Z.inj_mul, inject_Z_mult. pow_ring. }
    assert (E2 : inject_Z (Z.of_N c') * 10 ^ e + 10 ^ e
                 == inject_Z (Z.of_N (10 ^ k * N.succ c')) * 10 ^ x).
    { rewrite Hk, pow10_plus, <- inject_pow10, N2Z.inj_mul, N2Z.inj_succ, inject_Z_mult.
      unfold Z.succ. rewrite inject_Z_plus. pow_ring. }
    split.
    + rewrite E1. apply scaled_le; [exact Hx | lia].
    + rewrite E2. apply scaled_lt; [exact Hx | lia].
Qed.

(** ** The quantity normaliser *)

Lemma normalize_unit_step (step : Decimal) : unit_step step -> normalize step = step.
Proof. destruct step as [s c e]. intros [Hs Hc]. simpl in Hs, Hc. subst. reflexivity. Qed.

Lemma unit_step_value (step : Decimal) : unit_step step -> value step == 10 ^ exponent step.
Proof.
  destruct step as [s c e]. intros [Hs Hc]. simpl in Hs, Hc. subst.
  rewrite value_nonneg_mk. cbn [exponent]. pow_ring.
Qed.

Lemma format_unit_step_exact (step m : Decimal) :
  unit_step step ->
  exponent m = exponent step ->
  value (format_f m (implied_precision step)) == value m.
Proof.
  intros Hu He. unfold format_f, implied_precision.
  rewrite (normalize_unit_step step Hu).
  apply rescale_half_even_pad. lia.
Qed.

Lemma rescale_down_sign (d : Decimal) (e : Z) : sign (rescale_down d e) = sign d.
Proof. unfold rescale_down. destruct (e <=? exponent d)%Z; reflexivity. Qed.

Lemma rescale_down_exponent (d : Decimal) (e : Z) : exponent (rescale_down d e) = e.
Proof. unfold rescale_down. destruct (e <=? exponent d)%Z; reflexivity. Qed.

Lemma nonneg_value (d : Decimal) : sign d = false -> 0 <= value d.
Proof.
  destruct d as [s c e]. simpl. intros ->. rewrite value_nonneg_mk.
  apply Qmult_le_0_compat; [|apply Qlt_le_weak, pow10_pos].
  replace 0 with (inject_Z 0) by reflexivity. rewrite <- Zle_Qle. lia.
Qed.

(** C4, as worded, fails: the normaliser cuts the quantity to the number
    of decimal places of the step size, whatever the digits of the step.
    With stepSize 0.5 the quantity 0.7 comes back as 0.7, which is no
    multiple of 0.5 (the largest one below 0.7 is 0.5).  With stepSize
    0.001 and minQty 0.001, the negative quantity -0.0017 is cut toward
    zero and refused as below the minimum, and the quantity 1E+25, a
    multiple of the step, is refused by [quantize] itself because its 29
    digits at that step exceed the precision of the context.  With
    stepSize 0.001 and a minQty that is no decimal numeral, no step is
    applied at all: 0.0017 comes back as 0.0017 and 0 as 0. *)
Lemma normalizer_keeps_places_not_steps :
  let step := mk false 5 (-1) in
  let q := mk false 7 (-1) in
  normalize_with [lot_size step (mk false 0 0)] (QDec q) = ret q
  /\ ~ (exists k : Z, value q == inject_Z k * value step)
  /\ value step <= value q
  /\ normalize_with btcusdt_filters (QDec (mk true 17 (-4))) = raise (ValueError BelowMinimum)
  /\ normalize_with btcusdt_filters (QDec (mk false 1 25)) = raise InvalidOperation
  /\ normalize_with [lot_size_without_minimum (mk false 1 (-3))] (QDec (mk false 17 (-4)))
     = ret (mk false 17 (-4))
  /\ normalize_with [lot_size_without_minimum (mk false 1 (-3))] (QDec (mk false 0 0))
     = ret (mk false 0 0).
Proof.
  split; [reflexivity|]. split; [|split; [|repeat split; reflexivity]].
  - intros [k Hk]. unfold value, signed, Qeq in Hk. simpl in Hk. lia.
  - unfold value, signed, Qle. simpl. lia.
Qed.

(** C4, amended.  For a filter set whose first LOT_SIZE filter has a
    stepSize that is a power of ten written with the single digit 1
    (0.001, 1, ...; a stepSize that is absent or empty counts as 1) and a
    minQty that is a decimal numeral (one that is absent or empty counts
    as 0), and for a non-negative quantity q whose cut fits the 28 digits
    of the decimal context, let m be q cut to the exponent of the step.
    Then m is the largest multiple of stepSize that is at most q (the
    truncation of q, never above it), and the normaliser returns m when m is
    not zero and not below minQty, fails with "rounds down to zero" when m
    is zero, and fails with "below minimum" when m is positive but below
    minQty; so it never returns zero or a value below minQty.  In
    particular q = 0.0007 with stepSize 0.001 fails with "rounds down to
    zero". *)
Theorem normalizer_truncates_to_unit_step :
  (forall (filters : symbol_info) (lot_filter : exchange_filter) (step minq q : Decimal),
      List.find is_lot_size filters = Some lot_filter ->
      parse_field (stepSize lot_filter) (mk false 1 0) = Some step ->
      parse_field (minQty lot_filter) (mk false 0 0) = Some minq ->
      unit_step step ->
      sign q = false ->
      fits_context (rescale_down q (exponent step)) ->
      let m := rescale_down q (exponent step) in
      (exists k : Z, value m == inject_Z k * value step)
      /\ value m <= value q
      /\ value q < value m + value step
      /\ match normalize_with filters (QDec q) with
         | inr r => value r == value m /\ ~ value m == 0 /\ value minq <= value m
         | inl (ValueError RoundsDownToZero) => value m == 0
         | inl (ValueError BelowMinimum) => 0 < value m /\ value m < value minq
         | inl _ => False
         end)
  /\ normalize_with btcusdt_filters (QDec (mk false 7 (-4)))
     = raise (ValueError RoundsDownToZero).
Proof.
  split; [|reflexivity].
  intros filters lot_filter step minq q Hfind Hstep Hmin Hu Hs Hfit m.
  pose proof (unit_step_value step Hu) as Hv.
  pose proof (rescale_down_bounds q (exponent step) Hs) as [Hlo Hhi].
  fold m in Hlo, Hhi.
  assert (Hsm : sign m = false) by (unfold m; rewrite rescale_down_sign; exact Hs).
  assert (Hem : exponent m = exponent step) by apply rescale_down_exponent.
  split; [|split; [|split]].
  - exists (Z.of_N (coeff m)). rewrite Hv, <- Hem.
    destruct m as [sm cm em]. simpl in Hsm. subst sm. reflexivity.
  - exact Hlo.
  - rewrite Hv. exact Hhi.
  - unfold normalize_with. rewrite Hfind, Hstep, Hmin.
    assert (Hnz : is_zero step = false).
    { destruct Hu as [_ Hc]. unfold is_zero. rewrite Hc. reflexivity. }
    rewrite Hnz. unfold quantize. fold m.
    replace (coeff m <? limit)%N with true by (symmetry; apply N.ltb_lt; exact Hfit).
    unfold ret at 1, bind.
    destruct (is_zero m) eqn:Hz.
    + apply is_zero_value. exact Hz.
    + assert (Hm0 : ~ value m == 0).
      { intros H0. apply is_zero_value in H0. congruence. }
      destruct (ltb m minq) eqn:Hlt.
      * apply ltb_value in Hlt. split; [|exact Hlt].
        pose proof (nonneg_value m Hsm) as Hge.
        apply Qle_lteq in Hge. destruct Hge as [Hpos | Heq]; [exact Hpos|].
        exfalso. apply Hm0. symmetry. exact Heq.
      * unfold ret. split; [|split; [exact Hm0|]].
        -- apply format_unit_step_exact; assumption.
        -- apply Qnot_lt_le. intros Hc. apply ltb_value in Hc. congruence.
Qed.

Lemma normalizer_truncates_to_unit_step_witness :
  let q := mk false 123 (-4) in
  let m := rescale_down q (-3) in
  (exists k : Z, value m == inject_Z k * value (mk false 1 (-3)))
  /\ value m <= value q
  /\ value q < value m + value (mk false 1 (-3))
  /\ match normalize_with btcusdt_filters (QDec q) with
     | inr r => value r == value m /\ ~ value m == 0 /\ value (mk false 1 (-3)) <= value m
     | inl (ValueError RoundsDownToZero) => value m == 0
     | inl (ValueError BelowMinimum) => 0 < value m /\ value m < value (mk false 1 (-3))
     | inl _ => False
     end.
Proof.
  exact (proj1 normalizer_truncates_to_unit_step btcusdt_filters
           (lot_size (mk false 1 (-3)) (mk false 1 (-3)))
           (mk false 1 (-3)) (mk false 1 (-3)) (mk false 123 (-4))
           eq_refl eq_refl eq_refl (conj eq_refl eq_refl) eq_refl eq_refl).
Defined.

(** ** Normalising twice *)

Close Scope Q_scope.

(** *** Rounding *)

Lemma round_half_even_one (c : N) : round_half_even c 1 = c.
Proof.
  unfold round_half_even. rewrite N.div_1_r, N.mod_1_r. reflexivity.
Qed.

Lemma round_half_even_upper (c p : N) :
  (round_half_even c p <= c / p + 1)%N.
Proof. unfold round_half_even. destruct (_ || _); lia. Qed.

Lemma round_half_even_decision (c p : N) :
  p <> 0%N ->
  (round_half_even c p = c / p /\ 2 * (c mod p) <= p)%N
  \/ (round_half_even c p = c / p + 1 /\ p <= 2 * (c mod p))%N.
Proof.
  intros Hp. unfold round_half_even.
  destruct (p <? 2 * (c mod p))%N eqn:Hlt; cbn [orb].
  - right. apply N.ltb_lt in Hlt. split; [reflexivity | lia].
  - apply N.ltb_ge in Hlt.
    destruct (2 * (c mod p) =? p)%N eqn:Heq; cbn [andb].
    + apply N.eqb_eq in Heq. destruct (N.odd (c / p)).
      * right. split; [reflexivity | lia].
      * left. split; [reflexivity | lia].
    + left. split; [reflexivity | lia].
Qed.

(** Rounding at a place, then dropping zeros, is rounding at the higher
    place. *)
Lemma round_half_even_twice (c p t c0 : N) :
  p <> 0%N -> (2 <= t)%N ->
  round_half_even c p = (c0 * t)%N ->
  round_half_even c (p * t) = c0.
Proof.
  intros Hp Ht Hround.
  pose proof (N.div_mod c p Hp) as Hc.
  pose proof (N.mod_lt c p Hp) as Hrem.
  set (qq := (c / p)%N) in *. set (rem := (c mod p)%N) in *.
  assert (Hpt : (p * t <> 0)%N) by nia.
  destruct (round_half_even_decision c p Hp) as [[Hr Hlow] | [Hr Hhigh]];
    fold qq rem in Hr, Hlow || fold qq rem in Hr, Hhigh; rewrite Hr in Hround.
  - assert (Hdiv : (c / (p * t) = c0)%N).
    { symmetry. apply (N.div_unique c (p * t) c0 rem); nia. }
    assert (Hmod : (c mod (p * t) = rem)%N).
    { symmetry. apply (N.mod_unique c (p * t) c0 rem); nia. }
    unfold round_half_even. rewrite Hdiv, Hmod.
    replace (p * t <? 2 * rem)%N with false by (symmetry; apply N.ltb_ge; nia).
    replace (2 * rem =? p * t)%N with false by (symmetry; apply N.eqb_neq; nia).
    reflexivity.
  - assert (Hc0 : exists c1, c0 = (c1 + 1)%N).
    { exists (N.pred c0). destruct (N.eq_dec c0 0%N) as [->|]; [nia | lia]. }
    destruct Hc0 as [c1 ->].
    set (big := (p * (t - 1) + rem)%N).
    assert (Hbig : (big < p * t)%N) by (unfold big; nia).
    assert (Hdecomp : (c = p * t * c1 + big)%N) by (unfold big; nia).
    assert (Hdiv : (c / (p * t) = c1)%N).
    { symmetry. apply (N.div_unique c (p * t) c1 big); assumption. }
    assert (Hmod : (c mod (p * t) = big)%N).
    { symmetry. apply (N.mod_unique c (p * t) c1 big); assumption. }
    unfold round_half_even. rewrite Hdiv, Hmod.
    replace (p * t <? 2 * big)%N with true by (symmetry; apply N.ltb_lt; unfold big; nia).
    reflexivity.
Qed.

Lemma pow10_nonzero (k : N) : (10 ^ k <> 0)%N.
Proof. apply N.pow_nonzero. discriminate. Qed.

Lemma pow10_ge_two (k : N) : k <> 0%N -> (2 <= 10 ^ k)%N.
Proof.
  intros Hk. replace k with (N.succ (N.pred k)) by lia.
  rewrite N.pow_succ_r'. pose proof (pow10_nonzero (N.pred k)). lia.
Qed.

(** *** Trailing zeros *)

Lemma strip_pow (fuel : nat) (c0 : N) (t : nat) (e : Z) :
  (c0 mod 10 <> 0)%N ->
  (t <= fuel)%nat ->
  strip fuel (c0 * 10 ^ N.of_nat t) e = (c0, (e + Z.of_nat t)%Z).
Proof.
  intros Hc0. revert fuel e.
  induction t as [|t IH]; intros fuel e Hfuel.
  - change (N.of_nat 0) with 0%N. rewrite N.pow_0_r, N.mul_1_r, Z.add_0_r.
    destruct fuel as [|fuel]; [reflexivity|].
    simpl. apply N.eqb_neq in Hc0. rewrite Hc0. reflexivity.
  - destruct fuel as [|fuel]; [lia|].
    rewrite Nat2N.inj_succ, N.pow_succ_r', (N.mul_comm 10), N.mul_assoc.
    cbn [strip]. rewrite N.Div0.mod_mul, N.eqb_refl, N.div_mul by discriminate.
    rewrite IH by lia. f_equal. lia.
Qed.

Lemma trailing_zeros (c : N) :
  c <> 0%N -> exists (c0 : N) (t : nat), c = (c0 * 10 ^ N.of_nat t)%N /\ (c0 mod 10 <> 0)%N.
Proof.
  induction c as [c IH] using (well_founded_induction N.lt_wf_0). intros Hc.
  destruct (N.eq_dec (c mod 10)%N 0%N) as [Hm|Hm].
  - pose proof (N.div_mod c 10%N ltac:(discriminate)) as Hd. rewrite Hm, N.add_0_r in Hd.
    destruct (IH (c / 10)%N) as (c0 & t & Hc0 & Hnz).
    + apply N.div_lt; lia.
    + intros H0. rewrite H0 in Hd. lia.
    + exists c0, (S t). split; [|exact Hnz].
      rewrite Nat2N.inj_succ, N.pow_succ_r'. rewrite Hd at 1. rewrite Hc0. lia.
  - exists c, O. split; [|exact Hm]. change (N.of_nat 0) with 0%N.
    rewrite N.pow_0_r. lia.
Qed.

Lemma enough_fuel (c0 : N) (t : nat) :
  c0 <> 0%N -> (t <= N.to_nat (N.size (c0 * 10 ^ N.of_nat t)))%nat.
Proof.
  intros Hc0.
  assert (Hpos : (0 < c0 * 10 ^ N.of_nat t)%N).
  { apply N.mul_pos_pos; [lia|]. apply N.neq_0_lt_0, pow10_nonzero. }
  rewrite N.size_log2 by lia.
  assert (Hle : (2 ^ N.of_nat t <= c0 * 10 ^ N.of_nat t)%N).
  { transitivity (10 ^ N.of_nat t)%N.
    - apply N.pow_le_mono_l. lia.
    - rewrite <- (N.mul_1_l (10 ^ N.of_nat t)) at 1.
      apply N.mul_le_mono_r. lia. }
  apply N.log2_le_mono in Hle. rewrite N.log2_pow2 in Hle by lia. lia.
Qed.

(** *** The precision of the context *)

Lemma excess_nonneg (fuel : nat) (c : N) : (0 <= excess fuel c)%Z.
Proof.
  revert c. induction fuel as [|fuel IH]; intros c; cbn [excess]; [lia|].
  destruct (c <? limit)%N; [lia|]. specialize (IH (c / 10)%N). lia.
Qed.

Lemma excess_enough (fuel : nat) (c : N) :
  (c / 10 ^ N.of_nat fuel < limit)%N ->
  (c / 10 ^ Z.to_N (excess fuel c) < limit)%N.
Proof.
  revert c. induction fuel as [|fuel IH]; intros c Hfuel.
  - exact Hfuel.
  - cbn [excess]. destruct (c <? limit)%N eqn:Hlt.
    + apply N.ltb_lt in Hlt. change (Z.to_N 0) with 0%N.
      rewrite N.pow_0_r, N.div_1_r. exact Hlt.
    + pose proof (excess_nonneg fuel (c / 10)%N) as Hnn.
      replace (Z.to_N (1 + excess fuel (c / 10)%N))
        with (N.succ (Z.to_N (excess fuel (c / 10)%N))) by lia.
      rewrite N.pow_succ_r', <- N.Div0.div_div.
      apply IH. rewrite N.Div0.div_div, <- N.pow_succ_r', <- Nat2N.inj_succ. exact Hfuel.
Qed.

Lemma size_enough (c : N) : (c / 10 ^ N.of_nat (N.to_nat (N.size c)) < limit)%N.
Proof.
  rewrite N2Nat.id.
  assert (Hlt : (c < 10 ^ N.size c)%N).
  { eapply N.lt_le_trans; [apply N.size_gt|]. apply N.pow_le_mono_l. lia. }
  rewrite N.div_small by exact Hlt. reflexivity.
Qed.

(** What [Decimal._fix] arrives at: the coefficient rounded at some
    place, within the precision. *)
Lemma fix_shape (d : Decimal) :
  exists j : N,
    fix_ d = mk (sign d) (round_half_even (coeff d) (10 ^ j)) (exponent d + Z.of_N j)
    /\ (coeff (fix_ d) < limit)%N.
Proof.
  destruct d as [s c e]. unfold fix_. cbn [sign coeff exponent].
  destruct (c <? limit)%N eqn:Hfit.
  - exists 0%N. rewrite N.pow_0_r, round_half_even_one, Z.add_0_r.
    split; [reflexivity|]. apply N.ltb_lt. exact Hfit.
  - apply N.ltb_ge in Hfit.
    set (k := excess (N.to_nat (N.size c)) c).
    assert (Hk : (1 <= k)%Z).
    { unfold k. destruct (N.to_nat (N.size c)) as [|fuel] eqn:Hsize.
      - exfalso. assert (Hs0 : N.size c = 0%N) by lia.
        destruct c as [|p]; [apply Hfit; reflexivity | discriminate Hs0].
      - cbn [excess]. replace (c <? limit)%N with false by (symmetry; apply N.ltb_ge; exact Hfit).
        pose proof (excess_nonneg fuel (c / 10)%N). lia. }
    pose proof (excess_enough _ c (size_enough c)) as Hcut. fold k in Hcut.
    unfold rescale_half_even. cbn [sign coeff exponent].
    replace (e + k <=? e)%Z with false by (symmetry; apply Z.leb_gt; lia).
    replace (Z.to_N (e + k - e)) with (Z.to_N k) by lia.
    set (c1 := round_half_even c (10 ^ Z.to_N k)).
    pose proof (round_half_even_upper c (10 ^ Z.to_N k)) as Hup. fold c1 in Hup.
    cbn [sign coeff exponent].
    destruct (c1 <? limit)%N eqn:Hc1.
    + exists (Z.to_N k). rewrite Z2N.id by lia. split; [reflexivity|].
      apply N.ltb_lt. exact Hc1.
    + apply N.ltb_ge in Hc1. assert (Hlim : c1 = limit) by lia.
      exists (N.succ (Z.to_N k)). cbn [sign coeff exponent]. split.
      * rewrite N.pow_succ_r', (N.mul_comm 10).
        rewrite (round_half_even_twice c (10 ^ Z.to_N k) 10 (limit / 10));
          [f_equal; [rewrite Hlim; reflexivity | lia] | apply pow10_nonzero | lia |].
        fold c1. rewrite Hlim. reflexivity.
      * rewrite Hlim. reflexivity.
Qed.

(** What [normalize] arrives at when the result is not zero. *)
Lemma normalize_shape (d : Decimal) :
  coeff (normalize d) <> 0%N ->
  exists j : N,
    normalize d = mk (sign d) (round_half_even (coeff d) (10 ^ j)) (exponent d + Z.of_N j)
    /\ (coeff (normalize d) < limit)%N
    /\ (coeff (normalize d) mod 10 <> 0)%N.
Proof.
  destruct (fix_shape d) as (j & Hfix & Hfit). unfold normalize. rewrite Hfix in *.
  cbn [sign coeff exponent] in *.
  set (c1 := round_half_even (coeff d) (10 ^ j)) in *.
  destruct (c1 =? 0)%N eqn:Hz; [cbn; congruence|]. apply N.eqb_neq in Hz. intros _.
  destruct (trailing_zeros c1 Hz) as (c0 & t & Hc1 & Hc0).
  assert (Hnz : c0 <> 0%N) by (intros ->; apply Hc0; reflexivity).
  assert (Hfuel : (t <= N.to_nat (N.size c1))%nat)
    by (rewrite Hc1; apply enough_fuel; exact Hnz).
  pose proof (strip_pow (N.to_nat (N.size c1)) c0 t (exponent d + Z.of_N j) Hc0 Hfuel)
    as Hstrip.
  rewrite <- Hc1 in Hstrip. rewrite Hstrip.
  cbn [sign coeff exponent].
  exists (j + N.of_nat t)%N. split; [|split].
  - f_equal; [|lia]. symmetry.
    destruct t as [|t].
    + change (N.of_nat 0) with 0%N in *. rewrite N.add_0_r.
      rewrite N.pow_0_r, N.mul_1_r in Hc1. exact Hc1.
    + rewrite N.pow_add_r. apply round_half_even_twice.
      * apply pow10_nonzero.
      * apply pow10_ge_two. lia.
      * exact Hc1.
  - eapply N.le_lt_trans; [|exact Hfit]. rewrite Hc1.
    rewrite <- (N.mul_1_r c0) at 1. apply N.mul_le_mono_l.
    pose proof (pow10_nonzero (N.of_nat t)). lia.
  - exact Hc0.
Qed.

Lemma normalize_zero_exponent (d : Decimal) :
  coeff (normalize d) = 0%N -> exponent (normalize d) = 0%Z.
Proof.
  unfold normalize. destruct (coeff (fix_ d) =? 0)%N eqn:Hz; [reflexivity|].
  apply N.eqb_neq in Hz.
  destruct (trailing_zeros (coeff (fix_ d)) Hz) as (c0 & t & Hc & Hc0).
  assert (Hnz : c0 <> 0%N) by (intros ->; apply Hc0; reflexivity).
  assert (Hfuel : (t <= N.to_nat (N.size (coeff (fix_ d))))%nat)
    by (rewrite Hc; apply enough_fuel; exact Hnz).
  pose proof (strip_pow (N.to_nat (N.size (coeff (fix_ d)))) c0 t (exponent (fix_ d))
                Hc0 Hfuel) as Hstrip.
  rewrite <- Hc in Hstrip. rewrite Hstrip.
  cbn [coeff]. intros H0. contradiction.
Qed.

Lemma normalize_exponent_nonneg (d : Decimal) :
  (0 <= exponent d)%Z -> (0 <= exponent (normalize d))%Z.
Proof.
  intros He. destruct (N.eq_dec (coeff (normalize d)) 0%N) as [Hz|Hz].
  - rewrite (normalize_zero_exponent d Hz). lia.
  - destruct (normalize_shape d Hz) as (j & Hn & _). rewrite Hn. cbn [exponent]. lia.
Qed.

(** A coefficient within the precision and without trailing zeros is in
    normal form. *)
Lemma normalize_normal (s : bool) (c0 : N) (e : Z) :
  (c0 < limit)%N -> (c0 mod 10 <> 0)%N -> normalize (mk s c0 e) = mk s c0 e.
Proof.
  intros Hfit Hc0. unfold normalize, fix_. cbn [sign coeff exponent].
  replace (c0 <? limit)%N with true by (symmetry; apply N.ltb_lt; exact Hfit).
  cbn [sign coeff exponent].
  assert (Hnz : c0 <> 0%N) by (intros ->; apply Hc0; reflexivity).
  apply N.eqb_neq in Hnz. rewrite Hnz.
  pose proof (strip_pow (N.to_nat (N.size c0)) c0 0 e Hc0 ltac:(lia)) as Hstrip.
  change (N.of_nat 0) with 0%N in Hstrip.
  rewrite N.pow_0_r, N.mul_1_r, Z.add_0_r in Hstrip. rewrite Hstrip. reflexivity.
Qed.

Lemma rescale_half_even_exponent (d : Decimal) (e : Z) :
  exponent (rescale_half_even d e) = e.
Proof. unfold rescale_half_even. destruct (e <=? exponent d)%Z; reflexivity. Qed.

(** Rescaling a decimal to the exponent of its normal form gives the
    normal form. *)
Lemma rescale_to_normal_form (d : Decimal) :
  coeff (normalize d) <> 0%N ->
  rescale_half_even d (exponent (normalize d)) = normalize d.
Proof.
  intros Hz. destruct (normalize_shape d Hz) as (j & Hn & _). rewrite Hn.
  cbn [exponent]. unfold rescale_half_even.
  destruct (N.eq_dec j 0%N) as [->|Hj].
  - replace (exponent d + Z.of_N 0 <=? exponent d)%Z with true
      by (symmetry; apply Z.leb_le; lia).
    replace (Z.to_N (exponent d - (exponent d + Z.of_N 0))) with 0%N by lia.
    rewrite N.pow_0_r, N.mul_1_r, round_half_even_one. reflexivity.
  - replace (exponent d + Z.of_N j <=? exponent d)%Z with false
      by (symmetry; apply Z.leb_gt; lia).
    replace (Z.to_N (exponent d + Z.of_N j - exponent d)) with j by lia.
    reflexivity.
Qed.

(** The text written when no step size applies reads back as itself. *)
Lemma fallback_read_back (q : Decimal) :
  let r := format_f q (implied_precision q) in
  format_f r (implied_precision r) = r.
Proof.
  intros r.
  assert (Hstable : implied_precision r = implied_precision q).
  { unfold r, implied_precision, format_f.
    destruct (Z.le_gt_cases 0 (exponent (normalize q))) as [Hpos|Hneg].
    - rewrite (Z.max_l 0 (- exponent (normalize q))) by lia. change (- 0)%Z with 0%Z.
      pose proof (normalize_exponent_nonneg (rescale_half_even q 0)) as Hr.
      rewrite rescale_half_even_exponent in Hr. specialize (Hr ltac:(lia)). lia.
    - assert (Hz : coeff (normalize q) <> 0%N).
      { intros H0. rewrite (normalize_zero_exponent q H0) in Hneg. lia. }
      assert (Hnn : normalize (normalize q) = normalize q).
      { destruct (normalize_shape q Hz) as (j & Hn & Hfit & Hc0).
        rewrite Hn in Hfit, Hc0 |- *. cbn [coeff] in Hfit, Hc0.
        apply normalize_normal; assumption. }
      rewrite (Z.max_r 0 (- exponent (normalize q))) by lia.
      rewrite Z.opp_involutive, (rescale_to_normal_form q Hz), Hnn. lia. }
  rewrite Hstable.
  assert (He : (- implied_precision q)%Z = exponent r)
    by (unfold r, format_f; rewrite rescale_half_even_exponent; reflexivity).
  unfold format_f at 1. rewrite He. apply rescale_same_exponent.
Qed.

Lemma rescale_pads_zeros (s : bool) (c k : N) (e : Z) :
  rescale_half_even (mk s c e) (e - Z.of_N k) = mk s (c * 10 ^ k) (e - Z.of_N k).
Proof.
  unfold rescale_half_even. cbn [sign coeff exponent].
  replace (e - Z.of_N k <=? e)%Z with true by (symmetry; apply Z.leb_le; lia).
  replace (Z.to_N (e - (e - Z.of_N k))) with k by lia. reflexivity.
Qed.

(** With a step size written plainly, the text of a cut quantity is cut
    to the same decimal again. *)
Lemma quantize_read_back (step q m : Decimal) :
  written_plainly step ->
  quantize q step = ret m ->
  quantize (format_f m (implied_precision step)) step = ret m.
Proof.
  unfold written_plainly, quantize. intros Hplain Hq. rewrite Hplain.
  destruct (coeff (rescale_down q (exponent step)) <? limit)%N eqn:Hfit; [|discriminate Hq].
  injection Hq as Hq.
  assert (Hem : exponent m = exponent step)
    by (rewrite <- Hq; apply rescale_down_exponent).
  assert (Hback : rescale_down (format_f m (Z.max 0 (- exponent step))) (exponent step) = m).
  { destruct m as [s c e]. cbn [exponent] in Hem. subst e. unfold format_f.
    destruct (Z.le_gt_cases (exponent step) 0) as [He|He].
    - rewrite Z.max_r, Z.opp_involutive by lia.
      pose proof (rescale_same_exponent (mk s c (exponent step))) as Hsame.
      cbn [exponent] in Hsame. rewrite Hsame.
      unfold rescale_down. cbn [sign coeff exponent].
      rewrite Z.leb_refl, Z.sub_diag. change (Z.to_N 0) with 0%N.
      rewrite N.pow_0_r, N.mul_1_r. reflexivity.
    - rewrite Z.max_l by lia. change (- 0)%Z with 0%Z.
      pose proof (rescale_pads_zeros s c (Z.to_N (exponent step)) (exponent step)) as Hpad.
      replace (exponent step - Z.of_N (Z.to_N (exponent step)))%Z with 0%Z in Hpad by lia.
      rewrite Hpad. unfold rescale_down. cbn [sign coeff exponent].
      replace (exponent step <=? 0)%Z with false by (symmetry; apply Z.leb_gt; lia).
      rewrite Z.sub_0_r, N.div_mul by (apply N.pow_nonzero; discriminate).
      reflexivity. }
  rewrite Hback, <- Hq, Hfit. reflexivity.
Qed.

(** C9 does not hold of the program: the normaliser cuts the quantity to
    the exponent of the step size as it is written, but writes the result
    with the decimal places of the step size stripped of its trailing
    zeros.  With stepSize 0.00100000 and minQty 0, the quantity 0.0004 is
    cut to 0.00040000, which is neither zero nor below the minimum, and
    written with 3 places, "0.000"; normalising that text again fails
    with "rounds down to zero".  Under the same filters the quantity
    0.0015 is cut to 0.00150000 and written as "0.002", above the
    quantity asked for. *)
Theorem normalizer_not_idempotent_on_padded_step :
  let filters := [lot_size (mk false 100000 (-8)) (mk false 0 0)] in
  normalize_with filters (QDec (mk false 4 (-4))) = ret (mk false 0 (-3))
  /\ normalize_with filters (QDec (mk false 0 (-3))) = raise (ValueError RoundsDownToZero)
  /\ normalize_with filters (QDec (mk false 15 (-4))) = ret (mk false 2 (-3)).
Proof. repeat split; reflexivity. Qed.

(** Where the step size is written plainly, without zeros after its last
    significant decimal place, or where the quantity is not cut to a step
    at all (no LOT_SIZE filter, a step size or minimum that does not
    parse, a zero step size), normalising is idempotent: if normalising q
    succeeds, normalising the returned text succeeds and returns the same
    text. *)
Theorem normalizer_idempotent_on_plain_steps :
  forall (filters : symbol_info) (q r : Decimal),
    plain_filters filters ->
    normalize_with filters (QDec q) = ret r ->
    normalize_with filters (QDec r) = ret r.
Proof.
  intros filters q r Hplain Hfirst.
  pose proof (fallback_read_back q) as Hfb. cbv zeta in Hfb.
  unfold normalize_with, plain_filters in *.
  destruct (List.find is_lot_size filters) as [lot_filter|].
  - destruct (parse_field (stepSize lot_filter) (mk false 1 0)) as [step|].
    + destruct (parse_field (minQty lot_filter) (mk false 0 0)) as [minq|].
      * destruct (is_zero step) eqn:Hz.
        -- injection Hfirst as <-. rewrite Hfb. reflexivity.
        -- destruct Hplain as [Hc|Hplain]; [discriminate Hc|].
           destruct (quantize q step) as [e|m] eqn:Hcut; [discriminate Hfirst|].
           unfold bind in Hfirst.
           destruct (is_zero m) eqn:Hzm; [discriminate Hfirst|].
           destruct (ltb m minq) eqn:Hlt; [discriminate Hfirst|].
           injection Hfirst as <-.
           rewrite (quantize_read_back step q m Hplain Hcut).
           unfold ret at 1, bind. rewrite Hzm, Hlt. reflexivity.
      * injection Hfirst as <-. rewrite Hfb. reflexivity.
    + injection Hfirst as <-. rewrite Hfb. reflexivity.
  - injection Hfirst as <-. rewrite Hfb. reflexivity.
Qed.

Lemma normalizer_idempotent_on_plain_steps_witness :
  normalize_with btcusdt_filters (QDec (mk false 12 (-3))) = ret (mk false 12 (-3)).
Proof.
  apply (normalizer_idempotent_on_plain_steps btcusdt_filters
           (mk false 123 (-4)) (mk false 12 (-3))).
  - right. reflexivity.
  - reflexivity.
Defined.

(** ** Stopping a strategy *)

Section StopFacts.
Variable mk_ : market.

Local Abbreviation place := (place_order mk_).
Local Abbreviation flatten := (_flatten_symbol_position mk_).
Local Abbreviation floop := (flatten_loop mk_).
Local Abbreviation stop := (stop_strategy mk_).

(** What a call of [place_order] leaves behind: the order is on record as
    submitted; registries and position queries are as before. *)
Lemma place_order_effects (st : logic_state) (symbol side order_type : string)
    (quantity : option float) (price stop_price : option float) (reduce_only : bool) :
  let st' := snd (place st symbol side order_type quantity price stop_price reduce_only) in
  submitted st'
  = submitted st ++ [{| i_symbol := symbol; i_side := side; i_type := order_type;
                         i_quantity := quantity; i_reduce_only := reduce_only |}]
  /\ active_strategies st' = active_strategies st
  /\ strategy_statuses st' = strategy_statuses st
  /\ _strategy_tasks st' = _strategy_tasks st
  /\ position_queries st' = position_queries st.
Proof.
  unfold place_order.
  destruct (_normalize_quantity _ _ _ _) as [[e|normalized] cache].
  - cbn. repeat split.
  - destruct (client_place_order _ _ _ _ _ _ _ _ _) as [answer sent']. cbn. repeat split.
Qed.

(** The loop over the records acts on the open position, if any. *)
Lemma flatten_loop_effects (symbol : string) :
  forall (positions : list position_record) (st : logic_state),
    let '(flat, st') := floop symbol positions st in
    active_strategies st' = active_strategies st
    /\ strategy_statuses st' = strategy_statuses st
    /\ _strategy_tasks st' = _strategy_tasks st
    /\ position_queries st' = position_queries st
    /\ match open_position symbol positions with
       | Some amt =>
         submitted st' = submitted st ++ [closing_order symbol amt]
       | None =>
         st' = st /\ f_closed flat = false /\ f_message flat = NoOpenPosition
         /\ f_last_action flat = None
       end.
Proof.
  induction positions as [|position rest IH]; intros st.
  - cbn. repeat split.
  - cbn [flatten_loop open_position].
    destruct (bool_decide (p_symbol position = Some symbol)); cbn [negb]; [|apply IH].
    destruct (parse_field (p_positionAmt position) (mk false 0 0)) as [amt|]; [|apply IH].
    destruct (is_zero amt); [apply IH|].
    pose proof (place_order_effects st symbol
                  (if sign amt then "BUY"%string else "SELL"%string) "MARKET"
                  (Some (float_of_Decimal (abs_decimal amt))) None None true) as Heff.
    cbv zeta in Heff.
    destruct (place st symbol _ "MARKET" _ None None true) as [[e|order] st'].
    + cbn [snd] in Heff. destruct Heff as (Hsub & Ha & Hs & Ht & Hq).
      destruct e; repeat split; assumption.
    + cbn [snd] in Heff. destruct Heff as (Hsub & Ha & Hs & Ht & Hq).
      repeat split; assumption.
Qed.

Lemma flatten_effects (symbol : string) (st : logic_state) :
  symbol <> ""%string ->
  let '(flat, st') := flatten symbol st in
  active_strategies st' = active_strategies st
  /\ strategy_statuses st' = strategy_statuses st
  /\ position_queries st' = position_queries st ++ [symbol]
  /\ match get_positions (futures_position_information mk_) (Some symbol) with
     | inl e =>
       submitted st' = submitted st /\ sent st' = sent st
       /\ f_closed flat = false /\ f_message flat = FailedToFetchPositions e
     | inr positions =>
       match open_position symbol positions with
       | Some amt =>
         submitted st' = submitted st ++ [closing_order symbol amt]
       | None =>
         submitted st' = submitted st /\ sent st' = sent st
         /\ f_closed flat = false
         /\ (f_message flat = NoPositionData \/ f_message flat = NoOpenPosition)
       end
     end.
Proof.
  intros Hsym. unfold _flatten_symbol_position.
  destruct (String.eqb_spec symbol "") as [|_]; [contradiction|].
  unfold query_positions.
  destruct (get_positions (futures_position_information mk_) (Some symbol))
    as [e|[|position rest]].
  - cbn. repeat split.
  - cbn. repeat split. left. reflexivity.
  - set (st1 := {| active_strategies := active_strategies st;
                   strategy_statuses := strategy_statuses st;
                   _strategy_tasks := _strategy_tasks st;
                   _symbol_precision_cache := _symbol_precision_cache st;
                   submitted := submitted st; sent := sent st;
                   position_queries := position_queries st ++ [symbol] |}).
    pose proof (flatten_loop_effects symbol (position :: rest) st1) as Hloop.
    destruct (floop symbol (position :: rest) st1) as [flat st'].
    destruct Hloop as (Ha & Hs & _ & Hq & Hpos).
    repeat split; try assumption.
    destruct (open_position symbol (position :: rest)) as [amt|].
    + exact Hpos.
    + destruct Hpos as (-> & Hc & Hm & _). repeat split; auto.
Qed.

End StopFacts.

(** C7, as worded, fails for a strategy registered with an empty symbol:
    stopping it attempts the flatten, which returns "No symbol provided"
    without asking the exchange for any position. *)
Lemma stop_with_empty_symbol_asks_nothing :
  let st := running (crossover "s1" "") in
  exists summary st',
    stop_strategy (short_market (ret 1%float)) "s1" st
    = (Some summary, st')
    /\ active_strategies st' !! "s1"%string = None
    /\ notes summary = NoSymbolProvided
    /\ position_queries st' = []
    /\ submitted st' = [].
Proof. eexists _, _. split; [vm_compute; reflexivity|]. repeat split. Qed.


(** ** The signal policy *)



Lemma close_prices_length (klines : list kline) (closes : list float) :
  close_prices klines = ret closes -> length closes = length klines.
Proof.
  revert closes. induction klines as [|[c|] rest IH]; intros closes Hc.
  - injection Hc as <-. reflexivity.
  - cbn in Hc. destruct (close_prices rest) as [e|cs]; [discriminate Hc|].
    injection Hc as <-. cbn. f_equal. apply IH. reflexivity.
  - discriminate Hc.
Qed.

Lemma sma_ready (p : Z) (closes : list float) :
  (0 < p)%Z -> (p <= Z.of_nat (length closes))%Z ->
  sma p closes
  = ret (Some (PrimFloat.div (sum_floats (last_closes p closes)) (float_of_int p))).
Proof.
  intros Hp Hlen. unfold sma.
  replace (p <=? Z.of_nat (length closes))%Z with true by (symmetry; apply Z.leb_le; lia).
  replace (p =? 0)%Z with false by (symmetry; apply Z.eqb_neq; lia).
  reflexivity.
Qed.

Section StrategyFacts.
Variable mk_ : market.

Local Abbreviation iteration := (strategy_iteration mk_).



End StrategyFacts.




(** ** The gateway wrapper: requests, OCO orders, symbol information *)

(** The two ways a call of [BinanceClientWrapper.place_order] can go. *)
Lemma client_place_order_outcome :
  forall (A : Type) (N : Number A) (ex : exchange A) (sent0 : list (order_params A))
         (symbol side order_type : string) (quantity : quantity_value A)
         (price stop_price : option A) (reduce_only : bool),
    let outcome :=
      client_place_order ex sent0 symbol side order_type quantity price stop_price
        reduce_only in
    if (String.eqb order_type "STOP_MARKET" && negb (given stop_price))
       || (String.eqb order_type "LIMIT" && negb (given price))
    then snd outcome = sent0
         /\ (fst outcome = raise (ValueError StopPriceRequired)
             \/ fst outcome = raise (ValueError PriceRequired))
    else exists p,
        snd outcome = sent0 ++ [p] /\ fst outcome = ex sent0 p /\ well_formed p
        /\ o_symbol p = symbol /\ o_side p = side /\ o_type p = order_type
        /\ o_quantity p = quantity /\ o_reduceOnly p = reduce_only.
Proof.
  intros A N ex sent0 symbol side order_type quantity price stop_price reduce_only.
  cbv zeta. unfold client_place_order, order_request.
  destruct (String.eqb_spec order_type "STOP_MARKET") as [Hsm|Hsm];
    destruct (String.eqb_spec order_type "LIMIT") as [Hl|Hl];
    try (subst order_type; discriminate Hl);
    destruct (String.eqb_spec order_type "MARKET") as [Hm|Hm];
    try (subst order_type; discriminate Hm);
    destruct (given price) eqn:Hp; destruct (given stop_price) eqn:Hs;
    cbn [andb orb negb fst snd];
    try (split; [reflexivity | (left; reflexivity) || (right; reflexivity)]);
    (eexists; split; [reflexivity|]; split; [reflexivity|];
     split; [|repeat split];
     unfold well_formed; cbn [o_type o_price o_timeInForce o_stopPrice];
     repeat match goal with
            | |- _ /\ _ => split
            | |- _ <-> _ => split
            | |- forall _, _ => intro
            end;
     subst; try discriminate; try contradiction; try reflexivity; try assumption;
     try congruence).
Qed.

(** A call of [BinanceClientWrapper.place_order] either raises a
    [ValueError] of its own and sends nothing (a STOP_MARKET order without
    a stop price, a LIMIT order without a price, where a price of zero
    counts as none), or sends exactly one request, which is well formed
    and carries the symbol, side, type, quantity and reduce-only flag it
    was called with, and hands back the answer of the exchange. *)
Theorem client_place_order_sends_one_well_formed_request :
  forall (A : Type) (N : Number A) (ex : exchange A) (sent0 : list (order_params A))
         (symbol side order_type : string) (quantity : quantity_value A)
         (price stop_price : option A) (reduce_only : bool),
    let outcome :=
      client_place_order ex sent0 symbol side order_type quantity price stop_price
        reduce_only in
    if (String.eqb order_type "STOP_MARKET" && negb (given stop_price))
       || (String.eqb order_type "LIMIT" && negb (given price))
    then snd outcome = sent0
         /\ (fst outcome = raise (ValueError StopPriceRequired)
             \/ fst outcome = raise (ValueError PriceRequired))
    else exists p,
        snd outcome = sent0 ++ [p] /\ fst outcome = ex sent0 p /\ well_formed p
        /\ o_symbol p = symbol /\ o_side p = side /\ o_type p = order_type
        /\ o_quantity p = quantity /\ o_reduceOnly p = reduce_only.
Proof. exact client_place_order_outcome. Qed.


(** A LIMIT order through the wrapper: refused when the price is zero,
    sent otherwise. *)
Lemma limit_order_attempt {A} `{Number A} (ex : exchange A) (sent0 : list (order_params A))
    (symbol side : string) (q price : A) :
  client_place_order ex sent0 symbol side "LIMIT" (Raw q) (Some price) None false
  = if truthy price
    then (ex sent0 (level_request symbol side q price),
          sent0 ++ [level_request symbol side q price])
    else (raise (ValueError PriceRequired), sent0).
Proof.
  unfold client_place_order, order_request, given.
  destruct (truthy price); reflexivity.
Qed.

(** A STOP_MARKET order through the wrapper: refused when the stop price
    is zero, sent otherwise. *)
Lemma stop_order_attempt {A} `{Number A} (ex : exchange A) (sent0 : list (order_params A))
    (symbol side : string) (q stop_price : A) :
  client_place_order ex sent0 symbol side "STOP_MARKET" (Raw q) None (Some stop_price) false
  = if truthy stop_price
    then (ex sent0 (stop_request symbol side q stop_price),
          sent0 ++ [stop_request symbol side q stop_price])
    else (raise (ValueError StopPriceRequired), sent0).
Proof.
  unfold client_place_order, order_request, given.
  destruct (truthy stop_price); reflexivity.
Qed.

Lemma limit_request_built {A} `{Number A} (symbol side : string) (q price : A) :
  truthy price = true ->
  order_request symbol side "LIMIT" (Raw q) (Some price) None false
  = ret (level_request symbol side q price).
Proof. intros Hp. unfold order_request, given. rewrite Hp. reflexivity. Qed.

Lemma stop_request_built {A} `{Number A} (symbol side : string) (q stop_price : A) :
  truthy stop_price = true ->
  order_request symbol side "STOP_MARKET" (Raw q) None (Some stop_price) false
  = ret (stop_request symbol side q stop_price).
Proof. intros Hp. unfold order_request, given. rewrite Hp. reflexivity. Qed.

(** A simulated OCO order whose two legs are accepted has sent exactly two
    requests, in this order: a LIMIT order on the given side at the limit
    price, and a STOP_MARKET order on the opposite side (BUY for every
    side other than 'BUY') at the stop price, both with the quantity as
    given; the stop-limit price appears in neither. *)
Theorem oco_places_limit_then_opposite_stop :
  forall (A : Type) (N : Number A) (ex : exchange A) (sent0 : list (order_params A))
         (symbol side : string) (q limit_price stop_price stop_limit_price : A)
         (first second : order_response),
    truthy limit_price = true ->
    truthy stop_price = true ->
    let limit_leg := level_request symbol side q limit_price in
    let stop_leg := stop_request symbol (opposite_side side) q stop_price in
    ex sent0 limit_leg = ret first ->
    ex (sent0 ++ [limit_leg]) stop_leg = ret second ->
    place_oco_order ex sent0 symbol side q limit_price stop_price stop_limit_price
    = (ret {| limit_order := first; stop_order := second |},
       sent0 ++ [limit_leg; stop_leg]).
Proof.
  intros A N ex sent0 symbol side q limit_price stop_price stop_limit_price first second
         Hl Hs limit_leg stop_leg Hfirst Hsecond.
  unfold place_oco_order, client_place_oco_order, client_place_order.
  rewrite (limit_request_built symbol side q limit_price Hl). unfold ret at 1.
  cbv beta iota. fold limit_leg. rewrite Hfirst. unfold ret at 1. cbv beta iota.
  rewrite (stop_request_built symbol (opposite_side side) q stop_price Hs).
  unfold ret at 1. cbv beta iota. fold stop_leg. rewrite Hsecond.
  unfold ret at 1. cbv beta iota. rewrite <- app_assoc. reflexivity.
Qed.

Lemma oco_places_limit_then_opposite_stop_witness :
  place_oco_order filling_exchange [] "BTCUSDT" "SELL" 0.002%float 105000%float
    95000%float 94900%float
  = (ret {| limit_order := {| orderId := 0 |}; stop_order := {| orderId := 1 |} |},
     [level_request "BTCUSDT" "SELL" 0.002%float 105000%float;
      stop_request "BTCUSDT" "BUY" 0.002%float 95000%float]).
Proof.
  exact (oco_places_limit_then_opposite_stop float float_number filling_exchange []
           "BTCUSDT" "SELL" 0.002%float 105000%float 95000%float 94900%float
           {| orderId := 0 |} {| orderId := 1 |} eq_refl eq_refl eq_refl eq_refl).
Defined.

(** The simulated OCO order is not atomic.  When the limit leg has been
    accepted and the stop leg fails (a stop price of zero, refused before
    any request, or a request the exchange answers with an error), the
    call raises that error and the limit order stays at the exchange:
    nothing withdraws it.  When the limit leg itself fails, the stop leg is
    never sent. *)
Theorem oco_failed_stop_leaves_limit_order :
  forall (A : Type) (N : Number A) (ex : exchange A) (sent0 : list (order_params A))
         (symbol side : string) (q limit_price stop_price stop_limit_price : A),
    truthy limit_price = true ->
    let limit_leg := level_request symbol side q limit_price in
    let stop_leg := stop_request symbol (opposite_side side) q stop_price in
    let outcome :=
      place_oco_order ex sent0 symbol side q limit_price stop_price stop_limit_price in
    match ex sent0 limit_leg with
    | inl e => outcome = (raise e, sent0 ++ [limit_leg])
    | inr first =>
      if truthy stop_price then
        match ex (sent0 ++ [limit_leg]) stop_leg with
        | inl e => outcome = (raise e, sent0 ++ [limit_leg; stop_leg])
        | inr second => fst outcome = ret {| limit_order := first; stop_order := second |}
        end
      else outcome = (raise (ValueError StopPriceRequired), sent0 ++ [limit_leg])
    end.
Proof.
  intros A N ex sent0 symbol side q limit_price stop_price stop_limit_price Hl
         limit_leg stop_leg outcome.
  subst outcome.
  assert (Hcall : place_oco_order ex sent0 symbol side q limit_price stop_price
                    stop_limit_price
                  = match ex sent0 limit_leg with
                    | inl e => (inl e, sent0 ++ [limit_leg])
                    | inr first =>
                      match client_place_order ex (sent0 ++ [limit_leg]) symbol
                              (opposite_side side) "STOP_MARKET" (Raw q) None
                              (Some stop_price) false with
                      | (inl e, sent2) => (inl e, sent2)
                      | (inr second, sent2) =>
                        (ret {| limit_order := first; stop_order := second |}, sent2)
                      end
                    end).
  { unfold place_oco_order, client_place_oco_order.
    unfold client_place_order at 1.
    rewrite (limit_request_built symbol side q limit_price Hl). reflexivity. }
  rewrite Hcall. clear Hcall.
  destruct (ex sent0 limit_leg) as [e|first]; [reflexivity|].
  unfold client_place_order.
  destruct (truthy stop_price) eqn:Hs.
  - rewrite (stop_request_built symbol (opposite_side side) q stop_price Hs).
    unfold ret, raise. cbv beta iota. fold stop_leg.
    destruct (ex (sent0 ++ [limit_leg]) stop_leg) as [e|second].
    + rewrite <- app_assoc. reflexivity.
    + reflexivity.
  - unfold order_request, given. rewrite Hs. reflexivity.
Qed.

Lemma oco_failed_stop_leaves_limit_order_witness :
  place_oco_order (rejecting_exchange [1%nat]) [] "BTCUSDT" "BUY" 0.002%float
    105000%float 95000%float 94900%float
  = (raise (BinanceAPIException (-2019) "Margin is insufficient."),
     [level_request "BTCUSDT" "BUY" 0.002%float 105000%float;
      stop_request "BTCUSDT" "SELL" 0.002%float 95000%float]).
Proof.
  exact (oco_failed_stop_leaves_limit_order float float_number
           (rejecting_exchange [1%nat]) [] "BTCUSDT" "BUY" 0.002%float 105000%float
           95000%float 94900%float eq_refl).
Defined.

(** ** Symbol information *)

Lemma find_names (symbol : string) (symbols : list sym_info) (info : sym_info) :
  List.find (names symbol) symbols = Some info -> si_symbol info = Some symbol.
Proof.
  intros Hf. apply find_some in Hf. destruct Hf as [_ Hn].
  unfold names in Hn. apply bool_decide_eq_true in Hn. exact Hn.
Qed.

(** Once [get_symbol_info] has returned the info of a symbol, every later
    call for that symbol returns the same info and leaves the cache as it
    is, whatever the exchange would answer then, a failure included. *)
Theorem get_symbol_info_found_is_kept :
  forall (cache cache1 : info_cache) (symbol : string) (info : sym_info)
         (exchange_info later : result (list sym_info)),
    get_symbol_info cache symbol exchange_info = (ret (Some info), cache1) ->
    get_symbol_info cache1 symbol later = (ret (Some info), cache1).
Proof.
  intros cache cache1 symbol info exchange_info later. unfold get_symbol_info.
  destruct (cache !! symbol) as [known|] eqn:Hc.
  - intros Heq. injection Heq as Hi <-. rewrite Hc. rewrite Hi. reflexivity.
  - destruct exchange_info as [e|symbols]; [discriminate|].
    destruct (List.find (names symbol) symbols) as [found|]; [|discriminate].
    intros Heq. injection Heq as Hi <-. rewrite lookup_insert_eq, Hi. reflexivity.
Qed.

Lemma get_symbol_info_found_is_kept_witness :
  let btc := {| si_symbol := Some "BTCUSDT"%string; si_filters := btcusdt_filters |} in
  get_symbol_info {[ "BTCUSDT"%string := btc ]} "BTCUSDT"
    (raise (BinanceAPIException (-1003) "Too many requests."))
  = (ret (Some btc), {[ "BTCUSDT"%string := btc ]}).
Proof.
  intros btc.
  apply (get_symbol_info_found_is_kept ∅ {[ "BTCUSDT"%string := btc ]} "BTCUSDT" btc
           (ret [btc])).
  reflexivity.
Defined.

(** [get_symbol_info] never hands back the info of another symbol, and
    remembers what it found only: in a cache whose entries are filed under
    their own symbol, the info returned names the symbol asked for and the
    cache stays so filed; a symbol the exchange does not list, and a
    failed request, leave the cache unchanged, so the next call asks the
    exchange again. *)
Theorem get_symbol_info_names_the_symbol :
  forall (cache : info_cache) (symbol : string) (exchange_info : result (list sym_info)),
    filed_by_symbol cache ->
    let outcome := get_symbol_info cache symbol exchange_info in
    filed_by_symbol (snd outcome)
    /\ (forall info, fst outcome = ret (Some info) -> si_symbol info = Some symbol)
    /\ (fst outcome = ret None \/ (exists e, fst outcome = raise e) ->
        snd outcome = cache /\ cache !! symbol = None).
Proof.
  intros cache symbol exchange_info Hfiled outcome. subst outcome.
  unfold get_symbol_info.
  destruct (cache !! symbol) as [known|] eqn:Hc.
  - cbn [fst snd]. split; [exact Hfiled|]. split.
    + intros info Heq. injection Heq as <-. apply Hfiled. exact Hc.
    + intros [Heq | [e Heq]]; discriminate Heq.
  - destruct exchange_info as [e|symbols].
    + cbn [fst snd]. split; [exact Hfiled|]. split; [discriminate|]. auto.
    + destruct (List.find (names symbol) symbols) as [found|] eqn:Hf.
      * cbn [fst snd]. split; [|split].
        -- intros k info Hk. destruct (decide (k = symbol)) as [->|Hne].
           ++ rewrite lookup_insert_eq in Hk. injection Hk as <-.
              apply (find_names symbol symbols found Hf).
           ++ rewrite lookup_insert_ne in Hk by congruence. apply Hfiled. exact Hk.
        -- intros info Heq. injection Heq as <-.
           apply (find_names symbol symbols found Hf).
        -- intros [Heq | [e Heq]]; discriminate Heq.
      * cbn [fst snd]. split; [exact Hfiled|]. split; [discriminate|]. auto.
Qed.

Lemma get_symbol_info_names_the_symbol_witness :
  let eth := {| si_symbol := Some "ETHUSDT"%string; si_filters := [] |} in
  snd (get_symbol_info ∅ "BTCUSDT" (ret [eth])) = ∅
  /\ (∅ : info_cache) !! "BTCUSDT"%string = None.
Proof.
  intros eth.
  refine (proj2 (proj2 (get_symbol_info_names_the_symbol ∅ "BTCUSDT" (ret [eth]) _))
            (or_introl _)).
  - intros k info Hk. rewrite lookup_empty in Hk. discriminate Hk.
  - reflexivity.
Defined.

(** ** Positions *)

(** [get_positions] invents no record: whatever it returns was in the
    list the exchange answered with.  Asked for no symbol (or the empty
    string) it returns the list as it is; asked for a symbol of which the
    list holds a record, it returns the records of that symbol and no
    other, in their order. *)
Theorem get_positions_returns_answered_records :
  forall (info : option string -> result positions_answer) (symbol : option string)
         (l : list position_record),
    get_position_info info symbol = ret (Records l) ->
    exists found,
      get_positions info symbol = ret found
      /\ (forall p, In p found -> In p l)
      /\ (symbol_given symbol = false -> found = l)
      /\ (symbol_given symbol = true ->
          (exists p, In p l /\ p_symbol p = symbol) ->
          found = List.filter (symbol_matches symbol) l
          /\ forall p, In p found -> p_symbol p = symbol).
Proof.
  intros info symbol l Hinfo. unfold get_positions. rewrite Hinfo.
  unfold ret at 1, bind. cbv beta iota.
  destruct (symbol_given symbol) eqn:Hg.
  - exists (or_else (List.filter (symbol_matches symbol) l) l).
    split; [reflexivity|]. split; [|split].
    + intros p Hp. destruct (List.filter (symbol_matches symbol) l) as [|x rest] eqn:Hf.
      * exact Hp.
      * cbn [or_else] in Hp. rewrite <- Hf in Hp. apply filter_In in Hp. tauto.
    + discriminate.
    + intros _ (p & Hp & Hsym).
      assert (Hin : In p (List.filter (symbol_matches symbol) l)).
      { apply filter_In. split; [exact Hp|].
        unfold symbol_matches. apply bool_decide_eq_true. exact Hsym. }
      destruct (List.filter (symbol_matches symbol) l) as [|x rest] eqn:Hf; [destruct Hin|].
      cbn [or_else]. split; [reflexivity|].
      intros p' Hp'. rewrite <- Hf in Hp'. apply filter_In in Hp'.
      destruct Hp' as [_ Hm]. unfold symbol_matches in Hm.
      apply bool_decide_eq_true in Hm. exact Hm.
  - exists l. split; [reflexivity|]. split; [auto|]. split; [auto|discriminate].
Qed.

Lemma get_positions_returns_answered_records_witness :
  let btc := {| p_symbol := Some "BTCUSDT"%string; p_positionAmt := Num (mk false 2 (-2)) |} in
  let eth := {| p_symbol := Some "ETHUSDT"%string; p_positionAmt := Num (mk true 5 (-1)) |} in
  exists found,
    get_positions (fun _ => ret (Records [eth; btc])) (Some "BTCUSDT"%string) = ret found
    /\ (forall p, In p found -> In p [eth; btc])
    /\ (symbol_given (Some "BTCUSDT"%string) = false -> found = [eth; btc])
    /\ (symbol_given (Some "BTCUSDT"%string) = true ->
        (exists p, In p [eth; btc] /\ p_symbol p = Some "BTCUSDT"%string) ->
        found = List.filter (symbol_matches (Some "BTCUSDT"%string)) [eth; btc]
        /\ forall p, In p found -> p_symbol p = Some "BTCUSDT"%string).
Proof.
  intros btc eth.
  exact (get_positions_returns_answered_records
           (fun _ => ret (Records [eth; btc])) (Some "BTCUSDT"%string) [eth; btc] eq_refl).
Defined.

(** ** The quantity normaliser: what it returns, and its cache *)

Open Scope Q_scope.

Lemma round_half_even_exact (a p : N) : p <> 0%N -> round_half_even (a * p) p = a.
Proof.
  intros Hp. unfold round_half_even.
  rewrite N.div_mul by exact Hp. rewrite N.Div0.mod_mul.
  replace (p <? 2 * 0)%N with false by (symmetry; apply N.ltb_ge; lia).
  replace (2 * 0 =? p)%N with false by (symmetry; apply N.eqb_neq; lia).
  reflexivity.
Qed.

(** Rounding away digits that are all zero keeps the number. *)
Lemma rescale_half_even_exact (s : bool) (c0 t k : N) (e : Z) :
  (k <= t)%N ->
  value (rescale_half_even (mk s (c0 * 10 ^ t) e) (e + Z.of_N k))
  == value (mk s (c0 * 10 ^ t) e).
Proof.
  intros Hk. destruct (N.eq_dec k 0%N) as [->|Hk0].
  - apply rescale_half_even_pad. cbn [exponent]. lia.
  - unfold rescale_half_even. cbn [sign coeff exponent].
    replace (e + Z.of_N k <=? e)%Z with false by (symmetry; apply Z.leb_gt; lia).
    replace (Z.to_N (e + Z.of_N k - e)) with k by lia.
    replace (c0 * 10 ^ t)%N with (c0 * 10 ^ (t - k) * 10 ^ k)%N.
    2:{ rewrite <- N.mul_assoc, <- N.pow_add_r. f_equal. f_equal. lia. }
    rewrite round_half_even_exact by apply pow10_nonzero.
    rewrite !value_padded.
    replace (e + Z.of_N k + Z.of_N (t - k))%Z with (e + Z.of_N (t - k) + Z.of_N k)%Z by lia.
    reflexivity.
Qed.

(** The normal form of a decimal that fits the context: its trailing
    zeros moved to the exponent. *)
Lemma normalize_fits (s : bool) (c0 : N) (t : nat) (e : Z) :
  (c0 mod 10 <> 0)%N ->
  (c0 * 10 ^ N.of_nat t < limit)%N ->
  normalize (mk s (c0 * 10 ^ N.of_nat t) e) = mk s c0 (e + Z.of_nat t).
Proof.
  intros Hc0 Hfit. unfold normalize, fix_. cbn [sign coeff exponent].
  replace (c0 * 10 ^ N.of_nat t <? limit)%N with true
    by (symmetry; apply N.ltb_lt; exact Hfit).
  cbn [sign coeff exponent].
  assert (Hnz : c0 <> 0%N) by (intros ->; apply Hc0; reflexivity).
  assert (Hc : (c0 * 10 ^ N.of_nat t <> 0)%N).
  { pose proof (pow10_nonzero (N.of_nat t)). intros H0.
    apply N.eq_mul_0 in H0. tauto. }
  apply N.eqb_neq in Hc. rewrite Hc.
  rewrite (strip_pow _ c0 t e Hc0 (enough_fuel c0 t Hnz)). reflexivity.
Qed.

(** The text written when no step applies denotes the quantity itself. *)
Lemma fallback_value (q : Decimal) :
  fits_context q -> value (format_f q (implied_precision q)) == value q.
Proof.
  intros Hfit. unfold fits_context in Hfit. destruct q as [s c e].
  cbn [coeff] in Hfit. unfold format_f, implied_precision.
  destruct (N.eq_dec c 0%N) as [->|Hc].
  - assert (Hzero : forall e', value (mk s 0 e') == 0).
    { intros e'. rewrite value_mk. change (inject_Z (Z.of_N 0)) with 0. ring. }
    rewrite (Hzero e).
    unfold rescale_half_even. cbn [sign coeff exponent].
    destruct (_ <=? e)%Z.
    + rewrite N.mul_0_l. apply Hzero.
    + replace (round_half_even 0 _) with 0%N; [apply Hzero|].
      unfold round_half_even. rewrite N.Div0.div_0_l, N.Div0.mod_0_l.
      change (N.odd 0) with false. rewrite andb_false_r, orb_false_r.
      symmetry. replace (_ <? 2 * 0)%N with false; [reflexivity|].
      symmetry. apply N.ltb_ge. lia.
  - destruct (trailing_zeros c Hc) as (c0 & t & -> & Hc0).
    rewrite (normalize_fits s c0 t e Hc0 Hfit). cbn [exponent].
    destruct (Z.le_gt_cases (- Z.max 0 (- (e + Z.of_nat t))) e) as [Hle|Hgt].
    + apply rescale_half_even_pad. cbn [exponent]. exact Hle.
    + replace (- Z.max 0 (- (e + Z.of_nat t)))%Z
        with (e + Z.of_N (Z.to_N (- Z.max 0 (- (e + Z.of_nat t)) - e)))%Z by lia.
      apply rescale_half_even_exact. lia.
Qed.

(** Where the normaliser uses no step, it hands the quantity on as it is:
    for a quantity of at most 28 digits the text it returns denotes the
    same number. *)
Theorem normalizer_without_step_keeps_quantity :
  forall (filters : symbol_info) (q : Decimal),
    no_step_applies filters ->
    fits_context q ->
    exists r, normalize_with filters (QDec q) = ret r /\ value r == value q.
Proof.
  intros filters q Hno Hfit.
  exists (format_f q (implied_precision q)). split; [|apply fallback_value; exact Hfit].
  unfold normalize_with, no_step_applies in *.
  destruct (List.find is_lot_size filters) as [lot_filter|]; [|reflexivity].
  destruct (parse_field (stepSize lot_filter) (mk false 1 0)) as [step|]; [|reflexivity].
  destruct (parse_field (minQty lot_filter) (mk false 0 0)) as [minq|]; [|reflexivity].
  rewrite Hno. reflexivity.
Qed.

Lemma normalizer_without_step_keeps_quantity_witness :
  exists r,
    normalize_with [] (QDec (mk false 12500 (-7))) = ret r
    /\ value r == value (mk false 12500 (-7)).
Proof.
  apply (normalizer_without_step_keeps_quantity [] (mk false 12500 (-7))).
  - exact I.
  - reflexivity.
Defined.

(** For a filter set whose first LOT_SIZE filter has a step size that
    reads as a decimal (an absent one counts as 1), is not zero and is
    written plainly (no zeros after its last significant decimal place),
    and a minimum quantity that reads as a decimal (an absent one counts
    as 0): whatever the normaliser returns is the quantity cut to the
    decimal places of the step size; it is never zero and never below
    the minimum quantity, and for a quantity that is not negative it lies
    less than one unit of the last place below it and never above it. *)
Theorem normalizer_cuts_to_decimal_places :
  forall (filters : symbol_info) (lot_filter : exchange_filter) (step minq q r : Decimal),
    List.find is_lot_size filters = Some lot_filter ->
    parse_field (stepSize lot_filter) (mk false 1 0) = Some step ->
    parse_field (minQty lot_filter) (mk false 0 0) = Some minq ->
    is_zero step = false ->
    written_plainly step ->
    normalize_with filters (QDec q) = ret r ->
    value r == value (rescale_down q (exponent step))
    /\ ~ value r == 0
    /\ value minq <= value r
    /\ (sign q = false ->
        value r <= value q /\ value q < value r + 10 ^ exponent step).
Proof.
  intros filters lot_filter step minq q r Hfind Hstep Hminq Hnz Hplain Hnorm.
  unfold normalize_with in Hnorm. rewrite Hfind, Hstep, Hminq, Hnz in Hnorm.
  unfold quantize in Hnorm.
  set (m := rescale_down q (exponent step)) in *.
  destruct (coeff m <? limit)%N; [|discriminate Hnorm].
  unfold ret at 1, bind in Hnorm.
  destruct (is_zero m) eqn:Hzm; [discriminate Hnorm|].
  destruct (ltb m minq) eqn:Hlt; [discriminate Hnorm|].
  injection Hnorm as <-.
  assert (Hr : value (format_f m (implied_precision step)) == value m).
  { unfold format_f. apply rescale_half_even_pad.
    unfold written_plainly in Hplain. rewrite Hplain.
    subst m. rewrite rescale_down_exponent. lia. }
  split; [exact Hr|]. split; [|split].
  - rewrite Hr. intros H0. apply is_zero_value in H0. congruence.
  - rewrite Hr. apply Qnot_lt_le. intros Hc. apply ltb_value in Hc. congruence.
  - intros Hsign. destruct (rescale_down_bounds q (exponent step) Hsign) as [Hlo Hhi].
    fold m in Hlo, Hhi. rewrite Hr. split; assumption.
Qed.

Lemma normalizer_cuts_to_decimal_places_witness :
  let step := mk false 25 (-2) in
  let q := mk false 1999 (-3) in
  let r := mk false 199 (-2) in
  value r == value (rescale_down q (exponent step))
  /\ ~ value r == 0
  /\ value (mk false 5 (-1)) <= value r
  /\ (sign q = false -> value r <= value q /\ value q < value r + 10 ^ exponent step).
Proof.
  intros step q r.
  apply (normalizer_cuts_to_decimal_places [lot_size step (mk false 5 (-1))]
           (lot_size step (mk false 5 (-1))) step (mk false 5 (-1)) q r);
    reflexivity.
Defined.

Lemma negative_value (c : N) (e : Z) : c <> 0%N -> value (mk true c e) < 0.
Proof.
  intros Hc. unfold value, signed. cbn [sign coeff exponent].
  apply Qlt_le_trans with (inject_Z 0 * 10 ^ e).
  - apply scaled_lt; [apply pow10_pos | lia].
  - change (inject_Z 0) with 0. rewrite Qmult_0_l. apply Qle_refl.
Qed.

(** Where a step applies and the minimum quantity is not negative, the
    normaliser lets no negative quantity through: it is cut toward zero
    and then refused, as rounding down to zero or as below the minimum
    (or the cut overflows the decimal context). *)
Theorem normalizer_refuses_negative_quantities :
  forall (filters : symbol_info) (lot_filter : exchange_filter) (step minq q : Decimal),
    List.find is_lot_size filters = Some lot_filter ->
    parse_field (stepSize lot_filter) (mk false 1 0) = Some step ->
    parse_field (minQty lot_filter) (mk false 0 0) = Some minq ->
    is_zero step = false ->
    sign minq = false ->
    sign q = true ->
    normalize_with filters (QDec q) = raise (ValueError RoundsDownToZero)
    \/ normalize_with filters (QDec q) = raise (ValueError BelowMinimum)
    \/ normalize_with filters (QDec q) = raise InvalidOperation.
Proof.
  intros filters lot_filter step minq q Hfind Hstep Hminq Hnz Hmin Hneg.
  unfold normalize_with. rewrite Hfind, Hstep, Hminq, Hnz. unfold quantize.
  set (m := rescale_down q (exponent step)).
  destruct (coeff m <? limit)%N; [|right; right; reflexivity].
  unfold ret, bind. cbv beta iota.
  destruct (is_zero m) eqn:Hzm; [left; reflexivity|].
  right; left.
  assert (Hlt : ltb m minq = true).
  { apply ltb_value. apply Qlt_le_trans with 0; [|apply nonneg_value; exact Hmin].
    assert (Hs : sign m = true) by (subst m; rewrite rescale_down_sign; exact Hneg).
    unfold is_zero in Hzm. apply N.eqb_neq in Hzm.
    destruct m as [s c e]. cbn [sign coeff] in *. subst s.
    apply negative_value. exact Hzm. }
  rewrite Hlt. reflexivity.
Qed.

Lemma normalizer_refuses_negative_quantities_witness :
  normalize_with btcusdt_filters (QDec (mk true 25 (-3))) = raise (ValueError RoundsDownToZero)
  \/ normalize_with btcusdt_filters (QDec (mk true 25 (-3))) = raise (ValueError BelowMinimum)
  \/ normalize_with btcusdt_filters (QDec (mk true 25 (-3))) = raise InvalidOperation.
Proof.
  apply (normalizer_refuses_negative_quantities btcusdt_filters
           (lot_size (mk false 1 (-3)) (mk false 1 (-3)))
           (mk false 1 (-3)) (mk false 1 (-3)) (mk true 25 (-3)));
    reflexivity.
Defined.

Close Scope Q_scope.

(** ** The trading logic: the filter cache, orders, stopping and starting *)

(** The filters of a symbol are looked up at most once.  After
    [_normalize_quantity] has been called with a decimal quantity, the
    symbol has an entry in the cache, that call was answered from it, and
    every later call for the symbol is answered from it too, whatever the
    lookup would return then; the cache no longer changes. *)
Theorem symbol_filters_are_looked_up_once :
  forall (cache : precision_cache) (symbol : string)
         (fetch : result (option symbol_info)) (q : Decimal),
    let first := _normalize_quantity cache symbol fetch (QDec q) in
    exists info,
      snd first !! symbol = Some info
      /\ fst first = normalize_with info (QDec q)
      /\ forall (later : result (option symbol_info)) (quantity : quantity_arg),
          _normalize_quantity (snd first) symbol later quantity
          = (normalize_with info quantity, snd first).
Proof.
  intros cache symbol fetch q first.
  assert (Hlater : forall (c : precision_cache) info,
             c !! symbol = Some info ->
             forall later quantity,
               _normalize_quantity c symbol later quantity
               = (normalize_with info quantity, c)).
  { intros c info Hc later quantity. unfold _normalize_quantity, _get_symbol_info.
    rewrite Hc. destruct quantity; reflexivity. }
  subst first. unfold _normalize_quantity, _get_symbol_info.
  destruct (cache !! symbol) as [info|] eqn:Hc.
  - exists info. cbn [fst snd]. split; [exact Hc|]. split; [reflexivity|].
    apply Hlater. exact Hc.
  - destruct fetch as [e|[info|]].
    + exists []. cbn [fst snd]. split; [apply lookup_insert_eq|]. split; [reflexivity|].
      apply Hlater. apply lookup_insert_eq.
    + exists info. cbn [fst snd]. split; [apply lookup_insert_eq|]. split; [reflexivity|].
      apply Hlater. apply lookup_insert_eq.
    + exists []. cbn [fst snd]. split; [apply lookup_insert_eq|]. split; [reflexivity|].
      apply Hlater. apply lookup_insert_eq.
Qed.

(** A lookup that fails is remembered as "no filters".  When the filters
    of a symbol are not cached and the lookup raises or finds nothing, the
    quantity goes through unchecked, and so does every later quantity for
    that symbol, even when the exchange would then report a LOT_SIZE
    filter: none is ever cut to a step or compared with a minimum. *)
Theorem failed_symbol_lookup_disables_step_checks :
  forall (cache : precision_cache) (symbol : string)
         (fetch : result (option symbol_info)) (q : Decimal),
    cache !! symbol = None ->
    fetch = ret None \/ (exists e, fetch = raise e) ->
    let first := _normalize_quantity cache symbol fetch (QDec q) in
    fst first = ret (format_f q (implied_precision q))
    /\ forall (later : result (option symbol_info)) (q' : Decimal),
        _normalize_quantity (snd first) symbol later (QDec q')
        = (ret (format_f q' (implied_precision q')), snd first).
Proof.
  intros cache symbol fetch q Hmiss Hfail first.
  assert (Hfirst : first = (ret (format_f q (implied_precision q)),
                            <[symbol := []]> cache)).
  { subst first. unfold _normalize_quantity, _get_symbol_info. rewrite Hmiss.
    destruct Hfail as [-> | [e ->]]; reflexivity. }
  rewrite Hfirst. cbn [fst snd]. split; [reflexivity|].
  intros later q'. unfold _normalize_quantity, _get_symbol_info.
  rewrite lookup_insert_eq. reflexivity.
Qed.

Lemma failed_symbol_lookup_disables_step_checks_witness :
  let first :=
    _normalize_quantity ∅ "BTCUSDT" (raise (BinanceAPIException (-1003) "Too many requests."))
      (QDec (mk false 7 (-4))) in
  fst first = ret (mk false 7 (-4))
  /\ fst (_normalize_quantity (snd first) "BTCUSDT" (ret (Some btcusdt_filters))
            (QDec (mk false 7 (-4))))
     = ret (mk false 7 (-4)).
Proof.
  intros first. subst first.
  destruct (failed_symbol_lookup_disables_step_checks ∅ "BTCUSDT"
              (raise (BinanceAPIException (-1003) "Too many requests."))
              (mk false 7 (-4)) (lookup_empty _) (or_intror (ex_intro _ _ eq_refl)))
    as [Hfirst Hlater].
  split.
  - exact Hfirst.
  - rewrite (Hlater (ret (Some btcusdt_filters)) (mk false 7 (-4))). reflexivity.
Defined.

(** The normaliser raises errors of its own only, never a gateway
    error. *)
Lemma normalizer_raises_no_gateway_error (filters : symbol_info) (quantity : quantity_arg)
    (e : exn) :
  normalize_with filters quantity = raise e -> is_gateway_error e = false.
Proof.
  unfold normalize_with, raise, ret.
  destruct quantity as [| | |q]; try (intros Heq; injection Heq as <-; reflexivity).
  destruct (List.find is_lot_size filters) as [lot_filter|]; [|discriminate].
  destruct (parse_field (stepSize lot_filter) (mk false 1 0)) as [step|]; [|discriminate].
  destruct (parse_field (minQty lot_filter) (mk false 0 0)) as [minq|]; [|discriminate].
  destruct (is_zero step); [discriminate|].
  unfold quantize, bind, raise, ret.
  destruct (coeff (rescale_down q (exponent step)) <? limit)%N.
  - destruct (is_zero _); [intros Heq; injection Heq as <-; reflexivity|].
    destruct (ltb _ minq); [intros Heq; injection Heq as <-; reflexivity|discriminate].
  - intros Heq; injection Heq as <-; reflexivity.
Qed.

Lemma normalize_quantity_raises_no_gateway_error (cache : precision_cache)
    (symbol : string) (fetch : result (option symbol_info)) (quantity : quantity_arg)
    (e : exn) :
  fst (_normalize_quantity cache symbol fetch quantity) = raise e ->
  is_gateway_error e = false.
Proof.
  unfold _normalize_quantity.
  destruct quantity as [| | |q]; cbn [fst];
    try apply normalizer_raises_no_gateway_error.
  destruct (_get_symbol_info cache symbol fetch) as [info cache'].
  cbn [fst]. apply normalizer_raises_no_gateway_error.
Qed.

Section LogicFacts.
Variable mk_ : market.

(** What [TradingLogic.place_order] lets through to the exchange. *)
Lemma place_order_outcome (st : logic_state) (symbol side order_type : string)
    (quantity : option float) (price stop_price : option float) (reduce_only : bool) :
  let outcome :=
    place_order mk_ st symbol side order_type quantity price stop_price reduce_only in
  match fst (_normalize_quantity (_symbol_precision_cache st) symbol
               (symbol_info_lookup mk_ symbol) (quantity_text quantity)) with
  | inl e => fst outcome = raise e /\ sent (snd outcome) = sent st
  | inr d =>
    (sent (snd outcome) = sent st /\ exists why, fst outcome = raise (ValueError why))
    \/ (exists p,
          sent (snd outcome) = sent st ++ [p]
          /\ o_quantity p = Text d /\ well_formed p
          /\ o_symbol p = symbol /\ o_side p = side /\ o_type p = order_type
          /\ o_reduceOnly p = reduce_only
          /\ fst outcome = futures_create_order mk_ (sent st) p)
  end.
Proof.
  cbv zeta. unfold place_order.
  destruct (_normalize_quantity _ _ _ _) as [[e|d] cache]; cbn [fst].
  - cbn. split; reflexivity.
  - pose proof (client_place_order_outcome float float_number (futures_create_order mk_)
                  (sent st) symbol side order_type (Text d) price stop_price reduce_only)
      as Hclient.
    cbv zeta in Hclient.
    destruct (client_place_order _ _ _ _ _ _ _ _ _) as [answer sent'].
    cbn [fst snd sent] in *.
    destruct (_ || _).
    + left. destruct Hclient as [Hs [Ha | Ha]]; split; eauto.
    + right. destruct Hclient as (p & Hs & Ha & Hwf & H1 & H2 & H3 & H4 & H5).
      exists p. repeat (split; [assumption|]). assumption.
Qed.

End LogicFacts.

(** Whatever [TradingLogic.place_order] sends to the exchange carries the
    text the normaliser returned for the quantity, never the quantity as
    given; it sends one well-formed request at most, and none at all when
    the normaliser refuses the quantity: then the normaliser's error is
    raised. *)
Theorem place_order_sends_the_normalized_quantity :
  forall (m : market) (st : logic_state) (symbol side order_type : string)
         (quantity : option float) (price stop_price : option float) (reduce_only : bool),
    let outcome :=
      place_order m st symbol side order_type quantity price stop_price reduce_only in
    match fst (_normalize_quantity (_symbol_precision_cache st) symbol
                 (symbol_info_lookup m symbol) (quantity_text quantity)) with
    | inl e => fst outcome = raise e /\ sent (snd outcome) = sent st
    | inr d =>
      (sent (snd outcome) = sent st /\ exists why, fst outcome = raise (ValueError why))
      \/ (exists p,
            sent (snd outcome) = sent st ++ [p]
            /\ o_quantity p = Text d /\ well_formed p
            /\ o_symbol p = symbol /\ o_side p = side /\ o_type p = order_type
            /\ o_reduceOnly p = reduce_only
            /\ fst outcome = futures_create_order m (sent st) p)
    end.
Proof. exact place_order_outcome. Qed.

(** ** Stopping and starting strategies *)

Section StopFacts2.
Variable mk_ : market.

(** At the first open position of the symbol the loop submits the closing
    order and reports on its outcome. *)
Lemma flatten_loop_closes_open_position (symbol : string) :
  forall (positions : list position_record) (st : logic_state) (amt : Decimal),
    open_position symbol positions = Some amt ->
    flatten_loop mk_ symbol positions st
    = let side := if sign amt then "BUY"%string else "SELL"%string in
      match place_order mk_ st symbol side "MARKET"
              (Some (float_of_Decimal (abs_decimal amt))) None None true with
      | (inl (BinanceAPIException code msg), st') =>
        ({| f_closed := false;
            f_message := FailedToClose (BinanceAPIException code msg);
            f_position_size := Some amt;
            f_details := Some (inl (BinanceAPIException code msg));
            f_last_action := Some (AutoCloseFailedSide side) |}, st')
      | (inl e, st') =>
        ({| f_closed := false; f_message := UnexpectedCloseError e;
            f_position_size := Some amt; f_details := None;
            f_last_action := Some AutoCloseFailed |}, st')
      | (inr order, st') =>
        ({| f_closed := true; f_message := ClosedPosition side;
            f_position_size := Some amt;
            f_details := Some (inr order);
            f_last_action := Some (AutoClose side (abs_decimal amt)) |}, st')
      end.
Proof.
  induction positions as [|position rest IH]; intros st amt Hopen.
  - discriminate Hopen.
  - cbn [flatten_loop open_position] in *.
    destruct (bool_decide (p_symbol position = Some symbol)); cbn [negb];
      [|apply IH; exact Hopen].
    destruct (parse_field (p_positionAmt position) (mk false 0 0)) as [a|];
      [|apply IH; exact Hopen].
    destruct (is_zero a); [apply IH; exact Hopen|].
    injection Hopen as ->. reflexivity.
Qed.

Lemma flatten_keeps_registries (symbol : string) (st : logic_state) :
  let st' := snd (_flatten_symbol_position mk_ symbol st) in
  active_strategies st' = active_strategies st
  /\ strategy_statuses st' = strategy_statuses st
  /\ _strategy_tasks st' = _strategy_tasks st.
Proof.
  cbv zeta. unfold _flatten_symbol_position.
  destruct (String.eqb symbol ""); [cbn; auto|].
  unfold query_positions.
  destruct (get_positions (futures_position_information mk_) (Some symbol))
    as [e|[|position rest]]; try (cbn; auto; fail).
  set (st1 := {| active_strategies := active_strategies st;
                 strategy_statuses := strategy_statuses st;
                 _strategy_tasks := _strategy_tasks st;
                 _symbol_precision_cache := _symbol_precision_cache st;
                 submitted := submitted st; sent := sent st;
                 position_queries := position_queries st ++ [symbol] |}).
  pose proof (flatten_loop_effects mk_ symbol (position :: rest) st1) as Hloop.
  destruct (flatten_loop mk_ symbol (position :: rest) st1) as [flat st'].
  destruct Hloop as (Ha & Hs & Ht & _). cbn [snd]. auto.
Qed.

End StopFacts2.

(** A position the normaliser refuses to order cannot be closed: when the
    quantity of the closing order (the absolute position amount, turned
    into a float) is refused, for instance because it is smaller than one
    step of the symbol, the flatten attempt sends nothing to the exchange
    and reports an unexpected error with the position size; the position
    stays open. *)
Theorem refused_closing_order_is_reported :
  forall (m : market) (st : logic_state) (symbol : string)
         (positions : list position_record) (amt : Decimal) (e : exn),
    symbol <> ""%string ->
    get_positions (futures_position_information m) (Some symbol) = ret positions ->
    open_position symbol positions = Some amt ->
    fst (_normalize_quantity (_symbol_precision_cache st) symbol
           (symbol_info_lookup m symbol)
           (Decimal_of_float (float_of_Decimal (abs_decimal amt))))
    = raise e ->
    let outcome := _flatten_symbol_position m symbol st in
    f_closed (fst outcome) = false
    /\ f_message (fst outcome) = UnexpectedCloseError e
    /\ f_position_size (fst outcome) = Some amt
    /\ f_details (fst outcome) = None
    /\ f_last_action (fst outcome) = Some AutoCloseFailed
    /\ sent (snd outcome) = sent st.
Proof.
  intros m st symbol positions amt e Hsym Hpos Hopen Hrefused outcome. subst outcome.
  unfold _flatten_symbol_position.
  destruct (String.eqb_spec symbol "") as [|_]; [contradiction|].
  destruct positions as [|position rest]; [discriminate Hopen|].
  unfold query_positions. rewrite Hpos. unfold ret. cbv beta iota.
  set (st1 := {| active_strategies := active_strategies st;
                 strategy_statuses := strategy_statuses st;
                 _strategy_tasks := _strategy_tasks st;
                 _symbol_precision_cache := _symbol_precision_cache st;
                 submitted := submitted st; sent := sent st;
                 position_queries := position_queries st ++ [symbol] |}).
  rewrite (flatten_loop_closes_open_position m symbol (position :: rest) st1 amt Hopen).
  cbv zeta.
  pose proof (place_order_outcome m st1 symbol
                (if sign amt then "BUY"%string else "SELL"%string) "MARKET"
                (Some (float_of_Decimal (abs_decimal amt))) None None true) as Hplace.
  cbv zeta in Hplace. cbn [_symbol_precision_cache st1 quantity_text] in Hplace.
  change (_symbol_precision_cache st1) with (_symbol_precision_cache st) in Hplace.
  rewrite Hrefused in Hplace. unfold raise in Hplace.
  pose proof (normalize_quantity_raises_no_gateway_error _ _ _ _ _ Hrefused) as Hng.
  destruct (place_order m st1 symbol _ "MARKET" _ None None true) as [answer st'].
  cbn [fst snd] in Hplace. destruct Hplace as [-> Hsent].
  destruct e; try discriminate Hng; cbn [fst snd f_closed f_message f_position_size
                                             f_details f_last_action];
    repeat split; exact Hsent.
Qed.

Lemma refused_closing_order_is_reported_witness :
  let st := idle_state {[ "BTCUSDT"%string := btcusdt_filters ]} in
  let outcome := _flatten_symbol_position dust_market "BTCUSDT" st in
  f_closed (fst outcome) = false
  /\ f_message (fst outcome) = UnexpectedCloseError (ValueError RoundsDownToZero)
  /\ f_position_size (fst outcome) = Some (mk false 4 (-4))
  /\ f_details (fst outcome) = None
  /\ f_last_action (fst outcome) = Some AutoCloseFailed
  /\ sent (snd outcome) = sent st.
Proof.
  intros st.
  apply (refused_closing_order_is_reported dust_market st "BTCUSDT"
           [ {| p_symbol := Some "BTCUSDT"%string;
                p_positionAmt := Num (mk false 4 (-4)) |} ]
           (mk false 4 (-4)) (ValueError RoundsDownToZero)).
  - discriminate.
  - reflexivity.
  - reflexivity.
  - vm_compute. reflexivity.
Defined.

(** Stopping a strategy touches nothing that belongs to another one: the
    registry entry, the status and the task of every other name are as
    they were. *)
Theorem stopping_leaves_other_strategies_alone :
  forall (m : market) (name other : string) (st : logic_state),
    other <> name ->
    let st' := snd (stop_strategy m name st) in
    active_strategies st' !! other = active_strategies st !! other
    /\ strategy_statuses st' !! other = strategy_statuses st !! other
    /\ (other ∈ _strategy_tasks st' <-> other ∈ _strategy_tasks st).
Proof.
  intros m name other st Hne. cbv zeta. unfold stop_strategy.
  destruct (active_strategies st !! name) as [config|]; [|cbn; tauto].
  set (st1 := {| active_strategies := delete name (active_strategies st);
                 strategy_statuses := _;
                 _strategy_tasks := _strategy_tasks st ∖ {[name]};
                 _symbol_precision_cache := _symbol_precision_cache st;
                 submitted := submitted st; sent := sent st;
                 position_queries := position_queries st |}).
  pose proof (flatten_keeps_registries m (c_symbol config) st1) as Hkeep.
  cbv zeta in Hkeep.
  destruct (_flatten_symbol_position m (c_symbol config) st1) as [flat st2].
  cbn [snd] in Hkeep. destruct Hkeep as (Ha & Hs & Ht).
  cbn [snd]. unfold set_statuses.
  cbn [active_strategies strategy_statuses _strategy_tasks].
  rewrite Ha, Hs, Ht. subst st1.
  cbn [active_strategies strategy_statuses _strategy_tasks].
  split; [|split].
  - apply lookup_delete_ne. congruence.
  - rewrite !lookup_alter_ne by congruence. reflexivity.
  - rewrite elem_of_difference, elem_of_singleton. tauto.
Qed.

Lemma stopping_leaves_other_strategies_alone_witness :
  let st := running (crossover "s2" "ETHUSDT") in
  let st' := snd (stop_strategy quiet_market "s1" st) in
  active_strategies st' !! "s2"%string = active_strategies st !! "s2"%string
  /\ strategy_statuses st' !! "s2"%string = strategy_statuses st !! "s2"%string
  /\ ("s2"%string ∈ _strategy_tasks st' <-> "s2"%string ∈ _strategy_tasks st).
Proof.
  intros st.
  apply (stopping_leaves_other_strategies_alone quiet_market "s1" "s2" st).
  discriminate.
Defined.

(** What stopping a registered strategy that has a status leaves
    behind. *)
Lemma stop_strategy_record (m : market) (name : string) (config : StrategyConfig)
    (status : StrategyStatus) (st : logic_state) :
  active_strategies st !! name = Some config ->
  get_strategy_status name st = Some status ->
  exists summary st' status',
    stop_strategy m name st = (Some summary, st')
    /\ active_strategies st' !! name = None
    /\ (name ∉ _strategy_tasks st')
    /\ get_strategy_status name st' = Some status'
    /\ s_active status' = false
    /\ s_message status' = Some (notes summary)
    /\ s_name status' = s_name status /\ s_symbol status' = s_symbol status.
Proof.
  intros Hact Hstatus. unfold stop_strategy, get_strategy_status in *.
  rewrite Hact.
  set (st1 := {| active_strategies := delete name (active_strategies st);
                 strategy_statuses := _;
                 _strategy_tasks := _strategy_tasks st ∖ {[name]};
                 _symbol_precision_cache := _symbol_precision_cache st;
                 submitted := submitted st; sent := sent st;
                 position_queries := position_queries st |}).
  pose proof (flatten_keeps_registries m (c_symbol config) st1) as Hkeep.
  cbv zeta in Hkeep.
  destruct (_flatten_symbol_position m (c_symbol config) st1) as [flat st2].
  cbn [snd] in Hkeep. destruct Hkeep as (Ha & Hs & Ht).
  eexists _, _, _. split; [reflexivity|].
  unfold set_statuses. cbn [active_strategies strategy_statuses _strategy_tasks notes].
  rewrite Ha, Hs, Ht. subst st1. cbn [active_strategies strategy_statuses _strategy_tasks].
  split; [apply lookup_delete_eq|].
  split; [rewrite elem_of_difference, elem_of_singleton; tauto|].
  rewrite !lookup_alter_eq, Hstatus. cbn [fmap option_fmap option_map].
  split; [reflexivity|].
  destruct (f_last_action flat); cbn; repeat split.
Qed.

(** A stopped strategy stays on record: it leaves the registry of active
    strategies, but its status is still there to be queried, now inactive
    and with the outcome of the flatten attempt as its message. *)
Theorem stopped_strategy_stays_on_record :
  forall (m : market) (name : string) (config : StrategyConfig)
         (status : StrategyStatus) (st : logic_state),
    active_strategies st !! name = Some config ->
    get_strategy_status name st = Some status ->
    exists summary st' status',
      stop_strategy m name st = (Some summary, st')
      /\ active_strategies st' !! name = None
      /\ get_strategy_status name st' = Some status'
      /\ s_active status' = false
      /\ s_message status' = Some (notes summary)
      /\ s_name status' = s_name status /\ s_symbol status' = s_symbol status.
Proof.
  intros m name config status st Hact Hstatus.
  destruct (stop_strategy_record m name config status st Hact Hstatus)
    as (summary & st' & status' & Hstop & Hgone & _ & Hrec).
  exists summary, st', status'. auto.
Qed.

Lemma stopped_strategy_stays_on_record_witness :
  exists summary st' status',
    stop_strategy quiet_market "s1" (running (crossover "s1" "BTCUSDT"))
    = (Some summary, st')
    /\ active_strategies st' !! "s1"%string = None
    /\ get_strategy_status "s1" st' = Some status'
    /\ s_active status' = false
    /\ s_message status' = Some (notes summary)
    /\ s_name status' = "s1"%string /\ s_symbol status' = "BTCUSDT"%string.
Proof.
  exact (stopped_strategy_stays_on_record quiet_market "s1" (crossover "s1" "BTCUSDT")
           _ (running (crossover "s1" "BTCUSDT")) eq_refl eq_refl).
Defined.

(** Starting a strategy under a name that is neither registered nor
    running registers its configuration, marked active whatever flag it
    came with, and a task for it; a second start is refused as long as
    that task has not finished; and stopping the strategy takes both the
    registry of strategies and the set of tasks back to what they were
    before the start. *)
Theorem start_then_stop_restores_the_registries :
  forall (m : market) (done : string -> bool) (config : StrategyConfig)
         (st : logic_state),
    active_strategies st !! c_name config = None ->
    c_name config ∉ _strategy_tasks st ->
    let st1 := snd (start_strategy done config st) in
    fst (start_strategy done config st) = true
    /\ active_strategies st1 !! c_name config = Some (activated config)
    /\ c_name config ∈ _strategy_tasks st1
    /\ (done (c_name config) = false -> start_strategy done config st1 = (false, st1))
    /\ exists summary st2,
        stop_strategy m (c_name config) st1 = (Some summary, st2)
        /\ active_strategies st2 = active_strategies st
        /\ _strategy_tasks st2 = _strategy_tasks st.
Proof.
  intros m done config st Hfree Htask. cbv zeta.
  assert (Hstart : start_strategy done config st
                   = (true,
                      {| active_strategies :=
                           <[c_name config := activated config]> (active_strategies st);
                         strategy_statuses := strategy_statuses st;
                         _strategy_tasks := {[c_name config]} ∪ _strategy_tasks st;
                         _symbol_precision_cache := _symbol_precision_cache st;
                         submitted := submitted st; sent := sent st;
                         position_queries := position_queries st |})).
  { unfold start_strategy. rewrite bool_decide_eq_false_2 by exact Htask. reflexivity. }
  rewrite Hstart. cbn [fst snd].
  set (st1 := {| active_strategies := _; strategy_statuses := strategy_statuses st;
                 _strategy_tasks := _; _symbol_precision_cache := _;
                 submitted := _; sent := _; position_queries := _ |}).
  assert (Hreg : active_strategies st1 !! c_name config = Some (activated config))
    by apply lookup_insert_eq.
  assert (Hin : c_name config ∈ _strategy_tasks st1) 
    by (subst st1; cbn; apply elem_of_union_l, elem_of_singleton; reflexivity).
  split; [reflexivity|]. split; [exact Hreg|]. split; [exact Hin|]. split.
  - intros Hrunning. unfold start_strategy.
    rewrite bool_decide_eq_true_2 by exact Hin. rewrite Hrunning. reflexivity.
  - unfold stop_strategy. rewrite Hreg.
    set (st1' := {| active_strategies := delete (c_name config) (active_strategies st1);
                    strategy_statuses := _; _strategy_tasks := _;
                    _symbol_precision_cache := _; submitted := _; sent := _;
                    position_queries := _ |}).
    pose proof (flatten_keeps_registries m (c_symbol (activated config)) st1') as Hkeep.
    cbv zeta in Hkeep.
    destruct (_flatten_symbol_position m (c_symbol (activated config)) st1')
      as [flat st2].
    cbn [snd] in Hkeep. destruct Hkeep as (Ha & _ & Ht).
    eexists _, _. split; [reflexivity|].
    unfold set_statuses. cbn [active_strategies _strategy_tasks].
    rewrite Ha, Ht. subst st1' st1. cbn [active_strategies _strategy_tasks].
    split.
    + apply delete_insert_id. exact Hfree.
    + apply set_eq. intros x.
      rewrite elem_of_difference, elem_of_union, !elem_of_singleton.
      split; [tauto|]. intros Hx. split; [auto|]. intros ->. contradiction.
Qed.

Lemma start_then_stop_restores_the_registries_witness :
  let st := idle_state ∅ in
  let st1 := snd (start_strategy (fun _ => false) (crossover "s1" "BTCUSDT") st) in
  exists summary st2,
    stop_strategy quiet_market "s1" st1 = (Some summary, st2)
    /\ active_strategies st2 = active_strategies st
    /\ _strategy_tasks st2 = _strategy_tasks st.
Proof.
  intros st st1.
  refine (proj2 (proj2 (proj2 (proj2
            (start_then_stop_restores_the_registries quiet_market (fun _ => false)
               (crossover "s1" "BTCUSDT") st _ _))))).
  - apply lookup_empty.
  - apply not_elem_of_empty.
Defined.

(** Starting a strategy again under the name of one that was stopped is
    answered with the status of the stopped run: the endpoint registers
    and starts the new strategy, but the status on record for the name is
    still the old one (the new task has not run yet), so the answer says
    inactive and carries the message of the last flatten attempt. *)
Theorem restart_is_answered_with_the_old_status :
  forall (m : market) (done : string -> bool) (old config : StrategyConfig)
         (status : StrategyStatus) (st : logic_state)
         (short_ema_period long_ema_period : Z) (quantity_per_trade : float),
    active_strategies st !! c_name config = Some old ->
    get_strategy_status (c_name config) st = Some status ->
    c_short_ema_period config = Some short_ema_period ->
    c_long_ema_period config = Some long_ema_period ->
    c_quantity_per_trade config = Some quantity_per_trade ->
    exists summary st1 stale st2,
      stop_strategy m (c_name config) st = (Some summary, st1)
      /\ create_and_start_strategy done config st1 = (inr (StatusOnRecord stale), st2)
      /\ s_active stale = false
      /\ s_message stale = Some (notes summary)
      /\ active_strategies st2 !! c_name config = Some (activated config).
Proof.
  intros m done old config status st sp lp qty Hact Hstatus Hsp Hlp Hq.
  destruct (stop_strategy_record m (c_name config) old status st Hact Hstatus)
    as (summary & st1 & stale & Hstop & Hgone & Htask & Hrec & Hinactive & Hmsg & _).
  exists summary, st1, stale. eexists. split; [exact Hstop|].
  unfold create_and_start_strategy. rewrite Hgone, Hsp, Hlp, Hq.
  unfold start_strategy. rewrite bool_decide_eq_false_2 by exact Htask.
  cbn [andb snd strategy_statuses active_strategies].
  unfold get_strategy_status in Hrec. rewrite Hrec.
  split; [reflexivity|]. split; [exact Hinactive|]. split; [exact Hmsg|].
  apply lookup_insert_eq.
Qed.

Lemma restart_is_answered_with_the_old_status_witness :
  exists summary st1 stale st2,
    stop_strategy quiet_market "s1" (running (crossover "s1" "BTCUSDT"))
    = (Some summary, st1)
    /\ create_and_start_strategy (fun _ => false) (crossover "s1" "BTCUSDT") st1
       = (inr (StatusOnRecord stale), st2)
    /\ s_active stale = false
    /\ s_message stale = Some (notes summary)
    /\ active_strategies st2 !! "s1"%string = Some (activated (crossover "s1" "BTCUSDT")).
Proof.
  exact (restart_is_answered_with_the_old_status quiet_market (fun _ => false)
           (crossover "s1" "BTCUSDT") (crossover "s1" "BTCUSDT") _
           (running (crossover "s1" "BTCUSDT")) 1 2 0.001%float
           eq_refl eq_refl eq_refl eq_refl eq_refl).
Defined.

(** ** The strategy loop: how an iteration ends *)

Section IterationFacts.
Variable mk_ : market.

Lemma signal_order_effects (config : StrategyConfig) (side : string) (st : logic_state) :
  let st' := signal_order mk_ config side st in
  submitted st' = submitted st ++ [signal_intent config side]
  /\ active_strategies st' = active_strategies st
  /\ exists action,
      strategy_statuses st'
      = alter (with_last_action action) (c_name config) (strategy_statuses st).
Proof.
  cbv zeta. unfold signal_order.
  pose proof (place_order_effects mk_ st (c_symbol config) side "MARKET"
                (c_quantity_per_trade config) None None false) as Heff.
  cbv zeta in Heff.
  destruct (place_order mk_ st (c_symbol config) side "MARKET"
              (c_quantity_per_trade config) None None false) as [answer st1].
  cbn [snd] in Heff. destruct Heff as (Hsub & Ha & Hs & _).
  unfold set_statuses. cbn [submitted active_strategies strategy_statuses].
  rewrite Hs. repeat split; try assumption. eexists. reflexivity.
Qed.

(** With as many klines as the longer period asks for, both averages are
    there, or one of them raises. *)
Lemma sma_not_missing (p : Z) (closes : list float) :
  (p <= Z.of_nat (length closes))%Z -> sma p closes <> ret None.
Proof.
  intros Hp. unfold sma.
  replace (p <=? Z.of_nat (length closes))%Z with true by (symmetry; apply Z.leb_le; lia).
  destruct (p =? 0)%Z; discriminate.
Qed.

End IterationFacts.

(** An iteration of the strategy loop never ends the task as long as the
    strategy has a status: whatever the exchange answers or raises, the
    iteration ends in a sleep of 10 or 30 seconds; it submits one order
    at most, a BUY or a SELL of the configured quantity, leaves the
    registry of active strategies alone, and the status is still there
    afterwards. *)
Theorem strategy_iteration_ends_in_a_sleep :
  forall (m : market) (config : StrategyConfig) (st : logic_state)
         (status : StrategyStatus),
    strategy_statuses st !! c_name config = Some status ->
    exists (st' : logic_state) (seconds : Z),
      strategy_iteration m config st = (st', ret seconds)
      /\ (seconds = 10%Z \/ seconds = 30%Z)
      /\ (submitted st' = submitted st
          \/ submitted st' = submitted st ++ [signal_intent config "BUY"]
          \/ submitted st' = submitted st ++ [signal_intent config "SELL"])
      /\ active_strategies st' = active_strategies st
      /\ exists status', strategy_statuses st' !! c_name config = Some status'.
Proof.
  intros m config st status Hst. unfold strategy_iteration. rewrite Hst.
  destruct (signals m config) as [e|[msg|short_sma long_sma price]].
  - eexists _, _. split; [reflexivity|]. split; [right; reflexivity|].
    split; [left; reflexivity|]. split; [reflexivity|].
    unfold set_statuses. cbn [strategy_statuses].
    rewrite lookup_alter_eq, Hst. eexists. reflexivity.
  - eexists _, _. split; [reflexivity|]. split; [left; reflexivity|].
    split; [left; reflexivity|]. split; [reflexivity|].
    unfold set_statuses. cbn [strategy_statuses].
    rewrite lookup_alter_eq, Hst. eexists. reflexivity.
  - unfold query_positions. cbv beta iota zeta.
    set (st2 := {| active_strategies := _; strategy_statuses := _; _strategy_tasks := _;
                   _symbol_precision_cache := _; submitted := _; sent := _;
                   position_queries := _ |}).
    assert (Hst2 : exists s2, strategy_statuses st2 !! c_name config = Some s2).
    { subst st2. unfold set_statuses. cbn [strategy_statuses].
      rewrite lookup_alter_eq, Hst. eexists. reflexivity. }
    assert (Hsub2 : submitted st2 = submitted st) by reflexivity.
    assert (Hact2 : active_strategies st2 = active_strategies st) by reflexivity.
    clearbody st2. destruct Hst2 as [s2 Hs2].
    destruct (buy_signal _ _ _); [|destruct (sell_signal _ _ _)];
      (eexists _, _; split; [reflexivity|]; split; [right; reflexivity|]);
      cbn [set_statuses submitted active_strategies strategy_statuses].
    + destruct (signal_order_effects m config "BUY" st2) as (Hsub & Hact & action & Hstat).
      rewrite Hsub, Hact, Hstat, Hsub2, Hact2.
      split; [right; left; reflexivity|]. split; [reflexivity|].
      rewrite !lookup_alter_eq, Hs2. eexists. reflexivity.
    + destruct (signal_order_effects m config "SELL" st2) as (Hsub & Hact & action & Hstat).
      rewrite Hsub, Hact, Hstat, Hsub2, Hact2.
      split; [right; right; reflexivity|]. split; [reflexivity|].
      rewrite !lookup_alter_eq, Hs2. eexists. reflexivity.
    + rewrite Hsub2, Hact2.
      split; [left; reflexivity|]. split; [reflexivity|].
      rewrite !lookup_alter_eq, Hs2. eexists. reflexivity.
Qed.

Lemma strategy_iteration_ends_in_a_sleep_witness :
  exists (st' : logic_state) (seconds : Z),
    strategy_iteration (short_market (raise OtherException)) (crossover "s1" "BTCUSDT")
      (running (crossover "s1" "BTCUSDT"))
    = (st', ret seconds)
    /\ (seconds = 10%Z \/ seconds = 30%Z)
    /\ (submitted st' = []
        \/ submitted st' = [] ++ [signal_intent (crossover "s1" "BTCUSDT") "BUY"]
        \/ submitted st' = [] ++ [signal_intent (crossover "s1" "BTCUSDT") "SELL"])
    /\ active_strategies st' = active_strategies (running (crossover "s1" "BTCUSDT"))
    /\ exists status', strategy_statuses st' !! "s1"%string = Some status'.
Proof.
  exact (strategy_iteration_ends_in_a_sleep (short_market (raise OtherException))
           (crossover "s1" "BTCUSDT") (running (crossover "s1" "BTCUSDT")) _ eq_refl).
Defined.

(** The second data check of the loop is dead: once the klines are as
    many as the longer period, both averages are computed (or computing
    them raises), so the wait with the message "Not enough data for SMA
    calculation." is never taken. *)
Theorem sma_wait_is_never_taken :
  forall (m : market) (config : StrategyConfig),
    signals m config <> ret (Waiting NotEnoughDataSMA).
Proof.
  intros m config. unfold signals.
  destruct (c_short_ema_period config) as [sp|]; [|discriminate].
  destruct (c_long_ema_period config) as [lp|]; [|discriminate].
  destruct (futures_klines m (c_symbol config) (Z.max sp lp + 5)) as [e|klines];
    [discriminate|].
  unfold ret at 1, bind at 1.
  destruct (Z.of_nat (length klines) <? Z.max sp lp)%Z eqn:Hlen; [discriminate|].
  apply Z.ltb_ge in Hlen.
  destruct (close_prices klines) as [e|closes] eqn:Hc; [discriminate|].
  unfold ret at 1, bind at 1.
  pose proof (close_prices_length klines closes Hc) as Hcl.
  pose proof (sma_not_missing sp closes ltac:(lia)) as Hshort.
  pose proof (sma_not_missing lp closes ltac:(lia)) as Hlong.
  destruct (sma sp closes) as [e|[s|]]; [discriminate| |exfalso; apply Hshort; reflexivity].
  unfold bind at 1.
  destruct (sma lp closes) as [e|[l|]]; [discriminate| |exfalso; apply Hlong; reflexivity].
  unfold bind at 1.
  destruct (mark_price m (c_symbol config)); discriminate.
Qed.

(** The position a strategy acts on need not be its own.  When the
    exchange answers the position query with records none of which is
    for the strategy's symbol, [get_positions] falls back to the whole
    list and the loop takes the amount of its first record: a position
    held in another symbol decides over the signal. *)
Theorem strategy_reads_the_first_record_returned :
  forall (m : market) (config : StrategyConfig) (first : position_record)
         (rest : list position_record),
    c_symbol config <> ""%string ->
    futures_position_information m (Some (c_symbol config)) = ret (Records (first :: rest)) ->
    (forall p, In p (first :: rest) -> p_symbol p <> Some (c_symbol config)) ->
    current_position m config = position_amount (ret [first]).
Proof.
  intros m config first rest Hsym Hinfo Hother.
  unfold current_position, get_positions, get_position_info.
  assert (Hgiven : symbol_given (Some (c_symbol config)) = true).
  { simpl. destruct (String.eqb_spec (c_symbol config) ""); [contradiction | reflexivity]. }
  rewrite Hgiven, Hinfo. unfold ret at 1, bind. cbv beta iota.
  rewrite filter_none; [reflexivity|].
  intros p Hp. unfold symbol_matches. apply bool_decide_eq_false, Hother, Hp.
Qed.

Lemma strategy_reads_the_first_record_returned_witness :
  current_position eth_only_market (crossover "s1" "BTCUSDT") = 0.5%float
  /\ submitted (fst (strategy_iteration eth_only_market (crossover "s1" "BTCUSDT")
                       (running (crossover "s1" "BTCUSDT"))))
     = [].
Proof.
  split.
  - rewrite (strategy_reads_the_first_record_returned eth_only_market
               (crossover "s1" "BTCUSDT")
               {| p_symbol := Some "ETHUSDT"%string;
                  p_positionAmt := Num (mk false 5 (-1)) |} []).
    + vm_compute. reflexivity.
    + discriminate.
    + reflexivity.
    + intros p [<- | []]. discriminate.
  - vm_compute. reflexivity.
Defined.

Lemma last_closes_window (p : Z) (older window : list float) :
  (0 < p)%Z -> Z.of_nat (length window) = p ->
  last_closes p (older ++ window) = window.
Proof.
  intros Hp Hlen. unfold last_closes.
  replace (0 <? p)%Z with true by (symmetry; apply Z.ltb_lt; exact Hp).
  rewrite length_app.
  replace (length older + length window - Z.to_nat p)%nat with (length older) by lia.
  rewrite skipn_app, skipn_all, Nat.sub_diag. reflexivity.
Qed.

(** A moving average reads the last [p] closes and nothing else: however
    many older klines the exchange returns with them (the loop asks for 5
    more than the longer period), the average is the sum of the last [p]
    closes, added up from the oldest, divided by [p]. *)
Theorem sma_reads_the_last_closes_only :
  forall (p : Z) (older window : list float),
    (0 < p)%Z ->
    Z.of_nat (length window) = p ->
    sma p (older ++ window)
    = ret (Some (PrimFloat.div (sum_floats window) (float_of_int p))).
Proof.
  intros p older window Hp Hlen.
  rewrite sma_ready; [|exact Hp|rewrite length_app; lia].
  rewrite last_closes_window by assumption. reflexivity.
Qed.

Lemma sma_reads_the_last_closes_only_witness :
  sma 2 ([1%float; 7%float] ++ [2%float; 3%float]) = ret (Some 2.5%float).
Proof.
  rewrite (sma_reads_the_last_closes_only 2 [1%float; 7%float] [2%float; 3%float]);
    [vm_compute; reflexivity | lia | reflexivity].
Defined.

(** ** TWAP: failures, cancellations and the bookkeeping *)

Lemma accumulate_S {A} `{Number A} (x q : A) (k : nat) :
  accumulate x q (S k) = add (accumulate x q k) q.
Proof.
  unfold accumulate. cbn [repeat]. rewrite repeat_cons, fold_left_app. reflexivity.
Qed.

Lemma repeat_snoc {X} (x : X) (l : list X) (k : nat) :
  (l ++ [x]) ++ repeat x k = l ++ repeat x (S k).
Proof. rewrite <- app_assoc. reflexivity. Qed.

Section TwapFacts2.
Context {A : Type} `{Number A}.
Variable ex : exchange A.
Variables (order_id symbol side : string) (total_quantity : A)
          (duration_minutes interval_seconds : Z).

Local Abbreviation n := (num_slices duration_minutes interval_seconds).
Local Abbreviation q := (quantity_per_slice total_quantity duration_minutes interval_seconds).
Local Abbreviation sr := (slice_request symbol side q).
Local Abbreviation iteration :=
  (twap_iteration ex order_id symbol side total_quantity duration_minutes interval_seconds).
Local Abbreviation resume :=
  (twap_resume ex order_id symbol side total_quantity duration_minutes interval_seconds).
Local Abbreviation run :=
  (twap_run ex order_id symbol side total_quantity duration_minutes interval_seconds).
Local Abbreviation step :=
  (twap_step ex order_id symbol side total_quantity duration_minutes interval_seconds).
Local Abbreviation consistent := (twap_consistent order_id symbol side q n).

(** The top of an iteration of an active plan: the request goes out. *)
Lemma twap_iteration_attempts w k e :
  (k < n)%Z ->
  active_twap_orders w !! order_id = Some e ->
  t_status e = Active ->
  iteration k w
  = ({| active_twap_orders := active_twap_orders w; requests := requests w ++ [sr] |},
     PlacingOrder k (ex (requests w) sr)).
Proof.
  intros Hk Hw Hact. unfold twap_iteration.
  replace (k <? n)%Z with true by (symmetry; apply Z.ltb_lt; lia).
  rewrite Hw. destruct (decide (t_status e = Active)) as [_|Hn]; [|contradiction].
  reflexivity.
Qed.

(** The top of an iteration that finds the plan no longer active, or no
    slice left. *)
Lemma twap_iteration_leaves w k e :
  active_twap_orders w !! order_id = Some e ->
  ~ (k < n)%Z \/ t_status e <> Active ->
  iteration k w
  = ({| active_twap_orders := <[order_id := with_status Completed e]> (active_twap_orders w);
        requests := requests w |},
     Finished (ret {| r_status := Completed; r_total_quantity := total_quantity;
                      r_executed_quantity := t_executed_quantity e;
                      r_num_slices := n; r_orders := t_orders e |})).
Proof.
  intros Hw Hleave. unfold twap_iteration, twap_after_loop. rewrite Hw.
  destruct (k <? n)%Z eqn:Hk; [|reflexivity].
  destruct (decide (t_status e = Active)) as [Ha|]; [|reflexivity].
  apply Z.ltb_lt in Hk. destruct Hleave; contradiction.
Qed.

(** From the top of iteration [k]: [m] slices are filled, the next one
    fails. *)
Lemma twap_slices_until_failure (err : exn) :
  forall (m : nat) (k : Z) (w : world A) (e : twap_entry A),
    (k + Z.of_nat m < n)%Z ->
    active_twap_orders w !! order_id = Some e ->
    t_status e = Active ->
    (forall i, (i < m)%nat -> exists order, ex (requests w ++ repeat sr i) sr = inr order) ->
    ex (requests w ++ repeat sr m) sr = inl err ->
    exists w' e',
      run (2 * m + 1) (iteration k w) = (w', Finished (raise err))
      /\ requests w' = requests w ++ repeat sr (S m)
      /\ active_twap_orders w' !! order_id = Some e'
      /\ t_status e' = Error
      /\ t_executed_quantity e' = accumulate (t_executed_quantity e) q m
      /\ length (t_orders e') = (length (t_orders e) + m)%nat.
Proof.
  induction m as [|m IH]; intros k w e Hk Hw Hact Hfill Hfail.
  - rewrite (twap_iteration_attempts w k e ltac:(lia) Hw Hact).
    cbn [repeat] in Hfail. rewrite app_nil_r in Hfail. rewrite Hfail.
    eexists _, (with_status Error e). split; [reflexivity|].
    cbn [requests active_twap_orders]. repeat split.
    + rewrite lookup_alter_eq, Hw. reflexivity.
    + cbn. lia.
  - destruct (Hfill O ltac:(lia)) as [order Hans].
    cbn [repeat] in Hans. rewrite app_nil_r in Hans.
    rewrite (twap_iteration_attempts w k e ltac:(lia) Hw Hact), Hans.
    replace (2 * S m + 1)%nat with (S (S (2 * m + 1))) by lia.
    rewrite twap_run_S.
    rewrite (twap_resume_placed ex order_id symbol side total_quantity duration_minutes
               interval_seconds _ k order e) by exact Hw.
    cbn [active_twap_orders requests]. cbv zeta.
    replace (k <? n - 1)%Z with true by (symmetry; apply Z.ltb_lt; lia).
    rewrite twap_run_S.
    cbn [twap_resume].
    set (e1 := with_slice total_quantity duration_minutes interval_seconds k order e).
    set (w1 := {| active_twap_orders := <[order_id := e1]> (active_twap_orders w);
                  requests := requests w ++ [sr] |}).
    assert (Hw1 : active_twap_orders w1 !! order_id = Some e1) by apply lookup_insert_eq.
    assert (Hact1 : t_status e1 = Active) by exact Hact.
    destruct (IH (k + 1)%Z w1 e1 ltac:(lia) Hw1 Hact1)
      as (w' & e' & Hrun & Hreq & Hreg & Hst & Hsum & Hlen).
    { intros i Hi. subst w1. cbn [requests]. rewrite repeat_snoc. apply Hfill. lia. }
    { subst w1. cbn [requests]. rewrite repeat_snoc. exact Hfail. }
    exists w', e'. split; [exact Hrun|]. repeat split.
    + rewrite Hreq. subst w1. cbn [requests]. apply repeat_snoc.
    + exact Hreg.
    + exact Hst.
    + rewrite Hsum. reflexivity.
    + rewrite Hlen. subst e1. cbn [with_slice t_orders]. rewrite length_app. simpl. lia.
Qed.

(** The invariant holds when the call reaches its first suspension
    point. *)
Lemma twap_consistent_at_start (w : world A) :
  interval_seconds <> 0%Z ->
  consistent (requests w)
    (execute_twap_order ex order_id symbol side total_quantity duration_minutes
       interval_seconds w).
Proof.
  intros Hs. unfold execute_twap_order.
  replace (interval_seconds =? 0)%Z with false by (symmetry; apply Z.eqb_neq; exact Hs).
  assert (Hn : (1 <= n)%Z) by (unfold num_slices, slice_count; lia).
  set (entry := {| t_symbol := symbol; t_side := side; t_total_quantity := total_quantity;
                   t_executed_quantity := of_int 0; t_num_slices := n;
                   t_current_slice := 0; t_status := Active; t_orders := [] |}).
  rewrite (twap_iteration_attempts _ 0 entry ltac:(lia) (lookup_insert_eq _ _ _) eq_refl).
  exists entry, O, 1%nat. cbn [fst snd active_twap_orders requests].
  split; [apply lookup_insert_eq|]. repeat split; lia.
Qed.

(** Every event keeps it. *)
Lemma twap_step_consistent (before : list (order_params A))
    (st : world A * twap_task A) (ev : twap_event) :
  consistent before st -> consistent before (step st ev).
Proof.
  destruct st as [w task].
  intros (e & placed & sent_ & Hw & Hreq & Hle & Hlen & Hcur & Hsum & Htask).
  cbn [fst snd] in *. destruct ev.
  - (* the coroutine is resumed *)
    cbn [twap_step]. destruct task as [i [err|order] | i | [err|report]].
    + destruct Htask as [-> ->]. cbn [twap_resume twap_fail].
      exists (with_status Error e), placed, (S placed).
      unfold twap_fail. cbn [fst snd active_twap_orders requests].
      rewrite lookup_alter_eq, Hw. repeat split; auto.
    + destruct Htask as [-> ->].
      rewrite (twap_resume_placed ex order_id symbol side total_quantity duration_minutes
                 interval_seconds w (Z.of_nat placed) order e Hw).
      cbv zeta.
      set (e1 := with_slice total_quantity duration_minutes interval_seconds
                   (Z.of_nat placed) order e).
      set (w1 := {| active_twap_orders := <[order_id := e1]> (active_twap_orders w);
                    requests := requests w |}).
      assert (Hw1 : active_twap_orders w1 !! order_id = Some e1) by apply lookup_insert_eq.
      assert (Hlen1 : length (t_orders e1) = S placed).
      { subst e1. cbn [with_slice t_orders]. rewrite length_app. simpl. lia. }
      assert (Hcur1 : t_current_slice e1 = Z.of_nat (S placed)).
      { subst e1. cbn [with_slice t_current_slice]. lia. }
      assert (Hsum1 : t_executed_quantity e1 = accumulate (of_int 0) q (S placed)).
      { subst e1. cbn [with_slice t_executed_quantity]. rewrite Hsum, accumulate_S.
        reflexivity. }
      destruct (Z.of_nat placed <? n - 1)%Z eqn:Hlt.
      * apply Z.ltb_lt in Hlt. exists e1, (S placed), (S placed).
        cbn [fst snd]. repeat split; auto; lia.
      * apply Z.ltb_ge in Hlt.
        rewrite (twap_iteration_leaves w1 _ e1 Hw1) by (left; lia).
        exists (with_status Completed e1), (S placed), (S placed).
        cbn [fst snd active_twap_orders requests].
        rewrite lookup_insert_eq. unfold ret. repeat split; auto; try reflexivity; try lia.
    + destruct Htask as (Hi & -> & Hlt). cbn [twap_resume].
      destruct (decide (t_status e = Active)) as [Hact|Hact].
      * rewrite (twap_iteration_attempts w (i + 1) e ltac:(lia) Hw Hact).
        exists e, placed, (S placed). cbn [fst snd active_twap_orders requests].
        repeat split; auto; try lia.
        rewrite Hreq, <- app_assoc. f_equal.
        change [sr] with (repeat sr 1). rewrite <- repeat_app.
        f_equal. lia.
      * rewrite (twap_iteration_leaves w (i + 1) e Hw) by (right; exact Hact).
        exists (with_status Completed e), placed, placed.
        cbn [fst snd active_twap_orders requests].
        rewrite lookup_insert_eq. unfold ret. repeat split; auto; try reflexivity; try lia.
    + destruct Htask as [-> Hst]. cbn [twap_resume].
      exists e, placed, (S placed). cbn [fst snd]. repeat split; auto.
    + destruct Htask as (-> & Hst & Hq & Ho). cbn [twap_resume].
      exists e, placed, placed. cbn [fst snd]. repeat split; auto.
  - (* a caller cancels the plan *)
    cbn [twap_step fst snd]. unfold cancel_twap_order. rewrite Hw.
    destruct (decide (t_status e = Active)) as [Hact|Hact].
    + exists (with_status Cancelled e), placed, sent_.
      cbn [fst snd active_twap_orders requests].
      rewrite lookup_insert_eq. repeat split; auto.
      destruct task as [i answer | i | [err|report]]; auto.
      * destruct Htask as [_ Hst]. rewrite Hst in Hact. discriminate Hact.
      * destruct Htask as (_ & Hst & _). rewrite Hst in Hact. discriminate Hact.
    + exists e, placed, sent_. cbn [fst snd]. repeat split; auto.
Qed.

Lemma twap_schedule_consistent (before : list (order_params A)) :
  forall (events : list twap_event) (st : world A * twap_task A),
    consistent before st -> consistent before (fold_left step events st).
Proof.
  induction events as [|ev events IH]; intros st Hst; [exact Hst|].
  cbn [fold_left]. apply IH, twap_step_consistent, Hst.
Qed.

End TwapFacts2.

(** A slice the exchange refuses ends the plan.  When the first [j]
    slices are filled and the next one is answered with an error, the call
    raises that error after [j + 1] requests, the status of the plan
    reads error, the [j] filled slices stay booked (orders and executed
    quantity), and no further slice is attempted. *)
Theorem twap_failed_slice_ends_the_plan :
  forall (A : Type) (N : Number A) (ex : exchange A) (order_id symbol side : string)
         (total : A) (d s : Z) (w : world A) (j : nat) (err : exn),
    s <> 0%Z ->
    (Z.of_nat j < num_slices d s)%Z ->
    let request := slice_request symbol side (quantity_per_slice total d s) in
    (forall i, (i < j)%nat ->
       exists order, ex (requests w ++ repeat request i) request = inr order) ->
    ex (requests w ++ repeat request j) request = inl err ->
    exists w' e,
      twap_run ex order_id symbol side total d s (2 * j + 1)
        (execute_twap_order ex order_id symbol side total d s w)
      = (w', Finished (raise err))
      /\ requests w' = requests w ++ repeat request (S j)
      /\ get_twap_status order_id w' = Some e
      /\ t_status e = Error
      /\ length (t_orders e) = j
      /\ t_executed_quantity e = accumulate (of_int 0) (quantity_per_slice total d s) j.
Proof.
  intros A N ex order_id symbol side total d s w j err Hs Hj request Hfill Hfail.
  unfold execute_twap_order.
  replace (s =? 0)%Z with false by (symmetry; apply Z.eqb_neq; exact Hs).
  set (entry := {| t_symbol := symbol; t_side := side; t_total_quantity := total;
                   t_executed_quantity := of_int 0; t_num_slices := num_slices d s;
                   t_current_slice := 0; t_status := Active; t_orders := [] |}).
  set (w0 := {| active_twap_orders := <[order_id := entry]> (active_twap_orders w);
                requests := requests w |}).
  destruct (twap_slices_until_failure ex order_id symbol side total d s err j 0%Z w0 entry)
    as (w' & e' & Hrun & Hreq & Hreg & Hst & Hsum & Hlen).
  { lia. }
  { apply lookup_insert_eq. }
  { reflexivity. }
  { exact Hfill. }
  { exact Hfail. }
  exists w', e'. split; [exact Hrun|]. repeat split; assumption.
Qed.

Lemma twap_failed_slice_ends_the_plan_witness :
  exists w' e,
    twap_run (rejecting_exchange [1%nat]) "plan" "BTCUSDT" "BUY" 0.003%float 3 60 3
      (execute_twap_order (rejecting_exchange [1%nat]) "plan" "BTCUSDT" "BUY"
         0.003%float 3 60 empty_world)
    = (w', Finished (raise (BinanceAPIException (-2019) "Margin is insufficient.")))
    /\ length (requests w') = 2%nat
    /\ get_twap_status "plan" w' = Some e
    /\ t_status e = Error
    /\ length (t_orders e) = 1%nat.
Proof.
  destruct (twap_failed_slice_ends_the_plan float float_number
              (rejecting_exchange [1%nat]) "plan" "BTCUSDT" "BUY" 0.003%float 3 60
              empty_world 1 (BinanceAPIException (-2019) "Margin is insufficient."))
    as (w' & e & Hrun & Hreq & Hreg & Hst & Hlen & _).
  - discriminate.
  - reflexivity.
  - intros i Hi. assert (i = O) by lia. subst i. eexists. reflexivity.
  - reflexivity.
  - exists w', e. split; [exact Hrun|]. rewrite Hreq. repeat split; assumption.
Defined.

(** Whatever happens to a plan in whatever order (the coroutine resumed,
    the plan cancelled, any number of times, against any exchange), it
    never sends anything but its own slice request, never more often than
    the plan has slices, and its entry stays consistent: the orders booked
    are as many as [current_slice] says, at most one request is still
    unanswered or was refused, and the executed quantity is the slice
    quantity added up once per booked order. *)
Theorem twap_never_exceeds_its_slices :
  forall (A : Type) (N : Number A) (ex : exchange A) (order_id symbol side : string)
         (total : A) (d s : Z) (events : list twap_event) (w : world A),
    s <> 0%Z ->
    let q := quantity_per_slice total d s in
    let after := fst (twap_schedule ex order_id symbol side total d s events w) in
    exists (e : twap_entry A) (placed sent_ : nat),
      get_twap_status order_id after = Some e
      /\ requests after = requests w ++ repeat (slice_request symbol side q) sent_
      /\ (Z.of_nat sent_ <= num_slices d s)%Z
      /\ (placed <= sent_ <= S placed)%nat
      /\ length (t_orders e) = placed
      /\ t_current_slice e = Z.of_nat placed
      /\ t_executed_quantity e = accumulate (of_int 0) q placed.
Proof.
  intros A N ex order_id symbol side total d s events w Hs q after.
  pose proof (twap_schedule_consistent ex order_id symbol side total d s (requests w)
                events _ (twap_consistent_at_start ex order_id symbol side total d s w Hs))
    as (e & placed & sent_ & Hw & Hreq & Hle & Hlen & Hcur & Hsum & Htask).
  exists e, placed, sent_. fold q in Hreq, Hsum.
  repeat split; try assumption.
  - destruct (snd _) as [i answer | i | [err|report]]; lia.
  - destruct (snd _) as [i answer | i | [err|report]]; lia.
Qed.

Lemma twap_never_exceeds_its_slices_witness :
  let after :=
    fst (twap_schedule filling_exchange "plan" "BTCUSDT" "BUY" 1.0%float 2 60
           [Resume; Cancel; Resume; Resume; Cancel; Resume] empty_world) in
  exists (e : twap_entry float) (placed sent_ : nat),
    get_twap_status "plan" after = Some e
    /\ requests after
       = [] ++ repeat (slice_request "BTCUSDT" "BUY" (quantity_per_slice 1.0%float 2 60)) sent_
    /\ (Z.of_nat sent_ <= num_slices 2 60)%Z
    /\ (placed <= sent_ <= S placed)%nat
    /\ length (t_orders e) = placed
    /\ t_current_slice e = Z.of_nat placed
    /\ t_executed_quantity e = accumulate (of_int 0) (quantity_per_slice 1.0%float 2 60) placed.
Proof.
  exact (twap_never_exceeds_its_slices float float_number filling_exchange "plan"
           "BTCUSDT" "BUY" 1.0%float 2 60 [Resume; Cancel; Resume; Resume; Cancel; Resume]
           empty_world ltac:(discriminate)).
Defined.

(** Cancelling takes effect once.  [cancel_twap_order] returns True
    exactly when the plan is registered and active; whatever it returned,
    a second call returns False and changes nothing; and a call never
    sends anything nor touches the entry of another plan. *)
Theorem cancelling_takes_effect_once :
  forall (A : Type) (order_id : string) (w : world A),
    let first := cancel_twap_order order_id w in
    (fst first = true <-> t_status <$> get_twap_status order_id w = Some Active)
    /\ cancel_twap_order order_id (snd first) = (false, snd first)
    /\ requests (snd first) = requests w
    /\ forall other, other <> order_id ->
         get_twap_status other (snd first) = get_twap_status other w.
Proof.
  intros A order_id w first. subst first.
  unfold cancel_twap_order, get_twap_status.
  destruct (active_twap_orders w !! order_id) as [e|] eqn:Hw.
  - destruct (decide (t_status e = Active)) as [Hact|Hact].
    + cbn [fst snd active_twap_orders requests]. rewrite lookup_insert_eq.
      split; [|split; [|split]].
      * cbn. rewrite Hact. tauto.
      * destruct (decide (t_status (with_status Cancelled e) = Active)) as [Hc|_];
          [discriminate Hc | reflexivity].
      * reflexivity.
      * intros other Hne. apply lookup_insert_ne. congruence.
    + cbn [fst snd]. rewrite Hw.
      destruct (decide (t_status e = Active)); [contradiction|].
      split; [|auto]. cbn. split; [discriminate|]. intros Heq. congruence.
  - cbn [fst snd]. rewrite Hw. split; [|auto]. cbn. split; discriminate.
Qed.

(** ** Grid placement against any exchange *)

Section GridFacts2.
Context {A : Type} `{Number A}.
Variable ex : exchange A.
Variables (order_id symbol side : string) (quantity lower_price upper_price : A)
          (grid_levels : Z).

Local Abbreviation qpl := (quantity_per_level quantity grid_levels).
Local Abbreviation price := (grid_price lower_price upper_price grid_levels).
Local Abbreviation request := (fun i => level_request symbol side qpl (price i)).
Local Abbreviation loop :=
  (grid_loop ex order_id symbol side quantity lower_price upper_price grid_levels).
Local Abbreviation booked := (booked_level lower_price upper_price grid_levels).

(** The loop sends the requests of a first part of its levels. *)
Lemma grid_loop_requests :
  forall (levels : list Z) (orders : list (placed_level A)) (w : grid_world A),
    exists k : nat,
      (k <= length levels)%nat
      /\ grid_requests (snd (loop levels orders w))
         = grid_requests w ++ map request (firstn k levels).
Proof.
  induction levels as [|i rest IH]; intros orders w.
  - exists O. cbn. rewrite app_nil_r. split; [lia | reflexivity].
  - cbn [grid_loop]. rewrite limit_order_attempt.
    destruct (truthy (price i)).
    + destruct (ex (grid_requests w) (level_request symbol side qpl (price i)))
        as [e|order].
      * destruct e;
          try (exists 1%nat; cbn; split; [lia | reflexivity]).
        destruct (IH orders
                    {| active_grid_orders := active_grid_orders w;
                       grid_requests := grid_requests w ++ [request i] |}) as (k & Hk & Hreq).
        exists (S k). split; [cbn; lia|]. rewrite Hreq. cbn [grid_requests firstn map].
        rewrite <- app_assoc. reflexivity.
      * destruct (IH (orders ++ [{| pl_level := i + 1; pl_price := price i;
                                    pl_order := order |}])
                    {| active_grid_orders :=
                         alter (grid_with_order order) order_id (active_grid_orders w);
                       grid_requests := grid_requests w ++ [request i] |}) as (k & Hk & Hreq).
        exists (S k). split; [cbn; lia|]. rewrite Hreq. cbn [grid_requests firstn map].
        rewrite <- app_assoc. reflexivity.
    + exists O. cbn. rewrite app_nil_r. split; [lia | reflexivity].
Qed.

(** How the loop can end, and what it has booked then. *)
Lemma grid_loop_books :
  forall (levels : list Z) (orders : list (placed_level A)) (w : grid_world A)
         (entry : grid_entry A),
    active_grid_orders w !! order_id = Some entry ->
    g_orders entry = map pl_order orders ->
    Forall booked orders ->
    (forall i, In i levels -> (0 <= i < grid_levels)%Z) ->
    match loop levels orders w with
    | (inl e, w') =>
      is_gateway_error e = false
      /\ exists entry', active_grid_orders w' !! order_id = Some entry'
    | (inr orders', w') =>
      Forall booked orders'
      /\ exists entry',
          active_grid_orders w' !! order_id = Some entry'
          /\ g_orders entry' = map pl_order orders'
    end.
Proof.
  induction levels as [|i rest IH]; intros orders w entry Hw Hbooked Hall Hrange.
  - cbn. split; [exact Hall|]. exists entry. split; assumption.
  - cbn [grid_loop]. rewrite limit_order_attempt.
    assert (Hrest : forall j, In j rest -> (0 <= j < grid_levels)%Z)
      by (intros j Hj; apply Hrange; right; exact Hj).
    destruct (truthy (price i)).
    + destruct (ex (grid_requests w) (level_request symbol side qpl (price i)))
        as [e|order].
      * destruct e; try (split; [reflexivity | exists entry; exact Hw]).
        apply (IH orders _ entry); assumption.
      * apply (IH _ _ (grid_with_order order entry)).
        -- cbn [active_grid_orders]. rewrite lookup_alter_eq, Hw. reflexivity.
        -- cbn [grid_with_order g_orders]. rewrite Hbooked, map_app. reflexivity.
        -- apply Forall_app. split; [exact Hall|]. constructor; [|constructor].
           unfold booked_level. cbn [pl_level pl_price].
           pose proof (Hrange i (or_introl eq_refl)).
           split; [lia|]. f_equal. lia.
        -- exact Hrest.
    + split; [reflexivity | exists entry; exact Hw].
Qed.

End GridFacts2.

(** Whatever the exchange answers or raises, a grid sends nothing but the
    requests of its own levels, in their order and each at most once: what
    has gone out when the call ends is a first part of the planned LIMIT
    orders.  With a level count of zero or less nothing is sent at all. *)
Theorem grid_sends_planned_levels_only :
  forall (A : Type) (N : Number A) (ex : exchange A) (order_id symbol side : string)
         (quantity lower upper : A) (levels : Z) (w : grid_world A),
    let planned :=
      map (fun i => level_request symbol side (quantity_per_level quantity levels)
                      (grid_price lower upper levels i))
        (py_range levels) in
    let after :=
      snd (execute_grid_trading ex order_id symbol side quantity lower upper levels w) in
    exists k : nat,
      (Z.of_nat k <= Z.max 0 levels)%Z
      /\ grid_requests after = grid_requests w ++ firstn k planned.
Proof.
  intros A N ex order_id symbol side quantity lower upper levels w planned after.
  subst after. unfold execute_grid_trading.
  destruct (levels =? 0)%Z.
  - exists O. cbn. rewrite app_nil_r. split; [lia | reflexivity].
  - set (w0 := {| active_grid_orders := _; grid_requests := grid_requests w |}).
    destruct (grid_loop_requests ex order_id symbol side quantity lower upper levels
                (py_range levels) [] w0) as (k & Hk & Hreq).
    rewrite py_range_length in Hk.
    exists k. split; [lia|].
    subst planned. rewrite firstn_map.
    destruct (grid_loop ex order_id symbol side quantity lower upper levels
                (py_range levels) [] w0) as [[e|orders] w1];
      cbn [snd grid_fail grid_requests] in *; exact Hreq.
Qed.

(** The status of a grid tells how the call ended, against any exchange.
    The call raises only what is no gateway error (a gateway error costs
    the level, not the grid), and then the status reads error; when it
    returns, the status reads completed, [orders_placed] counts the
    orders of the report, these are the orders booked in the registry
    entry, in the same order, and each carries the number (from 1) and the
    price of its level. *)
Theorem grid_status_tells_how_the_call_ended :
  forall (A : Type) (N : Number A) (ex : exchange A) (order_id symbol side : string)
         (quantity lower upper : A) (levels : Z) (w : grid_world A),
    levels <> 0%Z ->
    match execute_grid_trading ex order_id symbol side quantity lower upper levels w with
    | (inl e, w') =>
      is_gateway_error e = false
      /\ g_status <$> get_grid_status order_id w' = Some Error
    | (inr report, w') =>
      gr_status report = Completed
      /\ gr_orders_placed report = Z.of_nat (length (gr_orders report))
      /\ Forall (booked_level lower upper levels) (gr_orders report)
      /\ exists entry,
          get_grid_status order_id w' = Some entry
          /\ g_status entry = Completed
          /\ g_orders entry = map pl_order (gr_orders report)
    end.
Proof.
  intros A N ex order_id symbol side quantity lower upper levels w Hl.
  unfold execute_grid_trading.
  replace (levels =? 0)%Z with false by (symmetry; apply Z.eqb_neq; exact Hl).
  set (entry := {| g_symbol := symbol; g_side := side; g_quantity := quantity;
                   g_lower_price := lower; g_upper_price := upper;
                   g_grid_levels := levels; g_status := Active; g_orders := [] |}).
  set (w0 := {| active_grid_orders := <[order_id := entry]> (active_grid_orders w);
                grid_requests := grid_requests w |}).
  pose proof (grid_loop_books ex order_id symbol side quantity lower upper levels
                (py_range levels) [] w0 entry (lookup_insert_eq _ _ _) eq_refl
                (List.Forall_nil _)) as Hloop.
  specialize (Hloop (fun i Hi => proj1 (py_range_spec levels i) Hi)).
  destruct (grid_loop ex order_id symbol side quantity lower upper levels
              (py_range levels) [] w0) as [[e|orders] w1].
  - destruct Hloop as (Hng & entry' & Hw1). unfold grid_fail, get_grid_status.
    cbn [active_grid_orders]. split; [exact Hng|].
    rewrite lookup_alter_eq, Hw1. reflexivity.
  - destruct Hloop as (Hall & entry' & Hw1 & Horders).
    unfold ret. cbn [gr_status gr_orders_placed gr_orders].
    split; [reflexivity|]. split; [reflexivity|]. split; [exact Hall|].
    exists (grid_with_status Completed entry'). unfold get_grid_status.
    cbn [active_grid_orders]. rewrite lookup_alter_eq, Hw1.
    split; [reflexivity|]. split; [reflexivity | exact Horders].
Qed.

Lemma grid_status_tells_how_the_call_ended_witness :
  exists w',
    execute_grid_trading (breaking_exchange 1) "grid" "BTCUSDT" "BUY"
      0.003%float 95000%float 105000%float 3 empty_grid_world
    = (raise OtherException, w')
    /\ g_status <$> get_grid_status "grid" w' = Some Error
    /\ length (grid_requests w') = 2%nat.
Proof.
  pose proof (grid_status_tells_how_the_call_ended float float_number
                (breaking_exchange 1) "grid" "BTCUSDT" "BUY"
                0.003%float 95000%float 105000%float 3 empty_grid_world
                ltac:(discriminate)) as Hend.
  destruct (execute_grid_trading (breaking_exchange 1) "grid" "BTCUSDT" "BUY"
              0.003%float 95000%float 105000%float 3 empty_grid_world)
    as [[e|report] w'] eqn:Hrun.
  - exists w'. destruct Hend as [_ Hst].
    assert (He : e = OtherException /\ length (grid_requests w') = 2%nat).
    { vm_compute in Hrun. injection Hrun as <- <-. split; reflexivity. }
    destruct He as [-> Hlen]. repeat split; assumption.
  - vm_compute in Hrun. discriminate Hrun.
Defined.

(** ** The orders endpoint *)

Section EndpointFacts.
Variable upper : string -> string.
Variable mk_ : market.
Variable stop_limit_api : list stop_limit_params -> stop_limit_params -> result order_response.

Local Abbreviation body := (place_new_order_body upper mk_ stop_limit_api).
Local Abbreviation endpoint := (place_new_order upper mk_ stop_limit_api).

(** What the endpoint raises itself leaves the state alone and comes out
    wrapped. *)
Lemma own_rejection (order_id : string) (rq : OrderRequest) (st : endpoint_state)
    (detail : detail_text) :
  body order_id rq st = (inl (HTTPException status_400 detail), st) ->
  endpoint order_id rq st
  = (inl (HTTPException status_500
            (InternalServerError (HTTPException status_400 detail))), st).
Proof. intros Hbody. unfold place_new_order. rewrite Hbody. reflexivity. Qed.

(** The requests an OCO order adds carry the quantity as given. *)
Lemma oco_sends_raw_quantity (sent0 : list (order_params float)) (symbol side : string)
    (q limit_price stop_price stop_limit_price : float) :
  exists added,
    snd (place_oco_order (futures_create_order mk_) sent0 symbol side q limit_price
           stop_price stop_limit_price) = sent0 ++ added
    /\ (length added <= 2)%nat
    /\ Forall (fun p => o_quantity p = Raw q) added.
Proof.
  unfold place_oco_order, client_place_oco_order.
  rewrite limit_order_attempt.
  destruct (truthy limit_price).
  - destruct (futures_create_order mk_ sent0 _) as [e|first].
    + eexists [_]. cbn [snd]. repeat split; [cbn; lia | repeat constructor].
    + rewrite stop_order_attempt.
      destruct (truthy stop_price).
      * destruct (futures_create_order mk_ _ _) as [e|second]; cbn [snd];
          rewrite <- app_assoc;
          (eexists [_; _]; repeat split; [cbn; lia | repeat constructor]).
      * eexists [_]. cbn [snd]. repeat split; [cbn; lia | repeat constructor].
  - exists []. cbn [snd]. rewrite app_nil_r. repeat split; [cbn; lia | constructor].
Qed.

(** What the [try] block adds to the requests that went out. *)
Lemma body_requests (order_id : string) (rq : OrderRequest) (st : endpoint_state) :
  let order_type := upper (rq_type rq) in
  let after := snd (body order_id rq st) in
  exists added added_stop_limit,
    sent (logic after) = sent (logic st) ++ added
    /\ stop_limit_sent after = stop_limit_sent st ++ added_stop_limit
    /\ (In order_type ["MARKET"; "LIMIT"; "STOP_MARKET"]%string ->
        (length added <= 1)%nat /\ added_stop_limit = []
        /\ Forall (fun p => exists d, o_quantity p = Text d) added)
    /\ (order_type = "OCO"%string ->
        (length added <= 2)%nat /\ added_stop_limit = []
        /\ Forall (fun p => o_quantity p = Raw (rq_quantity rq)) added)
    /\ (order_type = "STOP_LIMIT"%string ->
        added = [] /\ (length added_stop_limit <= 1)%nat
        /\ Forall (fun p => sl_quantity p = rq_quantity rq) added_stop_limit)
    /\ (order_type = "TWAP"%string \/ order_type = "GRID"%string ->
        added = [] /\ added_stop_limit = []).
Proof.
  intros order_type after. subst after. unfold place_new_order_body. fold order_type.
  assert (Hnothing : exists (added : list (order_params float))
                            (added_stop_limit : list stop_limit_params),
             sent (logic st) = sent (logic st) ++ added
             /\ stop_limit_sent st = stop_limit_sent st ++ added_stop_limit
             /\ (In order_type ["MARKET"; "LIMIT"; "STOP_MARKET"]%string ->
                 (length added <= 1)%nat /\ added_stop_limit = []
                 /\ Forall (fun p => exists d, o_quantity p = Text d) added)
             /\ (order_type = "OCO"%string ->
                 (length added <= 2)%nat /\ added_stop_limit = []
                 /\ Forall (fun p => o_quantity p = Raw (rq_quantity rq)) added)
             /\ (order_type = "STOP_LIMIT"%string ->
                 added = [] /\ (length added_stop_limit <= 1)%nat
                 /\ Forall (fun p => sl_quantity p = rq_quantity rq) added_stop_limit)
             /\ (order_type = "TWAP"%string \/ order_type = "GRID"%string ->
                 added = [] /\ added_stop_limit = [])).
  { exists [], []. rewrite !app_nil_r.
    repeat split; try (cbn; lia); constructor. }
  destruct (is_standard order_type) eqn:Hstd.
  - (* through the trading logic *)
    assert (Hno : order_type <> "OCO"%string /\ order_type <> "STOP_LIMIT"%string
                  /\ order_type <> "TWAP"%string /\ order_type <> "GRID"%string).
    { unfold is_standard in Hstd.
      repeat split; intros Heq; rewrite Heq in Hstd; discriminate Hstd. }
    pose proof (place_order_outcome mk_ (logic st) (upper (rq_symbol rq))
                  (upper (rq_side rq)) order_type (Some (rq_quantity rq))
                  (rq_price rq) (rq_stop_price rq) false) as Hplace.
    cbv zeta in Hplace.
    destruct (place_order mk_ (logic st) (upper (rq_symbol rq)) (upper (rq_side rq))
                order_type (Some (rq_quantity rq)) (rq_price rq) (rq_stop_price rq) false)
      as [answer logic'].
    cbn [fst snd logic stop_limit_sent] in *.
    assert (Hadded : exists added,
               sent logic' = sent (logic st) ++ added /\ (length added <= 1)%nat
               /\ Forall (fun p => exists d, o_quantity p = Text d) added).
    { destruct (fst (_normalize_quantity _ _ _ _)) as [e|d].
      - destruct Hplace as [_ ->]. exists []. rewrite app_nil_r.
        repeat split; [cbn; lia | constructor].
      - destruct Hplace as [[-> _] | (p & -> & Hq & _)].
        + exists []. rewrite app_nil_r. repeat split; [cbn; lia | constructor].
        + exists [p]. repeat split; [cbn; lia|].
          constructor; [exists d; exact Hq | constructor]. }
    destruct Hadded as (added & Hsent & Hlen & Hq).
    exists added, []. rewrite app_nil_r.
    split; [exact Hsent|]. split; [reflexivity|]. split; [auto|].
    destruct Hno as (H1 & H2 & H3 & H4).
    split; [intros Ho; contradiction|]. split; [intros Ho; contradiction|].
    intros [Ho | Ho]; contradiction.
  - assert (Hnot : ~ In order_type ["MARKET"; "LIMIT"; "STOP_MARKET"]%string).
    { unfold is_standard in Hstd. intros [<- | [<- | [<- | []]]]; discriminate Hstd. }
    destruct (String.eqb_spec order_type "STOP_LIMIT") as [Hsl|Hsl].
    + (* straight to the API *)
      destruct (rq_price rq) as [price|]; [|exact Hnothing].
      destruct (rq_stop_price rq) as [stop_price|]; [|exact Hnothing].
      destruct (truthy price && truthy stop_price); [|exact Hnothing].
      unfold place_stop_limit_order.
      destruct (stop_limit_api (stop_limit_sent st) _) as [e|order];
        cbn [snd stop_limit_sent logic];
        (exists []; eexists [_]; rewrite app_nil_r;
         split; [reflexivity|]; split; [reflexivity|];
         split; [intros Hin; contradiction|];
         split; [intros Ho; rewrite Ho in Hsl; discriminate Hsl|];
         split; [intros _; repeat split; [cbn; lia | repeat constructor]|];
         intros [Ho | Ho]; rewrite Ho in Hsl; discriminate Hsl).
    + destruct (String.eqb_spec order_type "OCO") as [Hoco|Hoco].
      * (* through the wrapper, twice *)
        destruct (rq_oco_limit_price rq) as [limit_price|]; [|exact Hnothing].
        destruct (rq_oco_stop_price rq) as [stop_price|]; [|exact Hnothing].
        destruct (truthy limit_price && truthy stop_price); [|exact Hnothing].
        cbv zeta.
        destruct (oco_sends_raw_quantity (sent (logic st)) (upper (rq_symbol rq))
                    (upper (rq_side rq)) (rq_quantity rq) limit_price stop_price
                    match or_float (rq_oco_stop_limit_price rq) (rq_oco_stop_price rq) with
                    | Some x => x
                    | None => stop_price
                    end) as (added & Hs & Hl & Hq).
        destruct (place_oco_order _ _ _ _ _ _ _ _) as [[e|report] sent'];
          cbn [snd] in Hs; cbn [snd logic with_sent sent stop_limit_sent];
          (exists added, []; rewrite app_nil_r;
           split; [exact Hs|]; split; [reflexivity|];
           split; [intros Hin; contradiction|];
           split; [auto|]; split; [intros Ho; contradiction|];
           intros [Ho | Ho]; rewrite Ho in Hoco; discriminate Hoco).
      * (* queued, or rejected *)
        destruct (String.eqb order_type "TWAP").
        -- destruct (rq_twap_duration_minutes rq); [|exact Hnothing].
           destruct (rq_twap_interval_seconds rq); [|exact Hnothing].
           destruct (_ && _); exact Hnothing.
        -- destruct (String.eqb order_type "GRID"); [|exact Hnothing].
           destruct (rq_grid_lower_price rq); [|exact Hnothing].
           destruct (rq_grid_upper_price rq); [|exact Hnothing].
           destruct (rq_grid_levels rq); [|exact Hnothing].
           destruct (_ && _); exact Hnothing.
Qed.

Lemma endpoint_state_after (order_id : string) (rq : OrderRequest) (st : endpoint_state) :
  snd (endpoint order_id rq st) = snd (body order_id rq st).
Proof.
  unfold place_new_order. destruct (body order_id rq st) as [[e|reply] st']; reflexivity.
Qed.

End EndpointFacts.

(** The endpoint answers its own rejections with status 500, not 400.
    The [HTTPException]s with status 400 that [place_new_order] raises
    inside its [try] block (a STOP_LIMIT order without price or stop
    price, an OCO order without its two prices, a TWAP order without its
    times, a GRID order without its bounds, an order type it does not
    know) are caught by its own [except Exception] clause and raised again
    as status 500 with the text "Internal server error: ...".  Nothing is
    sent and nothing is queued. *)
Theorem endpoint_answers_own_rejections_with_500 :
  forall (upper : string -> string) (m : market)
         (api : list stop_limit_params -> stop_limit_params -> result order_response)
         (order_id : string) (rq : OrderRequest) (st : endpoint_state),
    let order_type := upper (rq_type rq) in
    let rejected (detail : detail_text) :=
      place_new_order upper m api order_id rq st
      = (inl (HTTPException status_500
                (InternalServerError (HTTPException status_400 detail))), st) in
    (order_type = "STOP_LIMIT"%string ->
     given (rq_price rq) && given (rq_stop_price rq) = false ->
     rejected StopLimitRequiresPrices)
    /\ (order_type = "OCO"%string ->
        given (rq_oco_limit_price rq) && given (rq_oco_stop_price rq) = false ->
        rejected OcoRequiresPrices)
    /\ (order_type = "TWAP"%string ->
        given_int (rq_twap_duration_minutes rq)
        && given_int (rq_twap_interval_seconds rq) = false ->
        rejected TwapRequiresTimes)
    /\ (order_type = "GRID"%string ->
        given (rq_grid_lower_price rq) && given (rq_grid_upper_price rq)
        && given_int (rq_grid_levels rq) = false ->
        rejected GridRequiresBounds)
    /\ (~ In order_type ["MARKET"; "LIMIT"; "STOP_MARKET"; "STOP_LIMIT"; "OCO"; "TWAP";
                         "GRID"]%string ->
        rejected (UnsupportedOrderType order_type)).
Proof.
  intros upper m api order_id rq st order_type rejected. subst rejected. cbv beta.
  repeat split.
  - intros Htype Hmissing. apply own_rejection. unfold place_new_order_body.
    fold order_type. rewrite Htype. cbn [is_standard String.eqb Ascii.eqb Bool.eqb orb].
    unfold given in Hmissing.
    destruct (rq_price rq) as [p|]; [|reflexivity].
    destruct (rq_stop_price rq) as [sp|]; [|destruct (truthy p); reflexivity].
    rewrite Hmissing. reflexivity.
  - intros Htype Hmissing. apply own_rejection. unfold place_new_order_body.
    fold order_type. rewrite Htype. cbn [is_standard String.eqb Ascii.eqb Bool.eqb orb].
    unfold given in Hmissing.
    destruct (rq_oco_limit_price rq) as [p|]; [|reflexivity].
    destruct (rq_oco_stop_price rq) as [sp|]; [|destruct (truthy p); reflexivity].
    rewrite Hmissing. reflexivity.
  - intros Htype Hmissing. apply own_rejection. unfold place_new_order_body.
    fold order_type. rewrite Htype. cbn [is_standard String.eqb Ascii.eqb Bool.eqb orb].
    unfold given_int in Hmissing.
    destruct (rq_twap_duration_minutes rq) as [d|]; [|reflexivity].
    destruct (rq_twap_interval_seconds rq) as [s|];
      [|destruct (negb (d =? 0)%Z); reflexivity].
    rewrite Hmissing. reflexivity.
  - intros Htype Hmissing. apply own_rejection. unfold place_new_order_body.
    fold order_type. rewrite Htype. cbn [is_standard String.eqb Ascii.eqb Bool.eqb orb].
    unfold given, given_int in Hmissing.
    destruct (rq_grid_lower_price rq) as [lo|]; [|reflexivity].
    destruct (rq_grid_upper_price rq) as [up|]; [|reflexivity].
    destruct (rq_grid_levels rq) as [l|]; [|reflexivity].
    rewrite Hmissing. reflexivity.
  - intros Hnone. apply own_rejection. unfold place_new_order_body, is_standard.
    fold order_type.
    repeat match goal with
           | |- context [String.eqb order_type ?s] =>
             destruct (String.eqb_spec order_type s) as [Heq|_];
               [exfalso; apply Hnone; rewrite Heq; cbn; tauto|]
           end.
    reflexivity.
Qed.

Lemma endpoint_answers_own_rejections_with_500_witness :
  place_new_order (fun s => s) quiet_market (fun _ _ => raise OtherException) "id"
    (plain_request "TWAP") fresh_endpoint
  = (inl (HTTPException status_500
            (InternalServerError (HTTPException status_400 TwapRequiresTimes))),
     fresh_endpoint).
Proof.
  apply (proj1 (proj2 (proj2
           (endpoint_answers_own_rejections_with_500 (fun s => s) quiet_market
              (fun _ _ => raise OtherException) "id" (plain_request "TWAP")
              fresh_endpoint)))); reflexivity.
Defined.

(** Only the standard order types are normalised.  A MARKET, LIMIT or
    STOP_MARKET order posted to the endpoint reaches the exchange, if at
    all, as one request carrying the text the normaliser made of the
    quantity; the (at most two) requests of an OCO order carry the
    quantity as posted, unchecked against the LOT_SIZE filter; and so does
    the request of a STOP_LIMIT order.  A TWAP or GRID order sends nothing
    before the answer: its orders are left to the queued task. *)
Theorem endpoint_normalizes_standard_orders_only :
  forall (upper : string -> string) (m : market)
         (api : list stop_limit_params -> stop_limit_params -> result order_response)
         (order_id : string) (rq : OrderRequest) (st : endpoint_state),
    let order_type := upper (rq_type rq) in
    let after := snd (place_new_order upper m api order_id rq st) in
    exists added added_stop_limit,
      sent (logic after) = sent (logic st) ++ added
      /\ stop_limit_sent after = stop_limit_sent st ++ added_stop_limit
      /\ (In order_type ["MARKET"; "LIMIT"; "STOP_MARKET"]%string ->
          (length added <= 1)%nat /\ added_stop_limit = []
          /\ Forall (fun p => exists d, o_quantity p = Text d) added)
      /\ (order_type = "OCO"%string ->
          (length added <= 2)%nat /\ added_stop_limit = []
          /\ Forall (fun p => o_quantity p = Raw (rq_quantity rq)) added)
      /\ (order_type = "STOP_LIMIT"%string ->
          added = [] /\ (length added_stop_limit <= 1)%nat
          /\ Forall (fun p => sl_quantity p = rq_quantity rq) added_stop_limit)
      /\ (order_type = "TWAP"%string \/ order_type = "GRID"%string ->
          added = [] /\ added_stop_limit = []).
Proof.
  intros upper m api order_id rq st order_type after. subst after.
  rewrite endpoint_state_after. apply body_requests.
Qed.
(** ** What stopping and the signal step send to the exchange *)

Section OrderPath.
Variable mk_ : market.

(** A MARKET order without prices: the normaliser decides whether the
    exchange sees a request, and the request carries its text. *)
Lemma place_market_order (st : logic_state) (symbol side : string)
    (quantity : option float) (reduce_only : bool) :
  let outcome := place_order mk_ st symbol side "MARKET" quantity None None reduce_only in
  match fst (_normalize_quantity (_symbol_precision_cache st) symbol
               (symbol_info_lookup mk_ symbol) (quantity_text quantity)) with
  | inl e => fst outcome = raise e /\ sent (snd outcome) = sent st
  | inr d =>
    fst outcome
    = futures_create_order mk_ (sent st) (market_request symbol side d reduce_only)
    /\ sent (snd outcome) = sent st ++ [market_request symbol side d reduce_only]
  end.
Proof.
  cbv zeta. unfold place_order.
  destruct (_normalize_quantity _ _ _ _) as [[e|d] cache]; cbn [fst].
  - cbn. split; reflexivity.
  - unfold client_place_order, order_request. cbn. split; reflexivity.
Qed.

(** The flatten attempt for an open position: the closing order goes
    through the normaliser; what it lets through reaches the exchange as
    one reduce-only MARKET request, and the report follows the answer. *)
Lemma flatten_sends (symbol : string) (st : logic_state)
    (positions : list position_record) (amt : Decimal) :
  symbol <> ""%string ->
  get_positions (futures_position_information mk_) (Some symbol) = ret positions ->
  open_position symbol positions = Some amt ->
  let outcome := _flatten_symbol_position mk_ symbol st in
  match fst (_normalize_quantity (_symbol_precision_cache st) symbol
               (symbol_info_lookup mk_ symbol)
               (Decimal_of_float (float_of_Decimal (abs_decimal amt)))) with
  | inl e =>
    sent (snd outcome) = sent st
    /\ f_closed (fst outcome) = false
    /\ f_message (fst outcome) = UnexpectedCloseError e
  | inr d =>
    let request := market_request symbol (closing_side amt) d true in
    sent (snd outcome) = sent st ++ [request]
    /\ match futures_create_order mk_ (sent st) request with
       | inr _ =>
         f_closed (fst outcome) = true
         /\ f_message (fst outcome) = ClosedPosition (closing_side amt)
       | inl e =>
         f_closed (fst outcome) = false
         /\ f_message (fst outcome)
            = if is_gateway_error e then FailedToClose e else UnexpectedCloseError e
       end
  end.
Proof.
  intros Hsym Hpos Hopen outcome. subst outcome.
  unfold _flatten_symbol_position.
  destruct (String.eqb_spec symbol "") as [|_]; [contradiction|].
  destruct positions as [|position rest]; [discriminate Hopen|].
  unfold query_positions. rewrite Hpos. unfold ret. cbv beta iota.
  set (st1 := {| active_strategies := active_strategies st;
                 strategy_statuses := strategy_statuses st;
                 _strategy_tasks := _strategy_tasks st;
                 _symbol_precision_cache := _symbol_precision_cache st;
                 submitted := submitted st; sent := sent st;
                 position_queries := position_queries st ++ [symbol] |}).
  rewrite (flatten_loop_closes_open_position mk_ symbol (position :: rest) st1 amt Hopen).
  cbv zeta.
  pose proof (place_market_order st1 symbol (closing_side amt)
                (Some (float_of_Decimal (abs_decimal amt))) true) as Hplace.
  cbv zeta in Hplace. cbn [quantity_text] in Hplace.
  change (_symbol_precision_cache st1) with (_symbol_precision_cache st) in Hplace.
  change (sent st1) with (sent st) in Hplace.
  unfold closing_side in *.
  destruct (fst (_normalize_quantity (_symbol_precision_cache st) symbol
                   (symbol_info_lookup mk_ symbol)
                   (Decimal_of_float (float_of_Decimal (abs_decimal amt)))))
    as [e|d] eqn:Hnorm.
  - pose proof (normalize_quantity_raises_no_gateway_error _ _ _ _ _ Hnorm) as Hng.
    destruct (place_order mk_ st1 symbol _ "MARKET" _ None None true) as [answer st'].
    cbn [fst snd] in Hplace. destruct Hplace as [-> Hsent]. unfold raise.
    destruct e; try discriminate Hng; cbn [fst snd f_closed f_message];
      repeat split; exact Hsent.
  - cbv zeta.
    destruct (place_order mk_ st1 symbol _ "MARKET" _ None None true) as [answer st'].
    cbn [fst snd] in Hplace. destruct Hplace as [-> Hsent].
    split.
    + destruct (futures_create_order mk_ (sent st) _) as [[]|order];
        cbn [snd]; exact Hsent.
    + destruct (futures_create_order mk_ (sent st) _) as [[]|order];
        cbn [fst f_closed f_message is_gateway_error]; split; reflexivity.
Qed.

End OrderPath.

(** C7, amended.  Stopping a registered strategy removes it from the
    active registry (a second stop finds nothing and changes nothing) and
    makes one flatten attempt, whose report is in the summary.  With an
    empty symbol the attempt reports that no symbol was provided: no
    position is queried, no order is submitted, nothing is sent.
    Otherwise the attempt asks the exchange once for the positions of the
    symbol.  When the query fails, or returns no record of the symbol
    whose amount parses and is not zero, no order is submitted, nothing
    is sent and the report says so.  Otherwise exactly one reduce-only
    MARKET order is submitted to [place_order] for the first such
    record: side BUY for a negative amount, SELL for a positive one,
    quantity the absolute amount as a float.  [place_order] normalises
    that quantity: when the normaliser refuses it, nothing is sent and
    the position is reported as not closed; otherwise exactly one
    reduce-only MARKET request of that side reaches the exchange, with
    the normalised text as its quantity, and the position is reported as
    closed if and only if the exchange accepts the request.  A short
    position of 0.02 is closed by a reduce-only BUY of 0.02. *)
Theorem stopping_flattens_once :
  (forall (m : market) (name : string) (config : StrategyConfig) (st : logic_state),
      active_strategies st !! name = Some config ->
      exists summary st',
        stop_strategy m name st = (Some summary, st')
        /\ active_strategies st' = delete name (active_strategies st)
        /\ stop_strategy m name st' = (None, st')
        /\ if String.eqb (c_symbol config) "" then
             position_queries st' = position_queries st
             /\ submitted st' = submitted st /\ sent st' = sent st
             /\ positionClosed summary = false
             /\ notes summary = NoSymbolProvided
           else
             position_queries st' = position_queries st ++ [c_symbol config]
             /\ match get_positions (futures_position_information m)
                        (Some (c_symbol config)) with
                | inl e =>
                  submitted st' = submitted st /\ sent st' = sent st
                  /\ positionClosed summary = false
                  /\ notes summary = FailedToFetchPositions e
                | inr positions =>
                  match open_position (c_symbol config) positions with
                  | None =>
                    submitted st' = submitted st /\ sent st' = sent st
                    /\ positionClosed summary = false
                    /\ (notes summary = NoPositionData
                        \/ notes summary = NoOpenPosition)
                  | Some amt =>
                    submitted st'
                    = submitted st ++ [closing_order (c_symbol config) amt]
                    /\ match fst (_normalize_quantity (_symbol_precision_cache st)
                                    (c_symbol config)
                                    (symbol_info_lookup m (c_symbol config))
                                    (Decimal_of_float
                                       (float_of_Decimal (abs_decimal amt)))) with
                       | inl e =>
                         sent st' = sent st
                         /\ positionClosed summary = false
                         /\ notes summary = UnexpectedCloseError e
                       | inr d =>
                         let request :=
                           market_request (c_symbol config) (closing_side amt) d true in
                         sent st' = sent st ++ [request]
                         /\ match futures_create_order m (sent st) request with
                            | inr _ =>
                              positionClosed summary = true
                              /\ notes summary = ClosedPosition (closing_side amt)
                            | inl e =>
                              positionClosed summary = false
                              /\ notes summary
                                 = if is_gateway_error e then FailedToClose e
                                   else UnexpectedCloseError e
                            end
                       end
                  end
                end)
  /\ (let st' := snd (stop_strategy
                        (short_market (ret 1%float)) "s1"
                        (running (crossover "s1" "BTCUSDT"))) in
      submitted st'
      = [{| i_symbol := "BTCUSDT"; i_side := "BUY"; i_type := "MARKET";
            i_quantity := Some 0.02%float; i_reduce_only := true |}]
      /\ sent st'
         = [{| o_symbol := "BTCUSDT"; o_side := "BUY"; o_type := "MARKET";
               o_quantity := Text (mk false 2 (-2)); o_price := None;
               o_timeInForce := None; o_stopPrice := None; o_reduceOnly := true |}]).
Proof.
  split; [|vm_compute; split; reflexivity].
  intros m name config st Hreg.
  unfold stop_strategy at 1. rewrite Hreg.
  set (st1 := {| active_strategies := delete name (active_strategies st);
                 strategy_statuses := _; _strategy_tasks := _;
                 _symbol_precision_cache := _; submitted := _; sent := _;
                 position_queries := _ |}).
  pose proof (flatten_keeps_registries m (c_symbol config) st1) as Hkeep.
  cbv zeta in Hkeep. destruct Hkeep as (Ha & _ & _).
  assert (Hagain : forall st2 note,
             active_strategies st2 = active_strategies st1 ->
             stop_strategy m name (set_statuses (alter note name) st2)
             = (None, set_statuses (alter note name) st2)).
  { intros st2 note Heq. unfold stop_strategy. cbn [active_strategies set_statuses].
    rewrite Heq. cbn [active_strategies st1]. rewrite lookup_delete_eq. reflexivity. }
  destruct (String.eqb_spec (c_symbol config) "") as [Hempty|Hsym].
  - unfold _flatten_symbol_position in *. rewrite Hempty in *.
    cbn [String.eqb fst snd] in *.
    eexists _, _. split; [reflexivity|].
    cbn [positionClosed notes set_statuses active_strategies position_queries
         submitted sent f_closed f_message st1].
    split; [reflexivity|]. split; [|repeat split].
    apply Hagain. reflexivity.
  - pose proof (flatten_effects m (c_symbol config) st1 Hsym) as Heff.
    pose proof (flatten_sends m (c_symbol config) st1) as Hsends.
    destruct (_flatten_symbol_position m (c_symbol config) st1) as [flat st2].
    cbn [fst snd] in Ha, Hsends.
    destruct Heff as (_ & _ & Hq & Hpos).
    eexists _, _. split; [reflexivity|].
    cbn [positionClosed notes set_statuses active_strategies position_queries
         submitted sent].
    split; [rewrite Ha; reflexivity|]. split; [apply Hagain; exact Ha|].
    split; [exact Hq|].
    destruct (get_positions (futures_position_information m) (Some (c_symbol config)))
      as [e|positions]; [exact Hpos|].
    destruct (open_position (c_symbol config) positions) as [amt|] eqn:Hopen;
      [|exact Hpos].
    split; [exact Hpos|].
    exact (Hsends positions amt Hsym eq_refl Hopen).
Qed.

Lemma stopping_flattens_once_witness :
  exists summary st',
    stop_strategy (short_market (ret 1%float)) "s1"
      (running (crossover "s1" "BTCUSDT"))
    = (Some summary, st')
    /\ active_strategies st'
       = delete "s1"%string (active_strategies (running (crossover "s1" "BTCUSDT")))
    /\ position_queries st' = ["BTCUSDT"%string]
    /\ submitted st' = [closing_order "BTCUSDT" (mk true 20 (-3))]
    /\ sent st' = [market_request "BTCUSDT" "BUY" (mk false 2 (-2)) true]
    /\ positionClosed summary = true.
Proof.
  destruct (proj1 stopping_flattens_once
              (short_market (ret 1%float)) "s1" (crossover "s1" "BTCUSDT")
              (running (crossover "s1" "BTCUSDT")) eq_refl)
    as (summary & st' & Hstop & Hreg & _ & Hrest).
  vm_compute in Hrest.
  destruct Hrest as (Hq & Hsub & Hsent & Hclosed & _).
  exists summary, st'. repeat split; assumption.
Defined.

Section SignalPath.
Variable mk_ : market.



End SignalPath.


